(** * model-router: routing, selection and fallback execution

    A shallow embedding of the routing core of the [model_router] package
    (selector, strategies, engine, provider base class, provider factory and
    the fallback walk of the router facade), with the properties of its
    specification proved over the embedding.

    Conventions of the embedding.
    - A Python [float] is a rational number ([Q]): arithmetic is exact and
      comparisons are the comparisons of the code.  Equalities between scores
      are therefore stated with [==] ("within floating rounding").  Division
      is the total division of [Q]; on validated inputs (prices and latency
      bounds above zero) the code only divides by positive numbers.
    - A Python exception is a value of [Error]; code that can raise returns a
      [Result].
    - A frozen dataclass instance is an [obj]: an address together with an
      immutable value.  [is] compares addresses, [==] compares values.
    - A [frozenset] of strings is a [gset string], a [dict] used as a lookup
      table whose iteration order matters is an association list, a [dict]
      used as a map is a [gmap].
    - A Python [str] is a [string] of ASCII characters.  On ASCII text
      [len] is [String.length] and [str.isspace], [str.strip] and
      [str.lower] are the functions of module [Py]; Python knows further
      white space and letters beyond ASCII, which these functions do not.
      A property that would read differently on such text carries the
      hypothesis [is_ascii]. *)

From Stdlib Require Import QArith Qminmax Qround Qabs Qpower Lqa Ascii String Sorted.
From stdpp Require Import gmap strings list.

Local Open Scope string_scope.

(** ** Exceptions and results *)

#[local] Set Warnings "-register-all".

Inductive Error : Type :=
  | ProviderError (msg : string)
  | ProviderAuthError (msg : string)
  | ProviderRateLimitError (msg : string)
  | ProviderUnavailableError (msg : string)
  | NoSuitableModelError (msg : string)
  | ValidationError (msg : string)
  | ValueError (msg : string)
  | KeyError (msg : string)
  | AttributeError (msg : string)
  | IndexError (msg : string)
  | RuntimeError (msg : string) (cause : option Error)
  | OtherException (msg : string).

Inductive Result (A : Type) : Type :=
  | Ok (a : A)
  | Raise (e : Error).
Arguments Ok {A} a.
Arguments Raise {A} e.

Definition is_ok {A} (r : Result A) : bool :=
  match r with Ok _ => true | Raise _ => false end.

(** [isinstance(e, ProviderError)]: the class and its three subclasses. *)
Definition is_provider_error (e : Error) : bool :=
  match e with
  | ProviderError _ | ProviderAuthError _
  | ProviderRateLimitError _ | ProviderUnavailableError _ => true
  | _ => false
  end.

(** The two error classes the provider base class retries on. *)
Definition is_transient (e : Error) : bool :=
  match e with
  | ProviderRateLimitError _ | ProviderUnavailableError _ => true
  | _ => false
  end.

(** ** Python built-ins used by the code *)

Module Py.

(** [max(a, b)] keeps [a] unless [b > a]; [min(a, b)] keeps [a] unless
    [b < a].  These are [Qmax] and [Qmin]. *)
Definition max (a b : Q) : Q := Qmax a b.
Definition min (a b : Q) : Q := Qmin a b.

(** [sum(xs)]: left fold from 0. *)
Definition sum (xs : list Q) : Q := foldl Qplus 0%Q xs.

(** [str.isspace] on one (ASCII) character. *)
Definition is_space (c : ascii) : bool :=
  let n := nat_of_ascii c in
  ((9 <=? n)%nat && (n <=? 13)%nat) || ((28 <=? n)%nat && (n <=? 32)%nat).

Fixpoint all_space (s : string) : bool :=
  match s with
  | EmptyString => true
  | String c r => is_space c && all_space r
  end.

Fixpoint lstrip (s : string) : string :=
  match s with
  | EmptyString => EmptyString
  | String c r => if is_space c then lstrip r else s
  end.

Fixpoint rstrip (s : string) : string :=
  match s with
  | EmptyString => EmptyString
  | String c r =>
      match rstrip r with
      | EmptyString => if is_space c then EmptyString else String c EmptyString
      | r' => String c r'
      end
  end.

(** [s.strip()]. *)
Definition strip (s : string) : string := rstrip (lstrip s).

(** [not s]: a string is falsy when it is empty. *)
Definition falsy (s : string) : bool :=
  match s with EmptyString => true | _ => false end.

(** [not s.strip()]. *)
Definition is_blank (s : string) : bool := falsy (strip s).

(** [s[n:]]. *)
Fixpoint drop_chars (n : nat) (s : string) : string :=
  match n, s with
  | S k, String _ r => drop_chars k r
  | _, _ => s
  end.

Definition lower_char (c : ascii) : ascii :=
  let n := nat_of_ascii c in
  if ((65 <=? n)%nat && (n <=? 90)%nat) then ascii_of_nat (n + 32) else c.

(** [str.lower] (ASCII letters). *)
Fixpoint lower (s : string) : string :=
  match s with
  | EmptyString => EmptyString
  | String c r => String (lower_char c) (lower r)
  end.

(** [needle in hay] on strings. *)
Fixpoint contains (needle hay : string) : bool :=
  String.prefix needle hay ||
  match hay with
  | EmptyString => false
  | String _ r => contains needle r
  end.

(** [sep.join(parts)]. *)
Fixpoint join (sep : string) (parts : list string) : string :=
  match parts with
  | [] => ""
  | [p] => p
  | p :: rest => p ++ sep ++ join sep rest
  end.

(** Decimal digits of a natural number, most significant first. *)
Definition digit (n : nat) : ascii := ascii_of_nat (48 + n mod 10).

Fixpoint digits_fuel (fuel n : nat) (acc : string) : string :=
  match fuel with
  | O => acc
  | S f =>
      let acc' := String (digit n) acc in
      if (n <? 10)%nat then acc' else digits_fuel f (n / 10) acc'
  end.

Definition nat_to_string (n : nat) : string := digits_fuel (S n) n "".

(** Round to the nearest integer, ties to even: the rounding of
    [format(x, '.2f')] applied to the exact value of [x]. *)
Definition round_half_even (q : Q) : Z :=
  let f := Qfloor q in
  let r := (q - inject_Z f)%Q in
  match Qcompare r (1 # 2) with
  | Lt => f
  | Gt => (f + 1)%Z
  | Eq => if Z.even f then f else (f + 1)%Z
  end.

(** [format(x, '.2f')]: sign, integer part, a dot, exactly two digits. *)
Definition format_2f (q : Q) : string :=
  let neg := match Qcompare q 0 with Lt => true | _ => false end in
  let n := Z.to_nat (round_half_even (Qabs q * 100)) in
  (if neg then "-" else "") ++
  nat_to_string (n / 100) ++ "." ++
  String (digit (n / 10)) (String (digit n) "").

Fixpoint frac_digits (fuel : nat) (num den : Z) : string :=
  match fuel with
  | O => ""
  | S f =>
      if (num =? 0)%Z then ""
      else String (digit (Z.to_nat (num * 10 / den)))
                  (frac_digits f ((num * 10) mod den) den)
  end.

(** A decimal printer for floats: sign, integer part, a dot and the
    fraction digits (at least one, at most seventeen).  It prints what
    [repr] prints on floats written as short decimals of moderate size
    ([0.05], [0.9], [1000.0]); it is only used to run the code on concrete
    inputs, the selector takes the printer as a parameter. *)
Definition repr_decimal (q : Q) : string :=
  let neg := match Qcompare q 0 with Lt => true | _ => false end in
  let a := Qabs q in
  let ip := Qfloor a in
  let den := Zpos (Qden a) in
  let frac := frac_digits 17 (Qnum a - ip * den) den in
  (if neg then "-" else "") ++ nat_to_string (Z.to_nat ip) ++ "." ++
  (if falsy frac then "0" else frac).

End Py.

(** ** Objects: identity and value *)

(** An instance of a frozen class lives at an address and never changes.
    [a is b] compares the addresses; [a == b] compares the values. *)
Record obj (A : Type) : Type := Obj { addr : nat; val : A }.
Arguments Obj {A} addr val.
Arguments addr {A} o.
Arguments val {A} o.

Definition is_ {A} (a b : obj A) : bool := Nat.eqb (addr a) (addr b).
Definition is_not {A} (a b : obj A) : bool := negb (is_ a b).

(** ** Domain value objects ([domain/models.py]) *)

Inductive Provider : Type := OPENAI | ANTHROPIC | GOOGLE | CUSTOM.

Definition Provider_value (p : Provider) : string :=
  match p with
  | OPENAI => "openai"
  | ANTHROPIC => "anthropic"
  | GOOGLE => "google"
  | CUSTOM => "custom"
  end.

Definition Provider_eqb (a b : Provider) : bool :=
  match a, b with
  | OPENAI, OPENAI | ANTHROPIC, ANTHROPIC | GOOGLE, GOOGLE | CUSTOM, CUSTOM => true
  | _, _ => false
  end.

Record ModelConfig : Type := {
  provider : Provider;
  model_name : string;
  pricing : Q;
  capabilities : gset string
}.

(** [Field(..., gt=0)] and [validate_pricing]. *)
Definition ModelConfig_valid (m : ModelConfig) : bool :=
  match Qcompare 0 (pricing m) with Lt => true | _ => false end.

(** Dataclass equality: field by field. *)
Definition ModelConfig_eqb (a b : ModelConfig) : bool :=
  Provider_eqb (provider a) (provider b)
  && String.eqb (model_name a) (model_name b)
  && Qeq_bool (pricing a) (pricing b)
  && bool_decide (capabilities a = capabilities b).

(** [x in xs] on a tuple: some element is [x] or equals [x]. *)
Definition tuple_contains (xs : list (obj ModelConfig)) (x : obj ModelConfig) : bool :=
  existsb (λ y, is_ x y || ModelConfig_eqb (val x) (val y)) xs.

(** The request: [params] and [metadata] are free-form maps that the routing
    core never reads; the prompt is what it routes on. *)
Record Request : Type := { prompt : string }.

(** [Request.validate_prompt]. *)
Definition Request_valid (r : Request) : bool :=
  negb (String.eqb (prompt r) "") && negb (Py.is_blank (prompt r)).

Record Response : Type := {
  content : string;
  model_used : string;
  cost : Q;
  latency : Q;
  tokens : Z
}.

Inductive RoutingStrategy : Type :=
  COST_BIASED | QUALITY_BIASED | BALANCED | LATENCY_BIASED.

Record RoutingConstraints : Type := {
  max_cost : option Q;
  max_latency : option Q;
  min_quality : option Q;
  strategy : RoutingStrategy
}.

Definition Qltb (a b : Q) : bool :=
  match Qcompare a b with Lt => true | _ => false end.

(** [Field(gt=0)] on both bounds and [validate_constraints]. *)
Definition RoutingConstraints_valid (c : RoutingConstraints) : bool :=
  match max_cost c with Some x => Qltb 0 x | None => true end
  && match max_latency c with Some x => Qltb 0 x | None => true end
  && match min_quality c with
     | Some q => Qle_bool 0 q && Qle_bool q 1
     | None => true
     end
  && negb (match max_cost c, max_latency c with None, None => true | _, _ => false end).

Record RoutingDecision : Type := {
  selected_model : obj ModelConfig;
  estimated_cost : Q;
  reasoning : string;
  alternatives_considered : list (obj ModelConfig)
}.

(** The constructor of [RoutingDecision]: the field constraint
    [estimated_cost >= 0], then the model validator [ensure_reasoning].
    Every failure surfaces as a validation error. *)
Definition RoutingDecision_new (selected : obj ModelConfig) (est_cost : Q)
    (reason : string) (alternatives : list (obj ModelConfig))
    : Result RoutingDecision :=
  if negb (Qle_bool 0 est_cost) then
    Raise (ValidationError "estimated_cost must be greater than or equal to 0")
  else if Py.is_blank reason then
    Raise (ValidationError "reasoning must not be empty")
  else if tuple_contains alternatives selected then
    Raise (ValidationError "selected model cannot be listed as an alternative")
  else
    Ok {| selected_model := selected;
          estimated_cost := est_cost;
          reasoning := reason;
          alternatives_considered := alternatives |}.

(** A decision that came out of the constructor. *)
Definition constructed (d : RoutingDecision) : Prop :=
  RoutingDecision_new (selected_model d) (estimated_cost d) (reasoning d)
    (alternatives_considered d) = Ok d.

(** ** Complexity estimation ([routing/estimator.py]) *)

(** [_clamp(value, minimum=0.0, maximum=1.0)]; every module of the package
    defines the same helper. *)
Definition _clamp (value : Q) : Q := Py.max 0 (Py.min value 1).

Definition Qnat (n : nat) : Q := inject_Z (Z.of_nat n).

(** [sum(1 for x in xs if p(x))]. *)
Definition count_if {A} (p : A → bool) (xs : list A) : nat :=
  length (List.filter p xs).

Module Estimator.

(** A feature extractor: [extract(prompt)]. *)
Definition IFeatureExtractor : Type := string → Q.

(** [len(prompt)] counts characters: [String.length] on ASCII text. *)
Definition LengthFeatureExtractor (target_chars : Z) : IFeatureExtractor :=
  λ prompt,
    _clamp (Qnat (String.length prompt) / inject_Z (Z.max 1 target_chars)).

(** The pattern [```.+?```] with [DOTALL]: a fence, at least one character
    of any kind, a fence. *)
Fixpoint FENCE_PATTERN_search (s : string) : bool :=
  (String.prefix "```" s && Py.contains "```" (Py.drop_chars 4 s)) ||
  match s with
  | EmptyString => false
  | String _ r => FENCE_PATTERN_search r
  end.

Definition CODE_KEYWORDS : list string :=
  ["def "; "class "; "SELECT "; "function"; "public "; "{"; ";"; "</"].

Definition CodeBlockFeatureExtractor : IFeatureExtractor :=
  λ prompt,
    if FENCE_PATTERN_search prompt then 1%Q
    else
      let lowered := Py.lower prompt in
      let matches :=
        count_if (λ keyword, Py.contains (Py.lower (Py.strip keyword)) lowered)
                 CODE_KEYWORDS in
      _clamp (Qnat matches / Qnat (length CODE_KEYWORDS)).

Definition KEYWORDS : list string :=
  ["reason"; "explain"; "derive"; "analyze"; "justify"; "step-by-step";
   "compare"; "evaluate"].

Definition ReasoningKeywordExtractor : IFeatureExtractor :=
  λ prompt,
    let lowered := Py.lower prompt in
    let matches := count_if (λ keyword, Py.contains keyword lowered) KEYWORDS in
    _clamp (Qnat matches / 2).

Definition TERMS : list string :=
  ["tensor"; "gradient"; "database"; "encryption"; "neural"; "api";
   "schema"; "complexity"; "algorithm"; "probability"; "latency"].

Definition TechnicalTermExtractor : IFeatureExtractor :=
  λ prompt,
    let lowered := Py.lower prompt in
    let matches := count_if (λ term, Py.contains term lowered) TERMS in
    _clamp (Qnat matches / 3).

(** [statistics.fmean]. *)
Definition fmean (xs : list Q) : Q := (Py.sum xs / Qnat (length xs))%Q.

Record ComplexityEstimator : Type := { _features : list IFeatureExtractor }.

Definition ComplexityEstimator_new (features : list IFeatureExtractor)
    : Result ComplexityEstimator :=
  match features with
  | [] => Raise (ValueError "At least one feature extractor must be provided")
  | _ => Ok {| _features := features |}
  end.

Definition estimate (self : ComplexityEstimator) (prompt : string) : Q :=
  if Py.falsy prompt || Py.is_blank prompt then 0%Q
  else
    let scores := map (λ feature : IFeatureExtractor, _clamp (feature prompt))
                      (_features self) in
    _clamp (fmean scores).

Definition default_complexity_estimator : ComplexityEstimator :=
  {| _features := [LengthFeatureExtractor 300; CodeBlockFeatureExtractor;
                   ReasoningKeywordExtractor; TechnicalTermExtractor] |}.

End Estimator.

(** ** Routing strategies ([routing/strategies]) *)

(** [IRoutingStrategy]: a score per (model, complexity, constraints) and a
    name. *)
Record IRoutingStrategy : Type := {
  score_model : ModelConfig → Q → RoutingConstraints → Q;
  name : string
}.

(** [d.get(key, default)] on a table written as a literal. *)
Fixpoint dict_get (d : list (string * Q)) (key : string) (default : Q) : Q :=
  match d with
  | [] => default
  | (k, v) :: rest => if String.eqb k key then v else dict_get rest key default
  end.

Definition dict_values (d : list (string * Q)) : list Q := map snd d.

Module CostStrategy.

Definition score (model : ModelConfig) (complexity : Q)
    (constraints : RoutingConstraints) : Q :=
  let price := Py.max (pricing model) (1 # 1000000) in
  let base := (1 / (1 + price * 10))%Q in
  let base :=
    match max_cost constraints with
    | Some mc => if Qltb mc price then (base * (2 # 10))%Q else base
    | None => base
    end in
  let penalty := ((15 # 100) * _clamp complexity)%Q in
  let score := (base * (1 - penalty))%Q in
  _clamp score.

Definition CostOptimizedStrategy : IRoutingStrategy :=
  {| score_model := score; name := "cost_optimized" |}.

End CostStrategy.

Module QualityStrategy.

Definition WEIGHTS : list (string * Q) :=
  [("reasoning", 4 # 10); ("code", 3 # 10); ("vision", 15 # 100);
   ("chat", 1 # 10); ("analysis", 5 # 100)].

Definition _capability_score (model : ModelConfig) : Q :=
  let total := Py.sum (dict_values WEIGHTS) in
  let raw := Py.sum (map (λ cap, dict_get WEIGHTS cap 0)
                         (elements (capabilities model))) in
  if Qeq_bool total 0 then 0%Q else (raw / total)%Q.

Definition score (model : ModelConfig) (complexity : Q)
    (constraints : RoutingConstraints) : Q :=
  let capability_score := _capability_score model in
  let complexity_boost := ((5 # 10) + (5 # 10) * _clamp complexity)%Q in
  let score := (capability_score * complexity_boost)%Q in
  let score :=
    match max_cost constraints with
    | Some mc => if Qltb mc (pricing model) then (score * (9 # 10))%Q else score
    | None => score
    end in
  let score :=
    match min_quality constraints with
    | Some mq => (score + (1 # 10) * _clamp mq)%Q
    | None => score
    end in
  _clamp score.

Definition QualityOptimizedStrategy : IRoutingStrategy :=
  {| score_model := score; name := "quality_optimized" |}.

End QualityStrategy.

Module LatencyStrategy.

Definition LATENCY_WEIGHTS : list (string * Q) :=
  [("low-latency", 1); ("realtime", 9 # 10); ("streaming", 7 # 10);
   ("batch", - (4 # 10))]%Q.

Definition score (model : ModelConfig) (complexity : Q)
    (constraints : RoutingConstraints) : Q :=
  let capability_score :=
    Py.sum (map (λ cap, dict_get LATENCY_WEIGHTS cap 0)
                (elements (capabilities model))) in
  let capability_score :=
    (Py.max capability_score 0
     / inject_Z (Z.max (Z.of_nat (length LATENCY_WEIGHTS)) 1))%Q in
  let cost_component := (1 / (1 + pricing model * 5))%Q in
  let complexity_penalty := ((1 # 10) * _clamp complexity)%Q in
  let score := (capability_score + (3 # 10) * cost_component - complexity_penalty)%Q in
  let score :=
    match max_latency constraints with
    | Some ml => (score * (1 + 1 / (ml + 1)))%Q
    | None => score
    end in
  _clamp score.

Definition LatencyOptimizedStrategy : IRoutingStrategy :=
  {| score_model := score; name := "latency_optimized" |}.

End LatencyStrategy.

Module BalancedStrategy.

Definition _cost := CostStrategy.CostOptimizedStrategy.
Definition _quality := QualityStrategy.QualityOptimizedStrategy.
Definition _latency := LatencyStrategy.LatencyOptimizedStrategy.

Definition score (model : ModelConfig) (complexity : Q)
    (constraints : RoutingConstraints) : Q :=
  let cost_score := score_model _cost model complexity constraints in
  let quality_score := score_model _quality model complexity constraints in
  let latency_score := score_model _latency model complexity constraints in
  let score :=
    ((3 # 10) * cost_score + (45 # 100) * quality_score
     + (25 # 100) * latency_score)%Q in
  _clamp score.

Definition BalancedStrategy : IRoutingStrategy :=
  {| score_model := score; name := "balanced" |}.

End BalancedStrategy.

(** ** Model selection ([routing/selector.py]) *)

(** The outcome of [scored.sort(key=lambda item: item[1], reverse=True)]:
    the list in descending order of score, entries of equal score in their
    original order (the sort is stable). *)
Section StableSort.
Context {A : Type}.

Fixpoint insert_desc (x : A * Q) (l : list (A * Q)) : list (A * Q) :=
  match l with
  | [] => [x]
  | y :: rest =>
      if Qltb (snd x) (snd y) then y :: insert_desc x rest
      else x :: y :: rest
  end.

Fixpoint sort_desc (l : list (A * Q)) : list (A * Q) :=
  match l with
  | [] => []
  | x :: rest => insert_desc x (sort_desc rest)
  end.
End StableSort.

Module Selector.

Definition QUALITY_WEIGHTS : list (string * Q) :=
  [("reasoning", 1); ("code", 8 # 10); ("analysis", 6 # 10);
   ("vision", 5 # 10); ("chat", 4 # 10)]%Q.

Definition LOW_LATENCY_TAGS : gset string :=
  {[ "low-latency"; "realtime"; "streaming" ]}.

Definition _quality_score (model : ModelConfig) : Q :=
  if bool_decide (capabilities model = ∅) then 0%Q
  else
    let total := Py.sum (dict_values QUALITY_WEIGHTS) in
    let raw :=
      Py.sum (map snd
                (List.filter
                   (λ item : string * Q,
                      bool_decide (fst item ∈ capabilities model))
                   QUALITY_WEIGHTS)) in
    (raw / total)%Q.

Definition _supports_low_latency (model : ModelConfig) : bool :=
  existsb (λ cap, bool_decide (cap ∈ LOW_LATENCY_TAGS))
          (elements (capabilities model)).

(** One turn of the filtering loop: [true] when the model reaches
    [filtered.append(model)], [false] when one of the three tests hits
    [continue]. *)
Definition survives (constraints : RoutingConstraints) (model : ModelConfig) : bool :=
  if match max_cost constraints with
     | Some mc => Qltb mc (pricing model)
     | None => false
     end
  then false
  else if match min_quality constraints with
          | Some mq => Qltb (_quality_score model) mq
          | None => false
          end
  then false
  else if match max_latency constraints with
          | Some ml => Qle_bool ml 200 && negb (_supports_low_latency model)
          | None => false
          end
  then false
  else true.

Fixpoint _filter_by_constraints (models : list (obj ModelConfig))
    (constraints : RoutingConstraints) : list (obj ModelConfig) :=
  match models with
  | [] => []
  | model :: rest =>
      if survives constraints (val model)
      then model :: _filter_by_constraints rest constraints
      else _filter_by_constraints rest constraints
  end.

Section WithStrategy.
(** The injected strategy, and [repr] on floats (used by the f-strings of
    the reasoning text). *)
Variable _strategy : IRoutingStrategy.
Variable float_repr : Q → string.

Definition _complexity_estimator := Estimator.default_complexity_estimator.

Definition _score_models (models : list (obj ModelConfig)) (complexity : Q)
    (constraints : RoutingConstraints) : list (obj ModelConfig * Q) :=
  map (λ model, (model, score_model _strategy (val model) complexity constraints))
      models.

Definition _build_reasoning (selected : obj ModelConfig) (top_score : Q)
    (scored : list (obj ModelConfig * Q)) (constraints : RoutingConstraints)
    : string :=
  let summary :=
    "Strategy " ++ name _strategy ++ " selected "
    ++ model_name (val selected) ++ " with score "
    ++ Py.format_2f top_score ++ " under constraints" in
  let parts :=
    List.app
      match max_cost constraints with
      | Some x => ["max_cost=" ++ float_repr x] | None => [] end
      (List.app
         match max_latency constraints with
         | Some x => ["max_latency=" ++ float_repr x] | None => [] end
         match min_quality constraints with
         | Some x => ["min_quality=" ++ float_repr x] | None => [] end) in
  let constraint_text :=
    match parts with
    | [] => ""
    | _ => " (" ++ Py.join ", " parts ++ ")"
    end in
  let alt_names :=
    map (λ item : obj ModelConfig * Q, model_name (val (fst item)))
        (take 2 (drop 1 scored)) in
  let alt_text :=
    match alt_names with
    | [] => ""
    | _ => ". Considered: " ++ Py.join ", " alt_names
    end in
  summary ++ constraint_text ++ alt_text.

Definition _create_decision (selected : obj ModelConfig) (top_score : Q)
    (scored : list (obj ModelConfig * Q)) (constraints : RoutingConstraints)
    : Result RoutingDecision :=
  let alternatives :=
    map fst (List.filter (λ item : obj ModelConfig * Q, is_not (fst item) selected)
                         scored) in
  let reasoning := _build_reasoning selected top_score scored constraints in
  RoutingDecision_new selected (pricing (val selected)) reasoning alternatives.

Definition select (available_models : list (obj ModelConfig))
    (request : Request) (constraints : RoutingConstraints)
    : Result RoutingDecision :=
  let eligible := _filter_by_constraints available_models constraints in
  match eligible with
  | [] => Raise (NoSuitableModelError "No models satisfy hard constraints")
  | _ =>
      let complexity :=
        Estimator.estimate _complexity_estimator (prompt request) in
      let scored := sort_desc (_score_models eligible complexity constraints) in
      match scored with
      | (best_model, best_score) :: _ =>
          _create_decision best_model best_score scored constraints
      | [] => Raise (IndexError "list index out of range")
      end
  end.
End WithStrategy.

End Selector.

(** ** Routing engine ([routing/engine.py]) *)

Module Engine.

(** [IModelSelector.select]. *)
Definition IModelSelector : Type :=
  list (obj ModelConfig) → Request → RoutingConstraints → Result RoutingDecision.

Record RoutingEngine : Type := {
  _estimator : string → Q;
  _selector : IModelSelector;
  _models : list (obj ModelConfig)
}.

Definition RoutingEngine_new (estimator : string → Q)
    (selector : IModelSelector) (models : list (obj ModelConfig))
    : Result RoutingEngine :=
  match models with
  | [] => Raise (ValueError "At least one model must be provided to the engine")
  | _ => Ok {| _estimator := estimator; _selector := selector; _models := models |}
  end.

(** What [route] asks of its collaborators, in order. *)
Inductive Call : Type :=
  | CallEstimate (prompt : string)
  | CallSelect (models : list (obj ModelConfig)) (request : Request)
               (constraints : RoutingConstraints).

(** [route]: the result and the calls made on the way. *)
Definition route (self : RoutingEngine) (request : Request)
    (constraints : RoutingConstraints) : Result RoutingDecision * list Call :=
  let complexity := _estimator self (prompt request) in
  let calls := [CallEstimate (prompt request);
                CallSelect (_models self) request constraints] in
  match _selector self (_models self) request constraints with
  | Raise e => (Raise e, calls)
  | Ok decision =>
      (RoutingDecision_new
         (selected_model decision)
         (estimated_cost decision)
         (reasoning decision ++ " | complexity=" ++ Py.format_2f complexity)
         (alternatives_considered decision),
       calls)
  end.

End Engine.

(** ** Provider base class ([providers/base.py]) *)

Record ProviderConfig : Type := {
  api_key : string;
  base_url : string;
  timeout : Q;
  max_retries : Z;
  backoff_factor : Q
}.

(** [ProviderConfig.__post_init__]. *)
Definition ProviderConfig_valid (c : ProviderConfig) : bool :=
  negb (Py.falsy (api_key c))
  && negb (Py.falsy (base_url c))
  && Qltb 0 (timeout c)
  && (0 <=? max_retries c)%Z
  && Qltb 0 (backoff_factor c).

Module BaseProvider.

(** What [execute_request] does to the outside world: raw API calls (with
    the attempt number and what came back) and sleeps. *)
Inductive Event : Type :=
  | ApiCall (attempt : nat) (outcome : Result Response)
  | Sleep (delay : Q).

Definition is_api_call (e : Event) : bool :=
  match e with ApiCall _ _ => true | Sleep _ => false end.

Section Execute.
(** The provider-specific [_make_api_call], acting on the state [S] of
    the outside world. *)
Context {S : Type}.
Variable _make_api_call : Request → S → Result Response * S.
Variable config : ProviderConfig.

(** [backoff_factor * math.pow(2, attempt)]. *)
Definition _backoff_delay (attempt : nat) : Q :=
  (backoff_factor config * 2 ^ Z.of_nat attempt)%Q.

(** The body of [for attempt in range(...)], over the attempts that are
    left; falling off the end of the loop reaches the final [raise]. *)
Fixpoint attempt_loop (attempts : list nat) (request : Request) (s : S)
    : Result Response * S * list Event :=
  match attempts with
  | [] => (Raise (ProviderError "Failed to execute request"), s, [])
  | attempt :: rest =>
      let '(outcome, s1) := _make_api_call request s in
      match outcome with
      | Ok response => (Ok response, s1, [ApiCall attempt outcome])
      | Raise exc =>
          if is_transient exc then
            if (Z.of_nat attempt =? max_retries config)%Z then
              (Raise exc, s1, [ApiCall attempt outcome])
            else
              let delay := _backoff_delay attempt in
              let '(result, s2, events) := attempt_loop rest request s1 in
              (result, s2, ApiCall attempt outcome :: Sleep delay :: events)
          else if is_provider_error exc then
            (Raise exc, s1, [ApiCall attempt outcome])
          else
            (Raise (ProviderError "Unexpected provider failure"), s1,
             [ApiCall attempt outcome])
      end
  end.

(** [range(n)] for an integer [n]. *)
Definition range (n : Z) : list nat := seq 0 (Z.to_nat n).

Definition execute_request (request : Request) (s : S)
    : Result Response * S * list Event :=
  attempt_loop (range (max_retries config + 1)) request s.

(** [complete] forwards to [execute_request]. *)
Definition complete (request : Request) (s : S) : Result Response * S :=
  fst (execute_request request s).
End Execute.

End BaseProvider.

(** ** Provider factory ([providers/factory.py]) *)

Module Factory.

Inductive ProviderClass : Type :=
  | OpenAIProvider
  | AnthropicProvider
  | GoogleProvider
  | RegisteredProvider (class_name : string) (default_model : option ModelConfig).

Definition ProviderClass_eqb (a b : ProviderClass) : bool :=
  match a, b with
  | OpenAIProvider, OpenAIProvider
  | AnthropicProvider, AnthropicProvider
  | GoogleProvider, GoogleProvider => true
  | RegisteredProvider x _, RegisteredProvider y _ => String.eqb x y
  | _, _ => false
  end.

(** [DEFAULT_MODEL_CONFIG] of each adapter class. *)
Definition DEFAULT_MODEL_CONFIG (cls : ProviderClass) : option ModelConfig :=
  match cls with
  | OpenAIProvider =>
      Some {| provider := OPENAI; model_name := "gpt-4"; pricing := 6 # 100;
              capabilities := {[ "chat"; "reasoning"; "code" ]} |}
  | AnthropicProvider =>
      Some {| provider := ANTHROPIC; model_name := "claude-3-opus";
              pricing := 15 # 1000;
              capabilities := {[ "chat"; "reasoning"; "code" ]} |}
  | GoogleProvider =>
      Some {| provider := GOOGLE; model_name := "gemini-1.5-pro";
              pricing := 1 # 100;
              capabilities := {[ "chat"; "vision"; "reasoning" ]} |}
  | RegisteredProvider _ d => d
  end.

(** A provider instance: its class and what its constructor stored. *)
Record Instance : Type := {
  inst_class : ProviderClass;
  inst_config : ProviderConfig;
  inst_model_config : option ModelConfig
}.

(** A compiled pattern is what [pattern.search] answers on a model name. *)
Definition Pattern : Type := string → bool.

(** [re.compile("^(a|b|...)", re.IGNORECASE)]. *)
Definition prefix_pattern (alternatives : list string) : Pattern :=
  λ model_name,
    existsb (λ alt, String.prefix (Py.lower alt) (Py.lower model_name))
            alternatives.

Record ProviderFactory : Type := {
  _registry : list (Pattern * ProviderClass);
  _cache : list ((ProviderClass * string) * Instance)
}.

Definition register_provider (self : ProviderFactory) (pattern : Pattern)
    (provider_class : ProviderClass) : ProviderFactory :=
  {| _registry := _registry self ++ [(pattern, provider_class)];
     _cache := _cache self |}.

Definition _register_defaults (self : ProviderFactory) : ProviderFactory :=
  let self := register_provider self (prefix_pattern ["gpt"; "text-davinci"; "o1"])
                                OpenAIProvider in
  let self := register_provider self (prefix_pattern ["claude"]) AnthropicProvider in
  register_provider self (prefix_pattern ["gemini"; "palm"]) GoogleProvider.

(** [ProviderFactory.__init__]. *)
Definition ProviderFactory_new : ProviderFactory :=
  _register_defaults {| _registry := []; _cache := [] |}.

Fixpoint detect_in (registry : list (Pattern * ProviderClass))
    (model_name : string) : Result ProviderClass :=
  match registry with
  | [] => Raise (ProviderError ("No provider registered for model '"
                                ++ model_name ++ "'"))
  | (pattern, provider_cls) :: rest =>
      if pattern model_name then Ok provider_cls else detect_in rest model_name
  end.

Definition _detect_provider (self : ProviderFactory) (model_name : string)
    : Result ProviderClass :=
  detect_in (_registry self) model_name.

Definition _build_model_config (provider_cls : ProviderClass)
    (model_name0 : string) : option ModelConfig :=
  match DEFAULT_MODEL_CONFIG provider_cls with
  | None => None
  | Some base_config =>
      if String.eqb (model_name base_config) model_name0 then Some base_config
      else Some {| provider := provider base_config;
                   model_name := model_name0;
                   pricing := pricing base_config;
                   capabilities := capabilities base_config |}
  end.

Fixpoint cache_lookup (cache : list ((ProviderClass * string) * Instance))
    (key : ProviderClass * string) : option Instance :=
  match cache with
  | [] => None
  | (k, v) :: rest =>
      if ProviderClass_eqb (fst k) (fst key) && String.eqb (snd k) (snd key)
      then Some v else cache_lookup rest key
  end.

(** [create]: the instance and the factory with its cache updated. *)
Definition create (self : ProviderFactory) (model_name : string)
    (config : ProviderConfig) : Result Instance * ProviderFactory :=
  match _detect_provider self model_name with
  | Raise e => (Raise e, self)
  | Ok provider_cls =>
      let cache_key := (provider_cls, api_key config) in
      match cache_lookup (_cache self) cache_key with
      | Some instance => (Ok instance, self)
      | None =>
          let instance :=
            {| inst_class := provider_cls;
               inst_config := config;
               inst_model_config :=
                 match _build_model_config provider_cls model_name with
                 | Some mc => Some mc
                 | None => DEFAULT_MODEL_CONFIG provider_cls
                 end |} in
          (Ok instance,
           {| _registry := _registry self;
              _cache := (cache_key, instance) :: _cache self |})
      end
  end.

(** The class defines no method [infer_provider_key]: looking the
    attribute up on an instance raises. *)
Definition infer_provider_key (self : ProviderFactory) (model_name : string)
    : Result string :=
  Raise (AttributeError
           "'ProviderFactory' object has no attribute 'infer_provider_key'").

End Factory.

(** ** Router configuration ([core/config.py]) *)

Module Config.

Record RouterConfig : Type := {
  default_strategy : string;
  enable_analytics : bool;
  enable_cache : bool;
  fallback_models : list string;
  max_retries : Z;
  timeout_seconds : Z
}.

Definition _ALLOWED_STRATEGIES : list string :=
  ["balanced"; "cost_optimized"; "quality_optimized"; "latency_optimized"].

(** [RouterConfig.validate], run by [__post_init__]. *)
Definition validate (c : RouterConfig) : bool :=
  existsb (String.eqb (default_strategy c)) _ALLOWED_STRATEGIES
  && (0 <=? max_retries c)%Z
  && (0 <? timeout_seconds c)%Z.

(** The defaults of the dataclass fields. *)
Definition default : RouterConfig :=
  {| default_strategy := "balanced"; enable_analytics := true;
     enable_cache := false; fallback_models := []; max_retries := 3;
     timeout_seconds := 30 |}.

(** [dataclasses.replace(config, fallback_models=models)]. *)
Definition replace_fallback_models (c : RouterConfig) (models : list string)
    : RouterConfig :=
  {| default_strategy := default_strategy c;
     enable_analytics := enable_analytics c;
     enable_cache := enable_cache c;
     fallback_models := models;
     max_retries := max_retries c;
     timeout_seconds := timeout_seconds c |}.

End Config.

(** ** The router facade: fallback execution ([core/router.py]) *)

Module Router.

(** A candidate: (model name, provider key). *)
Definition Candidate : Type := string * string.

(** The collaborators of the fallback walk, acting on the state [W] of the
    world around the router: the provider factory (the key inference and
    [create]) and the provider handles [P] it returns ([complete]). *)
Record Collaborators (W P : Type) : Type := {
  infer_provider_key : string → W → Result string * W;
  create : string → ProviderConfig → W → Result P * W;
  complete : P → Request → W → Result Response * W
}.
Arguments infer_provider_key {W P} c _ _.
Arguments create {W P} c _ _ _.
Arguments complete {W P} c _ _ _.

Record Router : Type := {
  _config : Config.RouterConfig;
  _provider_configs : gmap string ProviderConfig;
  _forced_provider : option string
}.

(** The setter of [default_provider]. *)
Definition set_default_provider (self : Router) (provider_name : option string)
    : Result Router :=
  match provider_name with
  | Some p =>
      match _provider_configs self !! p with
      | None => Raise (ValueError ("Unknown provider '" ++ p ++ "'"))
      | Some _ => Ok {| _config := _config self;
                        _provider_configs := _provider_configs self;
                        _forced_provider := provider_name |}
      end
  | None => Ok {| _config := _config self;
                  _provider_configs := _provider_configs self;
                  _forced_provider := None |}
  end.

(** [configure_fallback]. *)
Definition configure_fallback (self : Router) (models : list string) : Router :=
  {| _config := Config.replace_fallback_models (_config self) models;
     _provider_configs := _provider_configs self;
     _forced_provider := _forced_provider self |}.

(** The candidates of the routing decision (lines 133-137). *)
Definition initial_attempts (decision : RoutingDecision) : list Candidate :=
  map (λ candidate : obj ModelConfig,
         (model_name (val candidate), Provider_value (provider (val candidate))))
      (selected_model decision :: alternatives_considered decision).

(** The forced-provider block (lines 150-161): an override that is set
    (neither [None] nor the empty string) moves the entries of that
    provider to the front. *)
Definition reorder_forced (forced : option string)
    (provider_attempts : list Candidate) : list Candidate :=
  match forced with
  | None => provider_attempts
  | Some fp =>
      if Py.falsy fp then provider_attempts
      else
        let preferred :=
          List.filter (λ attempt : Candidate, String.eqb (snd attempt) fp)
                      provider_attempts in
        let rest :=
          List.filter (λ attempt : Candidate, negb (String.eqb (snd attempt) fp))
                      provider_attempts in
        preferred ++ rest
  end.

Section Execution.
Context {W P : Type}.
Variable collab : Collaborators W P.
Variable self : Router.

(** The loop over the configured fallback models (lines 139-148). *)
Fixpoint add_fallbacks (fallbacks : list string)
    (provider_attempts : list Candidate) (seen_models : gset Candidate)
    (w : W) : list Candidate * W :=
  match fallbacks with
  | [] => (provider_attempts, w)
  | fallback_model :: rest =>
      match infer_provider_key collab fallback_model w with
      | (Raise _, w1) => add_fallbacks rest provider_attempts seen_models w1
      | (Ok provider_key, w1) =>
          let candidate := (fallback_model, provider_key) in
          if bool_decide (candidate ∈ seen_models)
          then add_fallbacks rest provider_attempts seen_models w1
          else add_fallbacks rest (provider_attempts ++ [candidate])
                             ({[ candidate ]} ∪ seen_models) w1
      end
  end.

(** The walk over the candidates (lines 163-179).  The third component
    lists the candidates on which [provider.complete] was invoked, in
    order. *)
Fixpoint walk (provider_attempts : list Candidate) (attempts : Z)
    (last_error : option Error) (request : Request) (w : W)
    : Result Response * W * list Candidate :=
  match provider_attempts with
  | [] => (Raise (RuntimeError "All provider attempts failed" last_error), w, [])
  | (model_name, provider_key) :: rest =>
      if (Config.max_retries (_config self) <=? attempts)%Z then
        (Raise (RuntimeError "All provider attempts failed" last_error), w, [])
      else
        match _provider_configs self !! provider_key with
        | None => walk rest attempts last_error request w
        | Some provider_config =>
            match create collab model_name provider_config w with
            | (Raise exc, w1) => (Raise exc, w1, [])
            | (Ok provider, w1) =>
                match complete collab provider request w1 with
                | (Ok response, w2) =>
                    (Ok response, w2, [(model_name, provider_key)])
                | (Raise exc, w2) =>
                    let '(result, w3, invoked) :=
                      walk rest (attempts + 1) (Some exc) request w2 in
                    (result, w3, (model_name, provider_key) :: invoked)
                end
            end
        end
  end.

(** The ordered candidate list the walk runs over. *)
Definition candidates (decision : RoutingDecision) (w : W)
    : list Candidate * W :=
  let provider_attempts := initial_attempts decision in
  let seen_models : gset Candidate := list_to_set provider_attempts in
  let '(provider_attempts, w1) :=
    add_fallbacks (Config.fallback_models (_config self)) provider_attempts
                  seen_models w in
  (reorder_forced (_forced_provider self) provider_attempts, w1).

Definition _execute_with_fallback (decision : RoutingDecision)
    (request : Request) (w : W) : Result Response * W * list Candidate :=
  let '(provider_attempts, w1) := candidates decision w in
  walk provider_attempts 0 None request w1.
End Execution.

End Router.

(** ** Wiring *)

(** The router as [DIContainer.create_router] wires it: the real
    [ProviderFactory], whose instances run [BaseProvider.execute_request]
    over the HTTP call of the adapter. *)
Module Production.

Section Network.
(** The network: what the adapter's [_make_api_call] returns for an
    instance and a request, in a network state [N]. *)
Context {N : Type}.
Variable http : Factory.Instance → Request → N → Result Response * N.

Definition World : Type := Factory.ProviderFactory * N.

Definition collaborators : Router.Collaborators World Factory.Instance :=
  {| Router.infer_provider_key := λ model_name w,
       (Factory.infer_provider_key (fst w) model_name, w);
     Router.create := λ model_name config w,
       let '(r, f) := Factory.create (fst w) model_name config in
       (r, (f, snd w));
     Router.complete := λ instance request w,
       let '(r, n) :=
         BaseProvider.complete (http instance) (Factory.inst_config instance)
                               request (snd w) in
       (r, (fst w, n)) |}.
End Network.

End Production.

(** The doubles of [tests/unit/test_router.py]: a factory stub holding one
    fake provider per registered model name, and fake providers that count
    their calls. *)
Module TestDoubles.

Record _FakeProvider : Type := {
  response : Response;
  should_fail : bool
}.

Record _ProviderFactoryStub : Type := {
  providers : gmap string _FakeProvider;
  provider_keys : gmap string string;
  requests : list (string * ProviderConfig);
  calls : gmap string nat
}.

Definition empty_stub : _ProviderFactoryStub :=
  {| providers := ∅; provider_keys := ∅; requests := []; calls := ∅ |}.

Definition register (self : _ProviderFactoryStub) (model_name : string)
    (provider : _FakeProvider) (provider_key : string) : _ProviderFactoryStub :=
  {| providers := <[ model_name := provider ]> (providers self);
     provider_keys := <[ model_name := provider_key ]> (provider_keys self);
     requests := requests self;
     calls := calls self |}.

(** The handle of a fake provider is the name it was registered under. *)
Definition collaborators : Router.Collaborators _ProviderFactoryStub string :=
  {| Router.infer_provider_key := λ model_name w,
       match provider_keys w !! model_name with
       | Some key => (Ok key, w)
       | None => (Raise (KeyError model_name), w)
       end;
     Router.create := λ model_name config w,
       let w1 := {| providers := providers w;
                    provider_keys := provider_keys w;
                    requests := requests w ++ [(model_name, config)];
                    calls := calls w |} in
       match providers w !! model_name with
       | Some _ => (Ok model_name, w1)
       | None => (Raise (KeyError model_name), w1)
       end;
     Router.complete := λ handle request w,
       let w1 := {| providers := providers w;
                    provider_keys := provider_keys w;
                    requests := requests w;
                    calls := <[ handle := S (default 0%nat (calls w !! handle)) ]>
                               (calls w) |} in
       match providers w !! handle with
       | Some p =>
           if should_fail p then (Raise (RuntimeError "provider failure" None), w1)
           else (Ok (response p), w1)
       | None => (Raise (KeyError handle), w)
       end |}.

End TestDoubles.

(** ** Specification-side definitions *)

(** The events of a run of [execute_request] in which the attempts
    [start], [start+1], ... failed with the errors [failed] and were each
    followed by the backoff sleep. *)
Fixpoint retry_events (config : ProviderConfig) (start : nat) (failed : list Error)
    : list BaseProvider.Event :=
  match failed with
  | [] => []
  | e :: rest =>
      BaseProvider.ApiCall start (Raise e)
      :: BaseProvider.Sleep (backoff_factor config * 2 ^ Z.of_nat start)%Q
      :: retry_events config (S start) rest
  end.

(** What [execute_request] hands to its caller when the last raw call came
    back with [last]. *)
Definition surfaced (last : Result Response) : Result Response :=
  match last with
  | Ok r => Ok r
  | Raise e =>
      if is_provider_error e then Raise e
      else Raise (ProviderError "Unexpected provider failure")
  end.

(** The hard constraints, as the specification words them. *)
Definition satisfies_hard_constraints (constraints : RoutingConstraints)
    (m : ModelConfig) : Prop :=
  (∀ mc, max_cost constraints = Some mc → (pricing m <= mc)%Q)
  ∧ (∀ mq, min_quality constraints = Some mq → (mq <= Selector._quality_score m)%Q)
  ∧ (∀ ml, max_latency constraints = Some ml → (ml <= 200)%Q →
       ∃ tag, tag ∈ capabilities m ∧ tag ∈ Selector.LOW_LATENCY_TAGS).

(** The survivor the selector ranks first ([scored[0]]). *)
Definition top_scorer (strategy : IRoutingStrategy)
    (models : list (obj ModelConfig)) (request : Request)
    (constraints : RoutingConstraints) : option (obj ModelConfig) :=
  let eligible := Selector._filter_by_constraints models constraints in
  let complexity :=
    Estimator.estimate Selector._complexity_estimator (prompt request) in
  fst <$> head (sort_desc (Selector._score_models strategy eligible complexity
                                                 constraints)).

Definition is_digit (c : ascii) : bool :=
  let n := nat_of_ascii c in (48 <=? n)%nat && (n <=? 57)%nat.

(** ASCII text: every character is below 128. *)
Fixpoint is_ascii (s : string) : bool :=
  match s with
  | EmptyString => true
  | String c r => (nat_of_ascii c <? 128)%nat && is_ascii r
  end.

(** The value of a string of decimal digits, with ten to the number of digits. *)
Fixpoint digits_value (s : string) : option (nat * nat) :=
  match s with
  | EmptyString => Some (0, 1)%nat
  | String c r =>
      if is_digit c then
        match digits_value r with
        | Some (v, p) => Some ((nat_of_ascii c - 48) * p + v, 10 * p)%nat
        | None => None
        end
      else None
  end.

Fixpoint split_dot (s : string) : option (string * string) :=
  match s with
  | EmptyString => None
  | String c r =>
      if Ascii.eqb c "." then Some (EmptyString, r)
      else match split_dot r with
           | Some (a, b) => Some (String c a, b)
           | None => None
           end
  end.

Definition unsigned_value (s : string) : option Q :=
  match split_dot s with
  | Some (String c r, fraction) =>
      match digits_value (String c r), digits_value fraction with
      | Some (vi, _), Some (vf, pf) => Some (Qnat vi + Qnat vf / Qnat pf)%Q
      | _, _ => None
      end
  | _ => None
  end.

Definition decimal_value (s : string) : option Q :=
  match s with
  | EmptyString => None
  | String c r =>
      if Ascii.eqb c "-" then option_map Qopp (unsigned_value r)
      else unsigned_value s
  end.

(** ** The estimators as collaborators ([routing/selector.py], [routing/engine.py])

    [select] and [route] once more, over a world [W] that the estimators
    act on (a counter, a log): every call of an estimator goes through the
    world, in the order of the source. *)

Module Stateful.

Section World.
Context {W : Type}.

(** [IComplexityEstimator.estimate] and [IModelSelector.select]. *)
Definition IComplexityEstimator : Type := string → W → Q * W.
Definition IModelSelector : Type :=
  list (obj ModelConfig) → Request → RoutingConstraints → W
  → Result RoutingDecision * W.

(** [ModelSelector.select]; [_complexity_estimator] is the estimator that
    [__init__] builds for the selector. *)
Definition select (_strategy : IRoutingStrategy) (float_repr : Q → string)
    (_complexity_estimator : IComplexityEstimator) : IModelSelector :=
  λ available_models request constraints w,
    let eligible := Selector._filter_by_constraints available_models constraints in
    match eligible with
    | [] => (Raise (NoSuitableModelError "No models satisfy hard constraints"), w)
    | _ =>
        let '(complexity, w1) := _complexity_estimator (prompt request) w in
        let scored :=
          sort_desc (Selector._score_models _strategy eligible complexity
                                            constraints) in
        match scored with
        | (best_model, best_score) :: _ =>
            (Selector._create_decision _strategy float_repr best_model best_score
               scored constraints, w1)
        | [] => (Raise (IndexError "list index out of range"), w1)
        end
    end.

(** [RoutingEngine.route]. *)
Definition route (_estimator : IComplexityEstimator) (_selector : IModelSelector)
    (_models : list (obj ModelConfig)) (request : Request)
    (constraints : RoutingConstraints) (w : W) : Result RoutingDecision * W :=
  let '(complexity, w1) := _estimator (prompt request) w in
  match _selector _models request constraints w1 with
  | (Raise e, w2) => (Raise e, w2)
  | (Ok decision, w2) =>
      (RoutingDecision_new
         (selected_model decision)
         (estimated_cost decision)
         (reasoning decision ++ " | complexity=" ++ Py.format_2f complexity)
         (alternatives_considered decision),
       w2)
  end.
End World.

(** Whose estimator was asked. *)
Inductive Owner : Type := OfEngine | OfSelector.

(** An estimator that computes [f] and writes each call into a log. *)
Definition logged (owner : Owner) (f : string → Q)
    : @IComplexityEstimator (list (Owner * string)) :=
  λ prompt w, (f prompt, List.app w [(owner, prompt)]).

End Stateful.

(** ** Concrete inputs

    The inputs of the repository's unit tests and of the examples of the
    specification, used to run the definitions. *)

Module Fixtures.

Definition model (address : nat) (p : Provider) (name : string) (price : Q)
    (caps : gset string) : obj ModelConfig :=
  Obj address {| provider := p; model_name := name; pricing := price;
                 capabilities := caps |}.

(** [tests/unit/test_model_selector.py]. *)
Definition cheap := model 1 OPENAI "cheap" (2 # 100) {[ "chat" ]}.
Definition premium :=
  model 2 OPENAI "premium" (5 # 100) {[ "reasoning"; "code"; "low-latency" ]}.
Definition expensive := model 3 OPENAI "expensive" (2 # 10) {[ "chat" ]}.

(** Two objects built from the same field values. *)
Definition twin_a := model 10 OPENAI "twin" (5 # 100) {[ "chat"; "code" ]}.
Definition twin_b := model 11 OPENAI "twin" (5 # 100) {[ "chat"; "code" ]}.

Definition request_explain : Request := {| prompt := "Explain something complex" |}.
Definition request_hello : Request := {| prompt := "hello" |}.

Definition max_cost_only (c : Q) : RoutingConstraints :=
  {| max_cost := Some c; max_latency := None; min_quality := None;
     strategy := BALANCED |}.

(** [tests/unit/test_models.py]. *)
Definition claude2 := model 20 ANTHROPIC "claude-2" (3 # 100) {[ "chat" ]}.
Definition gpt4_alt := model 21 OPENAI "gpt-4" (2 # 100) {[ "chat"; "code" ]}.

(** [tests/unit/test_router.py], [test_fallback_attempts_other_models]. *)
Definition gpt4 := model 30 OPENAI "gpt-4" (2 # 100) {[ "chat" ]}.

Definition decision_gpt4 : RoutingDecision :=
  {| selected_model := gpt4; estimated_cost := 2 # 100; reasoning := "ok";
     alternatives_considered := [] |}.

Definition openai_config : ProviderConfig :=
  {| api_key := "key"; base_url := "https://api.openai.com"; timeout := 30;
     max_retries := 3; backoff_factor := 1 # 2 |}.

Definition fallback_config : Config.RouterConfig :=
  {| Config.default_strategy := "balanced"; Config.enable_analytics := true;
     Config.enable_cache := false; Config.fallback_models := ["gpt-3.5"];
     Config.max_retries := 2; Config.timeout_seconds := 30 |}.

Definition fallback_router : Router.Router :=
  {| Router._config := fallback_config;
     Router._provider_configs := {[ "openai" := openai_config ]};
     Router._forced_provider := None |}.

Definition fallback_response : Response :=
  {| content := "fallback"; model_used := "gpt-3.5"; cost := 1 # 100;
     latency := 1 # 10; tokens := 5 |}.

Definition primary_response : Response :=
  {| content := "ok"; model_used := "gpt-4"; cost := 2 # 100;
     latency := 2 # 10; tokens := 10 |}.

(** The factory stub of the test: a failing provider for gpt-4, a working
    one for gpt-3.5, both under the key "openai". *)
Definition stub : TestDoubles._ProviderFactoryStub :=
  TestDoubles.register
    (TestDoubles.register TestDoubles.empty_stub "gpt-4"
       {| TestDoubles.response := primary_response;
          TestDoubles.should_fail := true |} "openai")
    "gpt-3.5"
    {| TestDoubles.response := fallback_response;
       TestDoubles.should_fail := false |} "openai".

(** A network on which every call for gpt-4 is refused with a plain
    provider error and every call for gpt-3.5 is answered. *)
Definition http (instance : Factory.Instance) (request : Request) (n : unit)
    : Result Response * unit :=
  match Factory.inst_model_config instance with
  | Some mc =>
      if String.eqb (model_name mc) "gpt-3.5" then (Ok fallback_response, n)
      else (Raise (ProviderError "OpenAI request failed"), n)
  | None => (Raise (ProviderError "OpenAI request failed"), n)
  end.

(** A network call that is rate limited on the first call and answers on
    the second ([tests/unit/test_providers_base.py]); the state counts the
    calls. *)
Definition rate_limited_once (request : Request) (calls : nat)
    : Result Response * nat :=
  match calls with
  | O => (Raise (ProviderRateLimitError "Provider rate limit exceeded"), S calls)
  | _ => (Ok primary_response, S calls)
  end.

Definition test_provider_config : ProviderConfig :=
  {| api_key := "test-key"; base_url := "https://api.provider.test";
     timeout := 5; max_retries := 2; backoff_factor := 1 # 10 |}.

(** [tests/unit/test_routing_engine.py]: a selector that returns a fixed
    decision and an estimator that returns 0.72. *)
Definition base_decision : RoutingDecision :=
  {| selected_model := gpt4_alt; estimated_cost := 2 # 100;
     reasoning := "base reasoning"; alternatives_considered := [claude2] |}.

Definition engine : Engine.RoutingEngine :=
  {| Engine._estimator := λ _, (72 # 100)%Q;
     Engine._selector := λ _ _ _, Ok base_decision;
     Engine._models := [gpt4_alt; claude2] |}.

End Fixtures.

(** ** The rest of the router facade ([core/router.py]) *)

(** The constructor of [RoutingConstraints]: the field constraints
    ([gt=0] on both bounds), then the model validator
    [validate_constraints]. *)
Definition RoutingConstraints_new (mc ml mq : option Q) (s : RoutingStrategy)
    : Result RoutingConstraints :=
  if match mc with Some x => negb (Qltb 0 x) | None => false end then
    Raise (ValidationError "max_cost must be greater than 0")
  else if match ml with Some x => negb (Qltb 0 x) | None => false end then
    Raise (ValidationError "max_latency must be greater than 0")
  else if match mq with
          | Some q => negb (Qle_bool 0 q && Qle_bool q 1)
          | None => false
          end then
    Raise (ValidationError "min_quality must be between 0 and 1")
  else if match mc, ml with None, None => true | _, _ => false end then
    Raise (ValidationError "at least one constraint must be specified")
  else
    Ok {| max_cost := mc; max_latency := ml; min_quality := mq; strategy := s |}.

Module Facade.

(** The literal dictionary of [_map_strategy_to_enum]. *)
Definition mapping : list (string * RoutingStrategy) :=
  [("balanced", BALANCED); ("cost_optimized", COST_BIASED);
   ("quality_optimized", QUALITY_BIASED); ("latency_optimized", LATENCY_BIASED)].

Fixpoint mapping_get (d : list (string * RoutingStrategy)) (key : string)
    : option RoutingStrategy :=
  match d with
  | [] => None
  | (k, v) :: rest => if String.eqb k key then Some v else mapping_get rest key
  end.

Definition _map_strategy_to_enum (name : string) : Result RoutingStrategy :=
  match mapping_get mapping (Py.lower name) with
  | Some s => Ok s
  | None => Raise (ValueError ("Unsupported strategy '" ++ name ++ "'"))
  end.

(** [_build_constraints]; the latency bound is an integer at this level. *)
Definition _build_constraints (self : Router.Router)
    (max_cost : option Q) (max_latency : option Z) (min_quality : option Q)
    (strategy : option string) : Result RoutingConstraints :=
  let strategy_name :=
    match strategy with
    | Some s => if Py.falsy s then Config.default_strategy (Router._config self) else s
    | None => Config.default_strategy (Router._config self)
    end in
  match _map_strategy_to_enum strategy_name with
  | Raise e => Raise e
  | Ok routed_strategy =>
      let safe_max_cost := match max_cost with Some x => x | None => 1000%Q end in
      let safe_max_latency :=
        match max_latency with Some x => x | None => 30000%Z end in
      RoutingConstraints_new (Some safe_max_cost)
        (Some (inject_Z safe_max_latency)) min_quality routed_strategy
  end.

End Facade.

(** The same guardrails under another strategy tag. *)
Definition with_strategy (c : RoutingConstraints) (s : RoutingStrategy)
    : RoutingConstraints :=
  {| max_cost := max_cost c; max_latency := max_latency c;
     min_quality := min_quality c; strategy := s |}.

(** The four strategies the package ships. *)
Definition shipped_strategies : list IRoutingStrategy :=
  [CostStrategy.CostOptimizedStrategy; QualityStrategy.QualityOptimizedStrategy;
   LatencyStrategy.LatencyOptimizedStrategy; BalancedStrategy.BalancedStrategy].

(** Descending order of score. *)
Definition desc_by_score {A} (a b : A * Q) : Prop := (snd b <= snd a)%Q.

(** The time one run of [execute_request] spends sleeping. *)
Definition total_sleep (events : list BaseProvider.Event) : Q :=
  foldr (λ e acc, match e with
                  | BaseProvider.Sleep d => (d + acc)%Q
                  | BaseProvider.ApiCall _ _ => acc
                  end) 0%Q events.

(** ** Input validation helpers ([utils/validators.py]) *)

Module Validators.

Definition MAX_PROMPT_LENGTH : Z := 20000.

Definition validate_prompt (prompt : string) : Result unit :=
  if Py.falsy prompt || Py.is_blank prompt then
    Raise (ValueError "Prompt must be non-empty")
  else if (MAX_PROMPT_LENGTH <? Z.of_nat (String.length prompt))%Z then
    Raise (ValueError "Prompt exceeds maximum supported length")
  else Ok tt.

Definition validate_constraints (constraints : RoutingConstraints) : Result unit :=
  if match max_cost constraints with
     | Some x => Qle_bool x 0 | None => false end then
    Raise (ValueError "max_cost must be greater than zero")
  else if match max_latency constraints with
          | Some x => Qle_bool x 0 | None => false end then
    Raise (ValueError "max_latency must be greater than zero")
  else if match min_quality constraints with
          | Some q => negb (Qle_bool 0 q && Qle_bool q 1) | None => false end then
    Raise (ValueError "min_quality must be between 0 and 1")
  else Ok tt.

End Validators.

(** ** Middleware ([core/middleware.py]) *)

(** The constructor of [Request] ([validate_prompt]). *)
Definition Request_new (p : string) : Result Request :=
  if Request_valid {| prompt := p |} then Ok {| prompt := p |}
  else Raise (ValidationError "prompt must be a non-empty string").

Module Middleware.

(** [IMiddleware]: two hooks; [St] is the state the hooks and the handler
    act on. *)
Record IMiddleware (St : Type) : Type := {
  process_request : Request → St → Result Request * St;
  process_response : Response → St → Result Response * St
}.
Arguments process_request {St} _ _ _.
Arguments process_response {St} _ _ _.

Section Chain.
Context {St : Type}.

(** [for middleware in self._middlewares: request = ...]. *)
Fixpoint run_requests (middlewares : list (IMiddleware St)) (request : Request)
    (s : St) : Result Request * St :=
  match middlewares with
  | [] => (Ok request, s)
  | middleware :: rest =>
      match process_request middleware request s with
      | (Ok request1, s1) => run_requests rest request1 s1
      | (Raise e, s1) => (Raise e, s1)
      end
  end.

(** [for middleware in reversed(self._middlewares): response = ...], over
    the reversed list. *)
Fixpoint run_responses (reversed : list (IMiddleware St)) (response : Response)
    (s : St) : Result Response * St :=
  match reversed with
  | [] => (Ok response, s)
  | middleware :: rest =>
      match process_response middleware response s with
      | (Ok response1, s1) => run_responses rest response1 s1
      | (Raise e, s1) => (Raise e, s1)
      end
  end.

(** [MiddlewareChain.execute]. *)
Definition execute (middlewares : list (IMiddleware St)) (request : Request)
    (handler : Request → St → Result Response * St) (s : St)
    : Result Response * St :=
  match run_requests middlewares request s with
  | (Raise e, s1) => (Raise e, s1)
  | (Ok request1, s1) =>
      match handler request1 s1 with
      | (Raise e, s2) => (Raise e, s2)
      | (Ok response, s2) => run_responses (rev middlewares) response s2
      end
  end.
End Chain.

(** The state the shipped middlewares act on, around the world [W] of the
    handler: the messages of the logger, the calls of [tracker.track], the
    attributes of the analytics middleware and of the caching middleware. *)
Record State (W : Type) : Type := {
  world : W;
  log : list string;
  tracked : list (Request * Response);
  _last_request : option Request;
  _cache : gmap string Response;
  _current_key : option string
}.
Arguments world {W} _.
Arguments log {W} _.
Arguments tracked {W} _.
Arguments _last_request {W} _.
Arguments _cache {W} _.
Arguments _current_key {W} _.

Section Shipped.
Context {W : Type}.

Definition LoggingMiddleware : IMiddleware (State W) :=
  {| process_request := λ request s,
       (Ok request,
        {| world := world s; log := log s ++ ["routing_request"];
           tracked := tracked s; _last_request := _last_request s;
           _cache := _cache s; _current_key := _current_key s |});
     process_response := λ response s,
       (Ok response,
        {| world := world s; log := log s ++ ["routing_response"];
           tracked := tracked s; _last_request := _last_request s;
           _cache := _cache s; _current_key := _current_key s |}) |}.

Definition ValidationMiddleware : IMiddleware (State W) :=
  {| process_request := λ request s,
       if Py.falsy (prompt request) || Py.is_blank (prompt request) then
         (Raise (ValueError "Request prompt must be non-empty"), s)
       else if (20000 <? Z.of_nat (String.length (prompt request)))%Z then
         (Raise (ValueError "Request prompt exceeds maximum length"), s)
       else (Ok request, s);
     process_response := λ response s, (Ok response, s) |}.

(** [tracker.track(request, response)]. *)
Definition track (request : Request) (response : Response) (s : State W)
    : State W :=
  {| world := world s; log := log s;
     tracked := tracked s ++ [(request, response)];
     _last_request := _last_request s;
     _cache := _cache s; _current_key := _current_key s |}.

Definition AnalyticsMiddleware : IMiddleware (State W) :=
  {| process_request := λ request s,
       (Ok request,
        {| world := world s; log := log s; tracked := tracked s;
           _last_request := Some request;
           _cache := _cache s; _current_key := _current_key s |});
     process_response := λ response s,
       match _last_request s with
       | Some last =>
           let s1 := track last response s in
           (Ok response,
            {| world := world s1; log := log s1; tracked := tracked s1;
               _last_request := None;
               _cache := _cache s1; _current_key := _current_key s1 |})
       | None => (Ok response, s)
       end |}.

(** The caching middleware with its default key function (the prompt).  On
    a hit [process_request] returns a copy of the request whose metadata
    carries the cached response; the copy has the prompt of the request,
    which is all a [Request] holds here. *)
Definition CachingMiddleware : IMiddleware (State W) :=
  {| process_request := λ request s,
       let key := prompt request in
       let s1 := {| world := world s; log := log s; tracked := tracked s;
                    _last_request := _last_request s;
                    _cache := _cache s; _current_key := Some key |} in
       match _cache s !! key with
       | Some cached => (Ok {| prompt := prompt request |}, s1)
       | None => (Ok request, s1)
       end;
     process_response := λ response s,
       match _current_key s with
       | Some key =>
           (Ok response,
            {| world := world s; log := log s; tracked := tracked s;
               _last_request := _last_request s;
               _cache := <[ key := response ]> (_cache s);
               _current_key := None |})
       | None => (Ok response, s)
       end |}.

(** A handler that acts on the world only. *)
Definition on_world (h : Request → W → Result Response * W)
    : Request → State W → Result Response * State W :=
  λ request s,
    let '(r, w) := h request (world s) in
    (r, {| world := w; log := log s; tracked := tracked s;
           _last_request := _last_request s;
           _cache := _cache s; _current_key := _current_key s |}).
End Shipped.

End Middleware.

(** ** The container ([core/container.py]) *)

(** [ProviderConfig(...)]: the fields, then [__post_init__] with its
    message per failed check. *)
Definition ProviderConfig_new (api_key base_url : string) (timeout : Q)
    (max_retries : Z) (backoff_factor : Q) : Result ProviderConfig :=
  if Py.falsy api_key then Raise (ValueError "api_key must be provided")
  else if Py.falsy base_url then Raise (ValueError "base_url must be provided")
  else if Qle_bool timeout 0 then
    Raise (ValueError "timeout must be greater than zero")
  else if (max_retries <? 0)%Z then
    Raise (ValueError "max_retries cannot be negative")
  else if Qle_bool backoff_factor 0 then
    Raise (ValueError "backoff_factor must be greater than zero")
  else Ok {| api_key := api_key; base_url := base_url; timeout := timeout;
             max_retries := max_retries; backoff_factor := backoff_factor |}.

Module Container.

(** [_build_middleware_chain]; [tracker] tells whether a tracker is given. *)
Definition _build_middleware_chain {W} (config : Config.RouterConfig)
    (tracker : bool) : list (Middleware.IMiddleware (Middleware.State W)) :=
  [Middleware.ValidationMiddleware; Middleware.LoggingMiddleware]
  ++ (if tracker && Config.enable_analytics config
      then [Middleware.AnalyticsMiddleware] else [])
  ++ (if Config.enable_cache config then [Middleware.CachingMiddleware] else []).

(** [_normalize_api_key]: an absent key is [None], a given key may be
    empty.  The message of the error ends with the list of the given keys,
    which is left out here. *)
Definition _normalize_api_key (provider_name : string) (keys : list (option string))
    : Result (option string) :=
  let provided :=
    omap (λ key : option string,
            match key with
            | Some k => if Py.falsy k then None else Some k
            | None => None
            end) keys in
  match provided with
  | [] => Ok None
  | first :: _ =>
      if bool_decide (1 < size (list_to_set provided : gset string))%nat then
        Raise (ValueError ("Conflicting API keys supplied for " ++ provider_name))
      else Ok (Some first)
  end.

(** One [if <key>: configs[<name>] = ProviderConfig(api_key=<key>,
    base_url=<url>)] of [_build_provider_configs]; the other fields take
    their defaults. *)
Definition add_config (provider_name url : string) (key : option string)
    (configs : gmap string ProviderConfig) : Result (gmap string ProviderConfig) :=
  match key with
  | None => Ok configs
  | Some k =>
      if Py.falsy k then Ok configs
      else
        match ProviderConfig_new k url 30 3 (1 # 2) with
        | Raise e => Raise e
        | Ok c => Ok (<[ provider_name := c ]> configs)
        end
  end.

Definition _build_provider_configs (openai_key anthropic_key google_key : option string)
    : Result (gmap string ProviderConfig) :=
  match add_config "openai" "https://api.openai.com" openai_key ∅ with
  | Raise e => Raise e
  | Ok configs =>
      match add_config "anthropic" "https://api.anthropic.com" anthropic_key
                       configs with
      | Raise e => Raise e
      | Ok configs =>
          add_config "google" "https://generativelanguage.googleapis.com"
                     google_key configs
      end
  end.

(** The start of [create_router], for a caller who passes [config]: the
    three keys are resolved, the provider configurations built, and a
    router without any provider refused. *)
Definition create_router_provider_configs
    (openai_key anthropic_key google_key : option string)
    (openai_api_key anthropic_api_key google_api_key : option string)
    : Result (gmap string ProviderConfig) :=
  match _normalize_api_key "openai" [openai_key; openai_api_key] with
  | Raise e => Raise e
  | Ok resolved_openai_key =>
  match _normalize_api_key "anthropic" [anthropic_key; anthropic_api_key] with
  | Raise e => Raise e
  | Ok resolved_anthropic_key =>
  match _normalize_api_key "google" [google_key; google_api_key] with
  | Raise e => Raise e
  | Ok resolved_google_key =>
  match _build_provider_configs resolved_openai_key resolved_anthropic_key
                                resolved_google_key with
  | Raise e => Raise e
  | Ok provider_configs =>
      if bool_decide (provider_configs = ∅) then
        Raise (ValueError "At least one provider API key must be supplied")
      else Ok provider_configs
  end end end end.

(** The literal dictionary of [_select_strategy]. *)
Definition strategies : list (string * IRoutingStrategy) :=
  [("balanced", BalancedStrategy.BalancedStrategy);
   ("cost_optimized", CostStrategy.CostOptimizedStrategy);
   ("quality_optimized", QualityStrategy.QualityOptimizedStrategy);
   ("latency_optimized", LatencyStrategy.LatencyOptimizedStrategy)].

Fixpoint strategies_get (d : list (string * IRoutingStrategy)) (key : string)
    : option IRoutingStrategy :=
  match d with
  | [] => None
  | (k, v) :: rest => if String.eqb k key then Some v else strategies_get rest key
  end.

Definition _select_strategy (strategy_name : string) : Result IRoutingStrategy :=
  let normalized := Py.lower strategy_name in
  match strategies_get strategies normalized with
  | Some s => Ok s
  | None => Raise (ValueError ("Unknown strategy '" ++ strategy_name ++ "'"))
  end.

End Container.

(** ** The entry points of the facade ([core/router.py]) *)

Module Entry.

(** [_messages_to_prompt]: a message is a dictionary. *)
Definition _messages_to_prompt (messages : list (gmap string string)) : string :=
  Py.join (String "010"%char "")
    (map (λ message : gmap string string,
            default "user" (message !! "role") ++ ": "
            ++ default "" (message !! "content"))
         messages).

Section Complete.
Context {W P : Type}.
(** The attributes of the router the fallback walk does not read: the
    routing engine, the provider factory with its providers, whether a
    tracker is given, and the middleware chain. *)
Variable _routing_engine : Engine.RoutingEngine.
Variable _provider_factory : Router.Collaborators W P.
Variable _tracker : bool.
Variable _middleware : list (Middleware.IMiddleware (Middleware.State W)).
Variable self : Router.Router.

(** The handler [complete] hands to the middleware chain. *)
Definition handler (constraints : RoutingConstraints)
    : Request → Middleware.State W → Result Response * Middleware.State W :=
  Middleware.on_world
    (λ processed_request w,
       match (Engine.route _routing_engine processed_request constraints).1 with
       | Raise e => (Raise e, w)
       | Ok decision =>
           (Router._execute_with_fallback _provider_factory self decision
              processed_request w).1
       end).

Definition complete (prompt : string) (max_cost : option Q)
    (max_latency : option Z) (min_quality : option Q) (strategy : option string)
    (s : Middleware.State W) : Result Response * Middleware.State W :=
  match Request_new prompt with
  | Raise e => (Raise e, s)
  | Ok request =>
      match Facade._build_constraints self max_cost max_latency min_quality
                                      strategy with
      | Raise e => (Raise e, s)
      | Ok constraints =>
          match Middleware.execute _middleware request (handler constraints) s with
          | (Raise e, s1) => (Raise e, s1)
          | (Ok response, s1) =>
              if _tracker && Config.enable_analytics (Router._config self)
              then (Ok response, Middleware.track request response s1)
              else (Ok response, s1)
          end
      end
  end.

(** [chat]. *)
Definition chat (messages : list (gmap string string)) (max_cost : option Q)
    (max_latency : option Z) (min_quality : option Q) (strategy : option string)
    (s : Middleware.State W) : Result Response * Middleware.State W :=
  complete (_messages_to_prompt messages) max_cost max_latency min_quality
           strategy s.
End Complete.

End Entry.

(** ** The retry decorator ([utils/retry.py]) *)

Module Retry.

Inductive Event : Type :=
  | Call (attempt : nat)
  | Sleep (delay : Q).

Section Decorator.
Context {St A : Type}.
(** The arguments of [retry]; [exceptions] answers
    [isinstance(exc, exceptions)]. *)
Variable attempts : Z.
Variable delay backoff : Q.
Variable exceptions : Error → bool.
(** The decorated function, called with fixed arguments. *)
Variable func : St → Result A * St.

(** The body of [for attempt in range(attempts)], over the attempts that
    are left; the end of the loop reaches the final [raise].
    [time.sleep] raises ValueError for a negative delay, and that error
    leaves the wrapper from inside the handler. *)
Fixpoint loop (remaining : list nat) (current_delay : Q)
    (last_error : option Error) (s : St) : Result A * St * list Event :=
  match remaining with
  | [] =>
      (Raise (match last_error with
              | Some e => e
              | None => RuntimeError "retry failed" None
              end), s, [])
  | attempt :: rest =>
      match func s with
      | (Ok a, s1) => (Ok a, s1, [Call attempt])
      | (Raise exc, s1) =>
          if exceptions exc then
            if (Z.of_nat attempt =? attempts - 1)%Z then
              (Raise exc, s1, [Call attempt])
            else if Qltb current_delay 0 then
              (Raise (ValueError "sleep length must be non-negative"), s1,
               [Call attempt])
            else
              let '(result, s2, events) :=
                loop rest (current_delay * backoff)%Q (Some exc) s1 in
              (result, s2, Call attempt :: Sleep current_delay :: events)
          else (Raise exc, s1, [Call attempt])
      end
  end.

Definition wrapper (s : St) : Result A * St * list Event :=
  loop (BaseProvider.range attempts) delay None s.
End Decorator.

End Retry.

(** ** Analytics aggregation ([analytics/aggregator.py]) *)

Module Analytics.

Record RequestRecord : Type := {
  id : string;
  timestamp : Z;
  model : string;
  cost : Q;
  latency : Q;
  success : bool
}.

(** [group_by_model]: [grouped.setdefault(record.model, []).append(record)]
    for every record. *)
Definition group_by_model (records : list RequestRecord)
    : gmap string (list RequestRecord) :=
  foldl (λ grouped record,
           <[ model record :=
                List.app (default [] (grouped !! model record)) [record] ]>
             grouped)
        ∅ records.

End Analytics.

(** * Properties *)

Local Open Scope list_scope.

(** ** Clamping *)

Lemma _clamp_bounds (v : Q) : (0 <= _clamp v)%Q ∧ (_clamp v <= 1)%Q.
Proof.
  unfold _clamp, Py.max, Py.min. split.
  - apply Q.le_max_l.
  - apply Q.max_lub; [discriminate | apply Q.le_min_r].
Qed.

Lemma _clamp_id (v : Q) : (0 <= v)%Q → (v <= 1)%Q → (_clamp v == v)%Q.
Proof.
  intros H0 H1. unfold _clamp, Py.max, Py.min.
  rewrite (Q.min_l v 1 H1). apply Q.max_r. exact H0.
Qed.

(** C6. The score of the balanced strategy is the fixed blend
    0.30 * cost + 0.45 * quality + 0.25 * latency of the scores the three
    other strategies return on the same model, complexity and constraints;
    the final clamp to [0, 1] leaves the sum as it is. *)
Theorem balanced_score_is_linear_blend
    (model : ModelConfig) (complexity : Q) (constraints : RoutingConstraints) :
  (score_model BalancedStrategy.BalancedStrategy model complexity constraints
   == (3 # 10) * score_model CostStrategy.CostOptimizedStrategy model complexity constraints
      + (45 # 100) * score_model QualityStrategy.QualityOptimizedStrategy model complexity constraints
      + (25 # 100) * score_model LatencyStrategy.LatencyOptimizedStrategy model complexity constraints)%Q.
Proof.
  cbn [score_model BalancedStrategy.BalancedStrategy
       CostStrategy.CostOptimizedStrategy
       QualityStrategy.QualityOptimizedStrategy
       LatencyStrategy.LatencyOptimizedStrategy].
  unfold BalancedStrategy.score.
  cbn [score_model BalancedStrategy._cost BalancedStrategy._quality
       BalancedStrategy._latency CostStrategy.CostOptimizedStrategy
       QualityStrategy.QualityOptimizedStrategy
       LatencyStrategy.LatencyOptimizedStrategy].
  set (c := CostStrategy.score model complexity constraints).
  set (q := QualityStrategy.score model complexity constraints).
  set (l := LatencyStrategy.score model complexity constraints).
  assert (Hc : (0 <= c)%Q ∧ (c <= 1)%Q) by apply _clamp_bounds.
  assert (Hq : (0 <= q)%Q ∧ (q <= 1)%Q) by apply _clamp_bounds.
  assert (Hl : (0 <= l)%Q ∧ (l <= 1)%Q) by apply _clamp_bounds.
  destruct Hc, Hq, Hl.
  apply _clamp_id; lra.
Qed.

(** ** The constructor of [RoutingDecision] *)

Lemma tuple_contains_true (xs : list (obj ModelConfig)) (x : obj ModelConfig) :
  tuple_contains xs x = true ↔
  ∃ y, y ∈ xs ∧ (is_ x y = true ∨ ModelConfig_eqb (val x) (val y) = true).
Proof.
  unfold tuple_contains. rewrite existsb_exists. split.
  - intros (y & Hin & Hy). exists y. rewrite list_elem_of_In.
    apply orb_true_iff in Hy. auto.
  - intros (y & Hin & Hy). exists y. rewrite <- list_elem_of_In.
    split; [exact Hin | apply orb_true_iff; exact Hy].
Qed.

Lemma RoutingDecision_new_Ok selected est_cost reason alternatives d :
  RoutingDecision_new selected est_cost reason alternatives = Ok d →
  Qle_bool 0 est_cost = true ∧ Py.is_blank reason = false
  ∧ tuple_contains alternatives selected = false
  ∧ d = {| selected_model := selected; estimated_cost := est_cost;
           reasoning := reason; alternatives_considered := alternatives |}.
Proof.
  unfold RoutingDecision_new.
  destruct (Qle_bool 0 est_cost); simpl; [| discriminate].
  destruct (Py.is_blank reason); [discriminate |].
  destruct (tuple_contains alternatives selected); [discriminate |].
  intros [= <-]. auto.
Qed.

Lemma RoutingDecision_new_succeeds selected est_cost reason alternatives :
  Qle_bool 0 est_cost = true → Py.is_blank reason = false →
  tuple_contains alternatives selected = false →
  RoutingDecision_new selected est_cost reason alternatives
  = Ok {| selected_model := selected; estimated_cost := est_cost;
          reasoning := reason; alternatives_considered := alternatives |}.
Proof.
  intros H1 H2 H3. unfold RoutingDecision_new. rewrite H1, H2, H3. reflexivity.
Qed.

(** C9. A [RoutingDecision] that comes out of its constructor has the
    fields it was given and its selected model equals (by value) none of its
    alternatives; constructing one whose selected model is listed among the
    alternatives (the object itself, or one equal to it) fails with a
    validation error. *)
Theorem routing_decision_selected_not_alternative
    (selected : obj ModelConfig) (est_cost : Q) (reason : string)
    (alternatives : list (obj ModelConfig)) :
  (∀ d, RoutingDecision_new selected est_cost reason alternatives = Ok d →
        selected_model d = selected
        ∧ alternatives_considered d = alternatives
        ∧ Forall (λ a, ModelConfig_eqb (val (selected_model d)) (val a) = false)
                 (alternatives_considered d))
  ∧ ((∃ a, a ∈ alternatives
           ∧ (a = selected ∨ ModelConfig_eqb (val selected) (val a) = true)) →
     ∃ msg, RoutingDecision_new selected est_cost reason alternatives
            = Raise (ValidationError msg)).
Proof.
  split.
  - intros d Hd. apply RoutingDecision_new_Ok in Hd as (_ & _ & Hnot & ->).
    simpl. repeat split.
    apply Forall_forall. intros a Ha.
    destruct (ModelConfig_eqb (val selected) (val a)) eqn:E; [| reflexivity].
    assert (tuple_contains alternatives selected = true) as Hc.
    { apply tuple_contains_true. exists a. auto. }
    congruence.
  - intros (a & Ha & Heq).
    assert (tuple_contains alternatives selected = true) as Hc.
    { apply tuple_contains_true. exists a. split; [exact Ha |].
      destruct Heq as [-> | Heq]; [left; apply Nat.eqb_refl | by right]. }
    unfold RoutingDecision_new.
    destruct (negb (Qle_bool 0 est_cost)); [eauto |].
    destruct (Py.is_blank reason); [eauto |].
    rewrite Hc. eauto.
Qed.

(** ** The forced-provider override *)

Section FilterFacts.
Context {A : Type} (f : A → bool).

Lemma filter_bool_sublist (l : list A) : sublist (List.filter f l) l.
Proof.
  induction l as [| x l IH]; simpl.
  - constructor.
  - destruct (f x); [apply sublist_skip | apply sublist_cons]; exact IH.
Qed.

Lemma filter_bool_partition (l : list A) :
  List.filter f l ++ List.filter (λ x, negb (f x)) l ≡ₚ l.
Proof.
  induction l as [| x l IH]; simpl.
  - reflexivity.
  - destruct (f x); simpl.
    + by rewrite IH.
    + rewrite <- Permutation_middle. by rewrite IH.
Qed.

Lemma filter_bool_Forall (l : list A) : Forall (λ x, f x = true) (List.filter f l).
Proof.
  induction l as [| x l IH]; simpl.
  - constructor.
  - destruct (f x) eqn:E; [constructor |]; assumption.
Qed.
End FilterFacts.

(** C5. An override that is set (a non-empty provider key) turns the
    candidate list into a permutation of itself: the entries of the forced
    provider first, the others after them, both groups in their original
    relative order (each is a subsequence of the list), nothing dropped and
    nothing added. *)
Theorem forced_provider_reorders_without_dropping
    (provider_attempts : list Router.Candidate) (forced : string) :
  Py.falsy forced = false →
  ∃ preferred rest : list Router.Candidate,
    Router.reorder_forced (Some forced) provider_attempts = (preferred ++ rest)%list
    ∧ (preferred ++ rest)%list ≡ₚ provider_attempts
    ∧ Forall (λ c, snd c = forced) preferred
    ∧ Forall (λ c, snd c ≠ forced) rest
    ∧ sublist preferred provider_attempts
    ∧ sublist rest provider_attempts.
Proof.
  intros Hset.
  exists (List.filter (λ a : Router.Candidate, String.eqb (snd a) forced)
                      provider_attempts),
         (List.filter (λ a : Router.Candidate, negb (String.eqb (snd a) forced))
                      provider_attempts).
  unfold Router.reorder_forced. rewrite Hset.
  split; [reflexivity |].
  split; [apply (filter_bool_partition (λ a : Router.Candidate, String.eqb (snd a) forced)) |].
  split.
  { eapply Forall_impl; [apply filter_bool_Forall |].
    intros c Hc. simpl in Hc. by apply String.eqb_eq. }
  split.
  { eapply Forall_impl; [apply filter_bool_Forall |].
    intros c Hc. simpl in Hc. apply negb_true_iff in Hc.
    by apply String.eqb_neq. }
  split; apply filter_bool_sublist.
Qed.

(** An override that is not set leaves the list as it is. *)
Lemma reorder_forced_unset (provider_attempts : list Router.Candidate) :
  Router.reorder_forced None provider_attempts = provider_attempts
  ∧ Router.reorder_forced (Some "") provider_attempts = provider_attempts.
Proof. split; reflexivity. Qed.

Lemma reorder_forced_perm forced (provider_attempts : list Router.Candidate) :
  Router.reorder_forced forced provider_attempts ≡ₚ provider_attempts.
Proof.
  destruct forced as [fp |]; [| reflexivity].
  unfold Router.reorder_forced. destruct (Py.falsy fp); [reflexivity |].
  apply (filter_bool_partition (λ a : Router.Candidate, String.eqb (snd a) fp)).
Qed.

(** ** The fallback walk *)

Section WalkFacts.
Context {W P : Type}.
Variable collab : Router.Collaborators W P.
Variable self : Router.Router.

Lemma walk_invocations_bounded (cands : list Router.Candidate) :
  ∀ (attempts : Z) last_error request w,
    (Z.of_nat (length (Router.walk collab self cands attempts last_error request w).2)
     <= Z.max 0 (Config.max_retries (Router._config self) - attempts))%Z.
Proof.
  induction cands as [| [m k] rest IH]; intros attempts last_error request w; simpl.
  - lia.
  - destruct (Z.leb_spec (Config.max_retries (Router._config self)) attempts).
    + simpl. lia.
    + destruct (Router._provider_configs self !! k) as [pc |].
      * destruct (Router.create collab m pc w) as [[p | e] w1]; [| simpl; lia].
        destruct (Router.complete collab p request w1) as [[r | e] w2].
        -- simpl. lia.
        -- specialize (IH (attempts + 1)%Z (Some e) request w2).
           destruct (Router.walk collab self rest (attempts + 1) (Some e) request w2)
             as [[res w3] invoked]. simpl in *. lia.
      * specialize (IH attempts last_error request w). lia.
Qed.

Lemma walk_budget_spent (cands : list Router.Candidate) attempts last_error request w :
  (Config.max_retries (Router._config self) <= attempts)%Z →
  Router.walk collab self cands attempts last_error request w
  = (Raise (RuntimeError "All provider attempts failed" last_error), w, []).
Proof.
  intros Hle. destruct cands as [| [m k] rest]; simpl; [reflexivity |].
  apply Z.leb_le in Hle. rewrite Hle. reflexivity.
Qed.

(** Candidates without a provider configuration have no effect on the
    walk. *)
Lemma walk_skips_unconfigured (cands : list Router.Candidate) :
  ∀ (attempts : Z) last_error request w,
    Router.walk collab self cands attempts last_error request w
    = Router.walk collab self
        (List.filter (λ c : Router.Candidate,
                        bool_decide (is_Some (Router._provider_configs self !! snd c)))
                     cands)
        attempts last_error request w.
Proof.
  induction cands as [| [m k] rest IH]; intros attempts last_error request w; simpl.
  - reflexivity.
  - destruct (Router._provider_configs self !! k) as [pc |] eqn:Hk; simpl.
    + rewrite ?Hk.
      destruct (Config.max_retries (Router._config self) <=? attempts)%Z; [reflexivity |].
      destruct (Router.create collab m pc w) as [[p | e] w1]; [| reflexivity].
      destruct (Router.complete collab p request w1) as [[r | e] w2]; [reflexivity |].
      rewrite IH. reflexivity.
    + destruct (Z.leb_spec (Config.max_retries (Router._config self)) attempts) as [Hle | Hlt].
      * by rewrite walk_budget_spent.
      * apply IH.
Qed.

Lemma walk_invoked_configured (cands : list Router.Candidate) :
  ∀ (attempts : Z) last_error request w,
    Forall (λ c : Router.Candidate, is_Some (Router._provider_configs self !! snd c))
           (Router.walk collab self cands attempts last_error request w).2.
Proof.
  induction cands as [| [m k] rest IH]; intros attempts last_error request w; simpl.
  - constructor.
  - destruct (Config.max_retries (Router._config self) <=? attempts)%Z; [constructor |].
    destruct (Router._provider_configs self !! k) as [pc |] eqn:Hk; [| apply IH].
    destruct (Router.create collab m pc w) as [[p | e] w1]; [| constructor].
    destruct (Router.complete collab p request w1) as [[r | e] w2].
    + simpl. constructor; [simpl; eauto | constructor].
    + specialize (IH (attempts + 1)%Z (Some e) request w2).
      destruct (Router.walk collab self rest (attempts + 1) (Some e) request w2)
        as [[res w3] invoked]. simpl in *. constructor; [simpl; eauto | exact IH].
Qed.

(** C3. Whatever the candidates, the fallback models and the forced
    provider, one fallback execution invokes providers at most [max_retries]
    times in all; every invocation goes to a candidate whose provider key has
    a configuration, and the candidates without one leave the walk (and so
    its budget) untouched. *)
Theorem fallback_walk_within_retry_budget
    (decision : RoutingDecision) (request : Request) (w : W) :
  Config.validate (Router._config self) = true →
  (Z.of_nat (length (Router._execute_with_fallback collab self decision request w).2)
   <= Config.max_retries (Router._config self))%Z
  ∧ Forall (λ c : Router.Candidate, is_Some (Router._provider_configs self !! snd c))
           (Router._execute_with_fallback collab self decision request w).2
  ∧ ∀ (cands : list Router.Candidate) attempts last_error,
      Router.walk collab self cands attempts last_error request w
      = Router.walk collab self
          (List.filter (λ c : Router.Candidate,
                          bool_decide (is_Some (Router._provider_configs self !! snd c)))
                       cands)
          attempts last_error request w.
Proof.
  intros Hvalid. unfold Config.validate in Hvalid.
  apply andb_true_iff in Hvalid as [Hvalid _].
  apply andb_true_iff in Hvalid as [_ Hretries].
  apply Z.leb_le in Hretries.
  unfold Router._execute_with_fallback.
  destruct (Router.candidates collab self decision w) as [cands w1].
  split; [| split].
  - pose proof (walk_invocations_bounded cands 0 None request w1). lia.
  - apply walk_invoked_configured.
  - intros. apply walk_skips_unconfigured.
Qed.
End WalkFacts.

(** ** Retries inside one provider adapter *)

Section ExecuteFacts.
Context {St : Type}.
Variable _make_api_call : Request → St → Result Response * St.
Variable config : ProviderConfig.

Lemma retry_events_api_calls (start : nat) (failed : list Error)
    (tail : list BaseProvider.Event) :
  length (List.filter BaseProvider.is_api_call (retry_events config start failed ++ tail))
  = (length failed + length (List.filter BaseProvider.is_api_call tail))%nat.
Proof.
  revert start. induction failed as [| e rest IH]; intros start; simpl.
  - reflexivity.
  - by rewrite IH.
Qed.

Lemma attempt_loop_shape (n : nat) :
  ∀ (start : nat) request s,
    (Z.of_nat start + Z.of_nat (S n) = max_retries config + 1)%Z →
    ∃ (failed : list Error) (last : Result Response),
      (BaseProvider.attempt_loop _make_api_call config (seq start (S n)) request s).2
      = retry_events config start failed
          ++ [BaseProvider.ApiCall (start + length failed) last]
      ∧ Forall (λ e, is_transient e = true) failed
      ∧ (Z.of_nat (start + length failed) <= max_retries config)%Z
      ∧ (BaseProvider.attempt_loop _make_api_call config (seq start (S n)) request s).1.1
        = surfaced last
      ∧ (∀ e, last = Raise e → is_transient e = true →
              Z.of_nat (start + length failed) = max_retries config).
Proof.
  induction n as [| n IH]; intros start request s Hlen.
  - (* the last attempt of the budget *)
    cbn [seq BaseProvider.attempt_loop].
    destruct (_make_api_call request s) as [[r | exc] s1].
    + exists [], (Ok r). simpl. rewrite Nat.add_0_r.
      repeat split; [constructor | lia | discriminate].
    + exists [], (Raise exc). simpl. rewrite Nat.add_0_r.
      destruct (is_transient exc) eqn:Ht.
      * replace (Z.of_nat start =? max_retries config)%Z with true
          by (symmetry; apply Z.eqb_eq; lia).
        simpl. repeat split; [constructor | lia | | intros; lia].
        destruct exc; simpl in Ht; try discriminate; reflexivity.
      * destruct (is_provider_error exc); simpl;
          (repeat split; [constructor | lia | intros e [= <-]; congruence]).
  - change (seq start (S (S n))) with (start :: seq (S start) (S n)).
    cbn [BaseProvider.attempt_loop].
    destruct (_make_api_call request s) as [[r | exc] s1].
    + exists [], (Ok r). simpl. rewrite Nat.add_0_r.
      repeat split; [constructor | lia | discriminate].
    + destruct (is_transient exc) eqn:Ht.
      * replace (Z.of_nat start =? max_retries config)%Z with false
          by (symmetry; apply Z.eqb_neq; lia).
        destruct (IH (S start) request s1 ltac:(lia))
          as (failed & last & Hev & Hall & Hle & Hres & Hlast).
        destruct (BaseProvider.attempt_loop _make_api_call config
                    (seq (S start) (S n)) request s1) as [[res s2] events].
        cbn [fst snd] in Hev, Hres. exists (exc :: failed), last.
        cbn [fst snd retry_events length].
        replace (start + S (length failed))%nat
          with (S start + length failed)%nat by lia.
        repeat split.
        -- unfold BaseProvider._backoff_delay. by rewrite Hev.
        -- by constructor.
        -- exact Hle.
        -- exact Hres.
        -- exact Hlast.
      * exists [], (Raise exc). simpl. rewrite Nat.add_0_r.
        destruct (is_provider_error exc); simpl;
          (repeat split; [constructor | lia | intros e [= <-]; congruence]).
Qed.

End ExecuteFacts.

(** ** Blank strings *)

Lemma is_blank_head_not_space (c : ascii) (r : string) :
  Py.is_space c = false → Py.is_blank (String c r) = false.
Proof.
  intros Hc. unfold Py.is_blank, Py.strip. simpl. rewrite Hc. simpl.
  destruct (Py.rstrip r); [rewrite Hc |]; reflexivity.
Qed.

Lemma is_blank_all_space (s : string) : Py.is_blank s = Py.all_space s.
Proof.
  induction s as [| c r IH].
  - reflexivity.
  - destruct (Py.is_space c) eqn:Hc.
    + simpl. rewrite Hc. simpl. rewrite <- IH.
      unfold Py.is_blank, Py.strip. simpl. by rewrite Hc.
    + rewrite (is_blank_head_not_space c r Hc). simpl. by rewrite Hc.
Qed.

Lemma all_space_append (a b : string) :
  Py.all_space (a +:+ b) = Py.all_space a && Py.all_space b.
Proof.
  induction a as [| c r IH]; simpl; [reflexivity |].
  rewrite IH. by rewrite andb_assoc.
Qed.

Lemma not_blank_append (a b : string) :
  Py.is_blank a = false → Py.is_blank (a +:+ b) = false.
Proof.
  rewrite !is_blank_all_space, all_space_append. by intros ->.
Qed.

(** ** Hard constraints and the filter *)

Lemma Qltb_false (a b : Q) : Qltb a b = false ↔ (b <= a)%Q.
Proof.
  unfold Qltb. split.
  - intros H. apply Qnot_lt_le. intros Hlt.
    destruct (a ?= b)%Q eqn:E; try discriminate;
      apply (proj1 (Qlt_alt a b)) in Hlt; congruence.
  - intros Hle. destruct (a ?= b)%Q eqn:E; try reflexivity.
    apply (proj2 (Qlt_alt a b)) in E. exfalso. by apply (Qle_not_lt b a).
Qed.

Lemma _supports_low_latency_spec (m : ModelConfig) :
  Selector._supports_low_latency m = true ↔
  ∃ tag, tag ∈ capabilities m ∧ tag ∈ Selector.LOW_LATENCY_TAGS.
Proof.
  unfold Selector._supports_low_latency. rewrite existsb_exists. split.
  - intros (tag & Hin & Htag). exists tag. split.
    + apply elem_of_elements. by apply list_elem_of_In.
    + by apply bool_decide_eq_true in Htag.
  - intros (tag & Hin & Htag). exists tag. split.
    + apply list_elem_of_In. by apply elem_of_elements.
    + by apply bool_decide_eq_true.
Qed.

(** The filter keeps a model exactly when it meets the hard constraints. *)
Lemma survives_iff (constraints : RoutingConstraints) (m : ModelConfig) :
  Selector.survives constraints m = true ↔ satisfies_hard_constraints constraints m.
Proof.
  unfold Selector.survives, satisfies_hard_constraints.
  destruct constraints as [mc ml mq st]; simpl. split.
  - intros H.
    destruct mc as [c |];
      [destruct (Qltb c (pricing m)) eqn:E1; [discriminate |] |].
    all: destruct mq as [q |];
      [destruct (Qltb (Selector._quality_score m) q) eqn:E2; [discriminate |] |].
    all: destruct ml as [l |];
      [destruct (Qle_bool l 200 && negb (Selector._supports_low_latency m)) eqn:E3;
       [discriminate |] |].
    all: repeat split; try (intros ? [= <-]); try discriminate;
      try (by apply Qltb_false).
    all: intros Hl; apply Qle_bool_iff in Hl; rewrite Hl in E3; simpl in E3;
      apply negb_false_iff in E3; by apply _supports_low_latency_spec.
  - intros (Hc & Hq & Hl).
    destruct mc as [c |].
    + specialize (Hc c eq_refl). apply Qltb_false in Hc. rewrite Hc.
      destruct mq as [q |].
      * specialize (Hq q eq_refl). apply Qltb_false in Hq. rewrite Hq.
        destruct ml as [l |]; [| reflexivity].
        destruct (Qle_bool l 200) eqn:E; [| reflexivity].
        apply Qle_bool_iff in E. apply (Hl l eq_refl) in E.
        apply _supports_low_latency_spec in E. by rewrite E.
      * destruct ml as [l |]; [| reflexivity].
        destruct (Qle_bool l 200) eqn:E; [| reflexivity].
        apply Qle_bool_iff in E. apply (Hl l eq_refl) in E.
        apply _supports_low_latency_spec in E. by rewrite E.
    + destruct mq as [q |].
      * specialize (Hq q eq_refl). apply Qltb_false in Hq. rewrite Hq.
        destruct ml as [l |]; [| reflexivity].
        destruct (Qle_bool l 200) eqn:E; [| reflexivity].
        apply Qle_bool_iff in E. apply (Hl l eq_refl) in E.
        apply _supports_low_latency_spec in E. by rewrite E.
      * destruct ml as [l |]; [| reflexivity].
        destruct (Qle_bool l 200) eqn:E; [| reflexivity].
        apply Qle_bool_iff in E. apply (Hl l eq_refl) in E.
        apply _supports_low_latency_spec in E. by rewrite E.
Qed.

Lemma _filter_by_constraints_elem models constraints (x : obj ModelConfig) :
  x ∈ Selector._filter_by_constraints models constraints ↔
  x ∈ models ∧ Selector.survives constraints (val x) = true.
Proof.
  induction models as [| m rest IH]; simpl.
  - split; [intros H; by apply not_elem_of_nil in H | intros [H _]; by apply not_elem_of_nil in H].
  - destruct (Selector.survives constraints (val m)) eqn:E.
    + rewrite !elem_of_cons, IH. split.
      * intros [-> | [? ?]]; auto.
      * intros [[-> | ?] ?]; auto.
    + rewrite elem_of_cons, IH. split.
      * intros [? ?]; auto.
      * intros [[-> | ?] ?]; [congruence | auto].
Qed.

(** ** The ranking *)

Lemma insert_desc_perm {A} (x : A * Q) (l : list (A * Q)) :
  insert_desc x l ≡ₚ x :: l.
Proof.
  induction l as [| y rest IH]; simpl; [reflexivity |].
  destruct (Qltb (snd x) (snd y)); [| reflexivity].
  rewrite IH. apply Permutation_swap.
Qed.

Lemma sort_desc_perm {A} (l : list (A * Q)) : sort_desc l ≡ₚ l.
Proof.
  induction l as [| x rest IH]; simpl; [reflexivity |].
  by rewrite insert_desc_perm, IH.
Qed.

Lemma _score_models_fst strategy models complexity constraints :
  map fst (Selector._score_models strategy models complexity constraints) = models.
Proof.
  unfold Selector._score_models. induction models as [| m rest IH]; simpl;
    [reflexivity | by rewrite IH].
Qed.

(** The objects of the ranking are the survivors of the filter. *)
Lemma ranking_objects strategy eligible complexity constraints :
  map fst (sort_desc (Selector._score_models strategy eligible complexity constraints))
  ≡ₚ eligible.
Proof.
  rewrite (Permutation_map fst (sort_desc_perm _)). by rewrite _score_models_fst.
Qed.

(** ** The selector *)

Section SelectFacts.
Variable scorer : IRoutingStrategy.
Variable float_repr : Q → string.

Lemma _build_reasoning_not_blank selected top_score scored constraints :
  Py.is_blank (Selector._build_reasoning scorer float_repr selected top_score
                                         scored constraints) = false.
Proof.
  unfold Selector._build_reasoning. cbn zeta.
  apply not_blank_append. simpl. by apply is_blank_head_not_space.
Qed.

Lemma ModelConfig_valid_cost (m : ModelConfig) :
  ModelConfig_valid m = true → Qle_bool 0 (pricing m) = true.
Proof.
  unfold ModelConfig_valid. intros H. apply Qle_bool_iff, Qlt_le_weak.
  apply Qlt_alt. by destruct (0 ?= pricing m)%Q.
Qed.

(** The alternatives of a decision hold an object equal to the selected one
    exactly when the ranking holds another object of the same value. *)
Lemma alternatives_hold_selected (best : obj ModelConfig)
    (scored : list (obj ModelConfig * Q)) :
  tuple_contains
    (map fst (List.filter (λ item : obj ModelConfig * Q, is_not (fst item) best) scored))
    best = true
  ↔ ∃ y, y ∈ map fst scored ∧ addr y ≠ addr best
         ∧ ModelConfig_eqb (val best) (val y) = true.
Proof.
  rewrite tuple_contains_true. split.
  - intros (y & Hy & Hor).
    apply list_elem_of_In, in_map_iff in Hy as ([y' sc] & <- & Hin).
    apply filter_In in Hin as [Hin Hnot]. simpl in *.
    unfold is_not, is_ in Hnot. apply negb_true_iff, Nat.eqb_neq in Hnot.
    exists y'. split; [| split].
    + apply list_elem_of_In, in_map_iff. by exists (y', sc).
    + exact Hnot.
    + destruct Hor as [His | Heq]; [| exact Heq].
      unfold is_ in His. apply Nat.eqb_eq in His. congruence.
  - intros (y & Hy & Hne & Heq).
    apply list_elem_of_In, in_map_iff in Hy as ([y' sc] & <- & Hin). simpl in *.
    exists y'. split; [| by right].
    apply list_elem_of_In, in_map_iff. exists (y', sc). split; [reflexivity |].
    apply filter_In. split; [exact Hin |]. simpl.
    unfold is_not, is_. by apply negb_true_iff, Nat.eqb_neq.
Qed.

(** When the filter leaves a model, [select] ranks the survivors and builds
    the decision for the first of the ranking. *)
Lemma select_ranks_survivors models request constraints :
  Selector._filter_by_constraints models constraints ≠ [] →
  ∃ best score rest,
    sort_desc (Selector._score_models scorer
                 (Selector._filter_by_constraints models constraints)
                 (Estimator.estimate Selector._complexity_estimator (prompt request))
                 constraints) = (best, score) :: rest
    ∧ top_scorer scorer models request constraints = Some best
    ∧ best ∈ Selector._filter_by_constraints models constraints
    ∧ Selector.select scorer float_repr models request constraints
      = Selector._create_decision scorer float_repr best score
          ((best, score) :: rest) constraints.
Proof.
  intros Hne. unfold Selector.select, top_scorer. cbn zeta.
  pose proof (ranking_objects scorer
                (Selector._filter_by_constraints models constraints)
                (Estimator.estimate Selector._complexity_estimator (prompt request))
                constraints) as Hperm.
  destruct (sort_desc _) as [| [best score] rest] eqn:Hs.
  - simpl in Hperm. symmetry in Hperm. apply Permutation_nil_r in Hperm. contradiction.
  - exists best, score, rest. split; [reflexivity |]. split; [reflexivity |].
    split.
    + rewrite <- Hperm. simpl. apply elem_of_cons. by left.
    + destruct (Selector._filter_by_constraints models constraints);
        [contradiction | reflexivity].
Qed.

Lemma _create_decision_outcome best score scored constraints :
  ModelConfig_valid (val best) = true →
  Selector._create_decision scorer float_repr best score scored constraints
  = if tuple_contains
         (map fst (List.filter (λ item : obj ModelConfig * Q, is_not (fst item) best)
                               scored)) best
    then Raise (ValidationError "selected model cannot be listed as an alternative")
    else Ok {| selected_model := best;
               estimated_cost := pricing (val best);
               reasoning := Selector._build_reasoning scorer float_repr best score
                                                      scored constraints;
               alternatives_considered :=
                 map fst (List.filter
                            (λ item : obj ModelConfig * Q, is_not (fst item) best)
                            scored) |}.
Proof.
  intros Hvalid. unfold Selector._create_decision, RoutingDecision_new. cbn zeta.
  rewrite (ModelConfig_valid_cost _ Hvalid), _build_reasoning_not_blank. simpl.
  reflexivity.
Qed.

(** C2. Let the models be validly constructed and at least one of them meet
    every hard constraint.  Provided no other surviving object is equal by
    value to the survivor ranked first, [select] returns a decision; its
    selected model is one of the given models and meets every hard
    constraint: price at most [max_cost], quality score at least
    [min_quality], and a low-latency tag when [max_latency] is at most
    200. *)
Theorem select_returns_model_within_constraints
    (models : list (obj ModelConfig)) (request : Request)
    (constraints : RoutingConstraints) :
  Forall (λ m, ModelConfig_valid (val m) = true) models →
  (∃ m, m ∈ models ∧ satisfies_hard_constraints constraints (val m)) →
  (∀ best other,
     top_scorer scorer models request constraints = Some best →
     other ∈ models → satisfies_hard_constraints constraints (val other) →
     ModelConfig_eqb (val best) (val other) = true → addr other = addr best) →
  ∃ d, Selector.select scorer float_repr models request constraints = Ok d
       ∧ selected_model d ∈ models
       ∧ satisfies_hard_constraints constraints (val (selected_model d)).
Proof.
  intros Hvalid (m & Hm & Hsat) Hnodup.
  assert (Selector._filter_by_constraints models constraints ≠ []) as Hne.
  { intros Hnil.
    assert (m ∈ Selector._filter_by_constraints models constraints) as Hin
      by (apply _filter_by_constraints_elem; split; [exact Hm | by apply survives_iff]).
    rewrite Hnil in Hin. by apply not_elem_of_nil in Hin. }
  destruct (select_ranks_survivors models request constraints Hne)
    as (best & score & rest & Hs & Htop & Hbest & Hsel).
  apply _filter_by_constraints_elem in Hbest as [Hbm Hbs].
  rewrite Hsel, _create_decision_outcome
    by (rewrite Forall_forall in Hvalid; by apply Hvalid).
  destruct (tuple_contains _ best) eqn:Hc.
  - exfalso. apply alternatives_hold_selected in Hc as (y & Hy & Hne' & Heq).
    rewrite <- Hs, ranking_objects in Hy.
    apply _filter_by_constraints_elem in Hy as [Hym Hys].
    apply Hne'. apply (Hnodup best y Htop Hym); [by apply survives_iff | exact Heq].
  - eexists. split; [reflexivity |]. simpl. split; [exact Hbm | by apply survives_iff].
Qed.

(** C10. With validly constructed models, [select] raises the validation
    error of the decision constructor whenever the survivor ranked first has
    a distinct surviving object of the same value. *)
Theorem select_raises_on_duplicate_of_top_scorer
    (models : list (obj ModelConfig)) (request : Request)
    (constraints : RoutingConstraints) (best dup : obj ModelConfig) :
  Forall (λ m, ModelConfig_valid (val m) = true) models →
  top_scorer scorer models request constraints = Some best →
  dup ∈ models →
  Selector.survives constraints (val dup) = true →
  addr dup ≠ addr best →
  ModelConfig_eqb (val best) (val dup) = true →
  Selector.select scorer float_repr models request constraints
  = Raise (ValidationError "selected model cannot be listed as an alternative").
Proof.
  intros Hvalid Htop Hdup Hsurv Hne Heq.
  assert (dup ∈ Selector._filter_by_constraints models constraints) as Hin
    by (by apply _filter_by_constraints_elem).
  assert (Selector._filter_by_constraints models constraints ≠ []) as Hnil.
  { intros E. rewrite E in Hin. by apply not_elem_of_nil in Hin. }
  destruct (select_ranks_survivors models request constraints Hnil)
    as (best' & score & rest & Hs & Htop' & Hbest & Hsel).
  assert (best' = best) as -> by congruence.
  apply _filter_by_constraints_elem in Hbest as [Hbm Hbs].
  rewrite Hsel, _create_decision_outcome
    by (rewrite Forall_forall in Hvalid; by apply Hvalid).
  replace (tuple_contains _ best) with true; [reflexivity |].
  symmetry. apply alternatives_hold_selected. exists dup.
  split; [| by split]. by rewrite <- Hs, ranking_objects.
Qed.

(** C4. [select] fails with the no-suitable-model error exactly when the
    filter leaves no candidate, and then returns no decision; a catalog
    whose only model is priced 0.2 is rejected under [max_cost = 0.05],
    [min_quality = 0.9]. *)
Theorem select_no_suitable_model
    (models : list (obj ModelConfig)) (request : Request)
    (constraints : RoutingConstraints) :
  ((∃ msg, Selector.select scorer float_repr models request constraints
           = Raise (NoSuitableModelError msg))
   ↔ Selector._filter_by_constraints models constraints = [])
  ∧ (Selector._filter_by_constraints models constraints = [] →
     is_ok (Selector.select scorer float_repr models request constraints) = false)
  ∧ (∀ (m : obj ModelConfig) ml st,
       (pricing (val m) == 2 # 10)%Q →
       Selector.select scorer float_repr [m] request
         {| max_cost := Some (5 # 100); max_latency := ml;
            min_quality := Some (9 # 10); strategy := st |}
       = Raise (NoSuitableModelError "No models satisfy hard constraints")).
Proof.
  split; [| split].
  - split.
    + intros (msg & Hsel).
      destruct (Selector._filter_by_constraints models constraints) eqn:E;
        [reflexivity | exfalso].
      assert (Selector._filter_by_constraints models constraints ≠ []) as Hne
        by (rewrite E; discriminate).
      destruct (select_ranks_survivors models request constraints Hne)
        as (best & score & rest & _ & _ & _ & Hsel').
      rewrite Hsel' in Hsel.
      unfold Selector._create_decision, RoutingDecision_new in Hsel. cbn zeta in Hsel.
      repeat match type of Hsel with
             | (if ?b then _ else _) = _ => destruct b
             end; discriminate.
    + intros E. unfold Selector.select. cbn zeta. rewrite E. eauto.
  - intros E. unfold Selector.select. cbn zeta. rewrite E. reflexivity.
  - intros m ml st Hp. unfold Selector.select. cbn zeta.
    cbn [Selector._filter_by_constraints].
    replace (Selector.survives _ (val m)) with false; [reflexivity |].
    symmetry. unfold Selector.survives. cbn [max_cost].
    replace (Qltb (5 # 100) (pricing (val m))) with true; [reflexivity |].
    symmetry. unfold Qltb.
    assert ((5 # 100) < pricing (val m))%Q as Hlt by (rewrite Hp; reflexivity).
    apply (proj1 (Qlt_alt _ _)) in Hlt. by rewrite Hlt.
Qed.
End SelectFacts.

(** The survivor ranked first has the highest score of the ranking. *)
Lemma sort_desc_head_max {A} (l : list (A * Q)) (b : A) (s : Q) rest :
  sort_desc l = (b, s) :: rest → ∀ y, y ∈ l → (snd y <= s)%Q.
Proof.
  revert b s rest. induction l as [| [xb xs] l IH]; intros b s rest Hs y Hy.
  - by apply not_elem_of_nil in Hy.
  - simpl in Hs. destruct (sort_desc l) as [| [b' s'] r] eqn:Hl.
    + pose proof (sort_desc_perm l) as Hp. rewrite Hl in Hp.
      apply Permutation_nil_l in Hp. subst l. simpl in Hs.
      injection Hs as -> -> _. apply list_elem_of_singleton in Hy as ->.
      apply Qle_refl.
    + simpl in Hs. destruct (Qltb xs s') eqn:E.
      * injection Hs as -> -> _. apply elem_of_cons in Hy as [-> | Hy].
        -- simpl. unfold Qltb in E. apply Qlt_le_weak, Qlt_alt.
           by destruct (xs ?= s)%Q.
        -- by apply (IH b s r eq_refl).
      * injection Hs as -> -> _. apply Qltb_false in E.
        apply elem_of_cons in Hy as [-> | Hy]; [apply Qle_refl |].
        eapply Qle_trans; [by apply (IH b' s' r eq_refl) | exact E].
Qed.

(** ** The routing engine *)

Lemma digit_is_digit (n : nat) : is_digit (Py.digit n) = true.
Proof.
  unfold is_digit, Py.digit.
  assert (n mod 10 < 10)%nat as Hlt by (apply Nat.mod_upper_bound; lia).
  destruct (n mod 10)%nat as [| [| [| [| [| [| [| [| [| [| k]]]]]]]]]];
    try reflexivity; lia.
Qed.

(** [format(x, '.2f')] ends in a dot and two digits. *)
Lemma format_2f_two_decimals (q : Q) :
  ∃ (int_part : string) (d1 d2 : ascii),
    Py.format_2f q = int_part +:+ "." +:+ String d1 (String d2 "")
    ∧ is_digit d1 = true ∧ is_digit d2 = true.
Proof.
  unfold Py.format_2f. cbn zeta.
  set (n := Z.to_nat (Py.round_half_even (Qabs q * 100))).
  destruct (match (q ?= 0)%Q with Lt => true | _ => false end).
  - exists ("-" +:+ Py.nat_to_string (n / 100)), (Py.digit (n / 10)), (Py.digit n).
    split; [reflexivity | split; apply digit_is_digit].
  - exists (Py.nat_to_string (n / 100)), (Py.digit (n / 10)), (Py.digit n).
    split; [reflexivity | split; apply digit_is_digit].
Qed.

Lemma digit_value (n : nat) : (nat_of_ascii (Py.digit n) - 48 = n mod 10)%nat.
Proof.
  unfold Py.digit.
  assert (n mod 10 < 10)%nat as Hlt by (apply Nat.mod_upper_bound; lia).
  rewrite nat_ascii_embedding by lia. lia.
Qed.

Lemma digits_value_digit (n : nat) (acc : string) (va pa : nat) :
  digits_value acc = Some (va, pa) →
  digits_value (String (Py.digit n) acc) = Some ((n mod 10) * pa + va, 10 * pa)%nat.
Proof.
  intros Hacc. cbn [digits_value]. rewrite digit_is_digit, Hacc, digit_value.
  reflexivity.
Qed.

Lemma digits_fuel_value (fuel : nat) :
  ∀ (n : nat) (acc : string) (va pa : nat),
    (n < fuel)%nat → digits_value acc = Some (va, pa) →
    ∃ p, digits_value (Py.digits_fuel fuel n acc) = Some (n * pa + va, p)%nat.
Proof.
  induction fuel as [| fuel IH]; intros n acc va pa Hlt Hacc; [lia |].
  cbn [Py.digits_fuel].
  pose proof (digits_value_digit n acc va pa Hacc) as Hstep.
  destruct (n <? 10)%nat eqn:Hsmall.
  - apply Nat.ltb_lt in Hsmall. rewrite Hstep.
    rewrite Nat.mod_small by exact Hsmall. by eexists.
  - apply Nat.ltb_ge in Hsmall.
    assert (n / 10 < fuel)%nat as Hdiv.
    { pose proof (Nat.div_lt n 10 ltac:(lia) ltac:(lia)). lia. }
    destruct (IH (n / 10)%nat _ _ _ Hdiv Hstep) as [p Hp].
    exists p. rewrite Hp. f_equal. f_equal.
    pose proof (Nat.div_mod_eq n 10). nia.
Qed.

Lemma digits_fuel_cons (fuel : nat) :
  ∀ (n : nat) (c : ascii) (acc : string),
    ∃ c' r, Py.digits_fuel fuel n (String c acc) = String c' r.
Proof.
  induction fuel as [| fuel IH]; intros n c acc; [by eexists _, _ |].
  cbn [Py.digits_fuel]. destruct (n <? 10)%nat; [by eexists _, _ | apply IH].
Qed.

Lemma nat_to_string_value (n : nat) :
  ∃ c r p, Py.nat_to_string n = String c r
           ∧ is_digit c = true
           ∧ digits_value (Py.nat_to_string n) = Some (n, p).
Proof.
  destruct (digits_fuel_value (S n) n "" 0 1 ltac:(lia) eq_refl) as [p Hp].
  fold (Py.nat_to_string n) in Hp.
  replace (n * 1 + 0)%nat with n in Hp by lia.
  assert (∃ c r, Py.nat_to_string n = String c r) as (c & r & Hs).
  { unfold Py.nat_to_string. cbn [Py.digits_fuel].
    destruct (n <? 10)%nat; [by eexists _, _ | apply digits_fuel_cons]. }
  exists c, r, p. split; [exact Hs |]. split; [| exact Hp].
  rewrite Hs in Hp. cbn [digits_value] in Hp.
  destruct (is_digit c); [reflexivity | discriminate].
Qed.

Lemma is_digit_not (c sign : ascii) :
  is_digit c = true → is_digit sign = false → Ascii.eqb c sign = false.
Proof.
  intros Hc Hs. destruct (Ascii.eqb_spec c sign) as [-> |]; congruence.
Qed.

Lemma split_dot_digits (a b : string) (va pa : nat) :
  digits_value a = Some (va, pa) → split_dot (a +:+ "." +:+ b) = Some (a, b).
Proof.
  revert va pa. induction a as [| c a IH]; intros va pa Ha; [reflexivity |].
  cbn [digits_value] in Ha. destruct (is_digit c) eqn:Hc; [| discriminate].
  destruct (digits_value a) as [[v p] |]; [| discriminate].
  change (String c a +:+ "." +:+ b) with (String c (a +:+ "." +:+ b)).
  cbn [split_dot]. rewrite (is_digit_not c "." Hc eq_refl).
  by rewrite (IH v p eq_refl).
Qed.

Lemma hundredths (n : nat) :
  (Qnat (n / 100) + Qnat ((n / 10) mod 10 * (10 * 1) + (n mod 10 * 1 + 0))
                    / Qnat (10 * (10 * 1))
   == Qnat n / 100)%Q.
Proof.
  assert (n = 100 * (n / 100) + ((n / 10) mod 10 * (10 * 1) + (n mod 10 * 1 + 0)))%nat
    as Hn.
  { pose proof (Nat.div_mod_eq n 10). pose proof (Nat.div_mod_eq (n / 10) 10).
    rewrite Nat.Div0.div_div in H0. change (10 * 10)%nat with 100%nat in H0. lia. }
  set (a := (n / 100)%nat) in *.
  set (b := ((n / 10) mod 10 * (10 * 1) + (n mod 10 * 1 + 0))%nat) in *.
  clearbody a b.
  assert (Z.of_nat n = 100 * Z.of_nat a + Z.of_nat b)%Z as Hz by lia.
  unfold Qnat. rewrite Hz.
  change (Z.of_nat (10 * (10 * 1))) with 100%Z.
  rewrite inject_Z_plus, inject_Z_mult.
  change (inject_Z 100) with 100%Q. field.
Qed.

(** The unsigned part of [format(x, '.2f')] reads as a number of hundredths. *)
Lemma unsigned_value_two_decimals (n : nat) :
  ∃ v, unsigned_value (Py.nat_to_string (n / 100) +:+ "."
                       +:+ String (Py.digit (n / 10)) (String (Py.digit n) ""))
       = Some v
       ∧ (v == Qnat n / 100)%Q.
Proof.
  destruct (nat_to_string_value (n / 100)) as (c & r & p & Hs & Hc & Hv).
  rewrite Hs in *.
  unfold unsigned_value. rewrite (split_dot_digits _ _ _ _ Hv). rewrite Hv.
  rewrite (digits_value_digit (n / 10) _ _ _
             (digits_value_digit n "" 0 1 eq_refl)).
  eexists. split; [reflexivity |]. apply hundredths.
Qed.

Lemma round_half_even_near (x : Q) :
  (Qabs (inject_Z (Py.round_half_even x) - x) <= 1 # 2)%Q.
Proof.
  unfold Py.round_half_even. cbn zeta.
  pose proof (Qfloor_le x) as Hlo. pose proof (Qlt_floor x) as Hhi.
  rewrite inject_Z_plus in Hhi. change (inject_Z 1) with 1%Q in Hhi.
  set (f := Qfloor x) in *. apply Qabs_Qle_condition.
  destruct (x - inject_Z f ?= 1 # 2)%Q eqn:E.
  - apply Qeq_alt in E.
    destruct (Z.even f); [| rewrite inject_Z_plus; change (inject_Z 1) with 1%Q];
      split; lra.
  - apply Qlt_alt in E. split; lra.
  - apply Qgt_alt in E. rewrite inject_Z_plus. change (inject_Z 1) with 1%Q.
    split; lra.
Qed.

Lemma round_half_even_nonneg (x : Q) :
  (0 <= x)%Q → (0 <= Py.round_half_even x)%Z.
Proof.
  intros Hx. unfold Py.round_half_even. cbn zeta.
  assert (0 <= Qfloor x)%Z as Hf.
  { change 0%Z with (Qfloor 0). by apply Qfloor_resp_le. }
  destruct (_ ?= _)%Q; [destruct (Z.even _) | |]; lia.
Qed.

Lemma decimal_value_unsigned (c : ascii) (r : string) :
  is_digit c = true → decimal_value (String c r) = unsigned_value (String c r).
Proof.
  intros Hc. cbn [decimal_value]. by rewrite (is_digit_not c "-" Hc eq_refl).
Qed.

Lemma decimal_value_negative (s : string) :
  decimal_value (String "-" s) = option_map Qopp (unsigned_value s).
Proof. reflexivity. Qed.

(** [format(x, '.2f')] denotes the number of hundredths nearest to [x]. *)
Lemma format_2f_value (q : Q) :
  ∃ v, decimal_value (Py.format_2f q) = Some v
       ∧ (Qabs (v - q) <= 1 # 200)%Q.
Proof.
  unfold Py.format_2f. cbn zeta.
  set (n := Z.to_nat (Py.round_half_even (Qabs q * 100))).
  assert (Qnat n = inject_Z (Py.round_half_even (Qabs q * 100))) as Hn.
  { unfold Qnat, n. rewrite Z2Nat.id; [reflexivity |].
    apply round_half_even_nonneg.
    apply Qmult_le_0_compat; [apply Qabs_nonneg | discriminate]. }
  pose proof (round_half_even_near (Qabs q * 100)) as Hnear.
  rewrite <- Hn in Hnear. apply Qabs_Qle_condition in Hnear as [Hlo Hhi].
  destruct (unsigned_value_two_decimals n) as (v & Hv & Hval).
  destruct (nat_to_string_value (n / 100)) as (c & r & p & Hs & Hc & _).
  assert (decimal_value (Py.nat_to_string (n / 100) +:+ "."
                         +:+ String (Py.digit (n / 10)) (String (Py.digit n) ""))
          = Some v) as Hplain.
  { rewrite Hs in Hv |- *.
    exact (eq_trans (decimal_value_unsigned c _ Hc) Hv). }
  clear Hn Hs. clearbody n.
  set (x := Qnat n) in *. clearbody x.
  set (a := Qabs q) in *.
  assert (x == 100 * (x / 100))%Q as Hx by field.
  set (y := (x / 100)%Q) in *. clearbody y.
  destruct (q ?= 0)%Q eqn:Hsign.
  - apply Qeq_alt in Hsign. exists v. split; [exact Hplain |].
    rewrite Hval. apply Qabs_Qle_condition.
    assert (a == q)%Q as Ha by (subst a; rewrite Hsign; reflexivity).
    clearbody a. split; lra.
  - apply Qlt_alt in Hsign. exists (- v)%Q. split.
    + refine (eq_trans (decimal_value_negative _) _).
      by rewrite Hv.
    + rewrite Hval. apply Qabs_Qle_condition.
      assert (a == - q)%Q as Ha by (apply Qabs_neg; lra).
      clearbody a. split; lra.
  - apply Qgt_alt in Hsign. exists v. split; [exact Hplain |].
    rewrite Hval. apply Qabs_Qle_condition.
    assert (a == q)%Q as Ha by (apply Qabs_pos; lra).
    clearbody a. split; lra.
Qed.

(** The stateful [select] and [route] compute what the pure ones compute. *)
Lemma stateful_select_result {W} (scorer : IRoutingStrategy)
    (float_repr : Q → string) (touch : string → W → W)
    (models : list (obj ModelConfig)) (request : Request)
    (constraints : RoutingConstraints) (w : W) :
  (Stateful.select scorer float_repr
     (λ p w, (Estimator.estimate Selector._complexity_estimator p, touch p w))
     models request constraints w).1
  = Selector.select scorer float_repr models request constraints.
Proof.
  unfold Stateful.select, Selector.select. cbn zeta.
  destruct (Selector._filter_by_constraints models constraints); [reflexivity |].
  destruct (sort_desc _) as [| [best score] rest]; reflexivity.
Qed.

Lemma stateful_route_result {W} (self : Engine.RoutingEngine) (request : Request)
    (constraints : RoutingConstraints) (w : W) :
  (Stateful.route (λ p w, (Engine._estimator self p, w))
     (λ models request constraints w,
        (Engine._selector self models request constraints, w))
     (Engine._models self) request constraints w).1
  = (Engine.route self request constraints).1.
Proof.
  unfold Stateful.route, Engine.route. cbn zeta.
  destruct (Engine._selector self _ _ _); reflexivity.
Qed.

(** The shipped selector asks its own estimator whenever a model is
    eligible. *)
Lemma stateful_select_world {W} (scorer : IRoutingStrategy)
    (float_repr : Q → string) (own : Stateful.IComplexityEstimator)
    (models : list (obj ModelConfig)) (request : Request)
    (constraints : RoutingConstraints) (w w2 : W) (decision : RoutingDecision) :
  Stateful.select scorer float_repr own models request constraints w
  = (Ok decision, w2) →
  w2 = (own (prompt request) w).2.
Proof.
  unfold Stateful.select. cbn zeta.
  destruct (Selector._filter_by_constraints models constraints); [discriminate |].
  destruct (own (prompt request) w) as [complexity w1].
  destruct (sort_desc _) as [| [best score] rest]; [discriminate |].
  by intros [= _ <-].
Qed.

(** C8. When the selector returns a (constructed) decision, [route] returns
    a decision with the same selected model, estimated cost and
    alternatives, whose reasoning is the selector's reasoning followed by
    " | complexity=" and a decimal number with exactly two decimals that is
    within half a hundredth of the estimate the engine's estimator gave for
    the prompt.  [route] asks its own estimator once, before the selector
    runs, and leaves the world as the selector left it; the estimates of
    the selector come on top: the shipped [ModelSelector] asks its own
    estimator for the same prompt once more. *)
Theorem route_annotates_selector_decision {W}
    (estimator : Stateful.IComplexityEstimator)
    (selector : Stateful.IModelSelector)
    (models : list (obj ModelConfig)) (request : Request)
    (constraints : RoutingConstraints) (w w2 : W) (decision : RoutingDecision) :
  selector models request constraints (estimator (prompt request) w).2
  = (Ok decision, w2) →
  constructed decision →
  ∃ (routed : RoutingDecision) (number : string) (v : Q),
    Stateful.route estimator selector models request constraints w
    = (Ok routed, w2)
    ∧ selected_model routed = selected_model decision
    ∧ estimated_cost routed = estimated_cost decision
    ∧ alternatives_considered routed = alternatives_considered decision
    ∧ reasoning routed = reasoning decision +:+ " | complexity=" +:+ number
    ∧ (∃ (int_part : string) (d1 d2 : ascii),
         number = int_part +:+ "." +:+ String d1 (String d2 "")
         ∧ is_digit d1 = true ∧ is_digit d2 = true)
    ∧ decimal_value number = Some v
    ∧ (Qabs (v - (estimator (prompt request) w).1) <= 1 # 200)%Q
    ∧ ∀ scorer float_repr own,
        selector = Stateful.select scorer float_repr own →
        w2 = (own (prompt request) (estimator (prompt request) w).2).2.
Proof.
  intros Hsel Hcons.
  apply RoutingDecision_new_Ok in Hcons as (Hcost & Hblank & Halts & _).
  destruct (format_2f_value (estimator (prompt request) w).1) as (v & Hv & Hnear).
  unfold Stateful.route.
  destruct (estimator (prompt request) w) as [complexity w1] eqn:Hest.
  cbn [fst snd] in *. rewrite Hsel.
  rewrite RoutingDecision_new_succeeds;
    [| exact Hcost | by apply not_blank_append | exact Halts].
  eexists _, (Py.format_2f complexity), v.
  split; [reflexivity |]. cbn [selected_model estimated_cost reasoning
                               alternatives_considered].
  do 4 (split; [reflexivity |]).
  split; [apply format_2f_two_decimals |].
  split; [exact Hv |]. split; [exact Hnear |].
  intros scorer float_repr own ->. by apply stateful_select_world in Hsel.
Qed.

(** ** Fallback models and the provider factory *)

Section ProductionFacts.
Context {N : Type}.
Variable http : Factory.Instance → Request → N → Result Response * N.

(** The factory has no [infer_provider_key]: every lookup raises, the
    router swallows the error, and no fallback model ever becomes a
    candidate. *)
Lemma production_add_fallbacks_ignored (self : Router.Router)
    (fallbacks : list string) (provider_attempts : list Router.Candidate)
    (seen : gset Router.Candidate) (w : Production.World) :
  Router.add_fallbacks (Production.collaborators http) fallbacks provider_attempts seen w
  = (provider_attempts, w).
Proof.
  revert provider_attempts seen w.
  induction fallbacks as [| f rest IH]; intros pa seen w; simpl; [reflexivity |].
  apply IH.
Qed.

Lemma production_candidates (self : Router.Router) (decision : RoutingDecision)
    (w : Production.World) :
  Router.candidates (Production.collaborators http) self decision w
  = (Router.reorder_forced (Router._forced_provider self)
       (Router.initial_attempts decision), w).
Proof.
  unfold Router.candidates. by rewrite (production_add_fallbacks_ignored self).
Qed.
End ProductionFacts.

(** C1, on the router as the container wires it.  The decision is
    (gpt-4, openai), the fallback list is ["gpt-3.5"], [max_retries] is 2,
    "openai" is configured, calls for gpt-4 fail and calls for gpt-3.5
    would succeed: gpt-3.5 never becomes a candidate, gpt-4 is the only
    model attempted, and the execution fails with "All provider attempts
    failed". *)
Theorem production_router_never_tries_fallback_models :
  let run :=
    Router._execute_with_fallback (Production.collaborators Fixtures.http)
      Fixtures.fallback_router Fixtures.decision_gpt4 Fixtures.request_hello
      (Factory.ProviderFactory_new, tt) in
  (Router.candidates (Production.collaborators Fixtures.http)
     Fixtures.fallback_router Fixtures.decision_gpt4
     (Factory.ProviderFactory_new, tt)).1 = [("gpt-4", "openai")]
  ∧ run.2 = [("gpt-4", "openai")]
  ∧ run.1.1 = Raise (RuntimeError "All provider attempts failed"
                       (Some (ProviderError "OpenAI request failed"))).
Proof. cbn zeta. repeat split; vm_compute; reflexivity. Qed.

(** The same scenario against the factory stub of the unit test, which does
    implement [infer_provider_key]: gpt-4 is attempted once, the second
    attempt goes to gpt-3.5 and its response is returned. *)
Lemma stub_router_falls_back_to_configured_model :
  let run :=
    Router._execute_with_fallback TestDoubles.collaborators
      Fixtures.fallback_router Fixtures.decision_gpt4 Fixtures.request_hello
      Fixtures.stub in
  run.2 = [("gpt-4", "openai"); ("gpt-3.5", "openai")]
  ∧ (∃ r, run.1.1 = Ok r ∧ model_used r = "gpt-3.5")
  ∧ TestDoubles.calls run.1.2 !! "gpt-4" = Some 1%nat
  ∧ TestDoubles.calls run.1.2 !! "gpt-3.5" = Some 1%nat.
Proof.
  cbn zeta. split; [vm_compute; reflexivity |].
  split; [eexists; split; vm_compute; reflexivity |].
  split; vm_compute; reflexivity.
Qed.

(** The survivor ranked first is a survivor with the highest score. *)
Lemma top_scorer_has_highest_score (scorer : IRoutingStrategy)
    (models : list (obj ModelConfig)) (request : Request)
    (constraints : RoutingConstraints) (best : obj ModelConfig) :
  top_scorer scorer models request constraints = Some best →
  best ∈ models
  ∧ Selector.survives constraints (val best) = true
  ∧ ∀ m, m ∈ models → Selector.survives constraints (val m) = true →
      (score_model scorer (val m)
         (Estimator.estimate Selector._complexity_estimator (prompt request))
         constraints
       <= score_model scorer (val best)
            (Estimator.estimate Selector._complexity_estimator (prompt request))
            constraints)%Q.
Proof.
  unfold top_scorer. cbn zeta.
  set (eligible := Selector._filter_by_constraints models constraints).
  set (complexity := Estimator.estimate Selector._complexity_estimator (prompt request)).
  destruct (sort_desc (Selector._score_models scorer eligible complexity constraints))
    as [| [b s] rest] eqn:Hs; [discriminate |].
  simpl. intros [= ->].
  assert ((best, s) ∈ Selector._score_models scorer eligible complexity constraints)
    as Hin.
  { rewrite <- (sort_desc_perm _), Hs. apply elem_of_cons. by left. }
  unfold Selector._score_models in Hin.
  apply list_elem_of_In, in_map_iff in Hin as (b' & [= -> <-] & Hb).
  apply list_elem_of_In, _filter_by_constraints_elem in Hb as [Hbm Hbs].
  split; [exact Hbm |]. split; [exact Hbs |].
  intros m Hm Hms.
  apply (sort_desc_head_max _ _ _ _ Hs
           (m, score_model scorer (val m) complexity constraints)).
  unfold Selector._score_models.
  apply list_elem_of_In, in_map_iff. exists m. split; [reflexivity |].
  apply list_elem_of_In, _filter_by_constraints_elem. by split.
Qed.

(** ** The properties on concrete inputs *)

(** C2, as worded, fails: the two models are validly constructed, the
    constraints are well formed, both models meet every hard constraint,
    and [select] raises instead of returning a decision. *)
Lemma select_raises_although_a_model_qualifies :
  RoutingConstraints_valid (Fixtures.max_cost_only (1 # 10)) = true
  ∧ Forall (λ m, ModelConfig_valid (val m) = true) [Fixtures.twin_a; Fixtures.twin_b]
  ∧ (∃ m, m ∈ [Fixtures.twin_a; Fixtures.twin_b]
          ∧ satisfies_hard_constraints (Fixtures.max_cost_only (1 # 10)) (val m))
  ∧ Selector.select BalancedStrategy.BalancedStrategy Py.repr_decimal
      [Fixtures.twin_a; Fixtures.twin_b] Fixtures.request_explain
      (Fixtures.max_cost_only (1 # 10))
    = Raise (ValidationError "selected model cannot be listed as an alternative").
Proof.
  split; [reflexivity |].
  split; [repeat constructor |].
  split.
  - exists Fixtures.twin_a. split; [apply elem_of_cons; by left |].
    apply survives_iff. vm_compute. reflexivity.
  - vm_compute. reflexivity.
Qed.

Lemma select_returns_model_within_constraints_witness :
  ∃ d, Selector.select BalancedStrategy.BalancedStrategy Py.repr_decimal
         [Fixtures.cheap; Fixtures.premium] Fixtures.request_explain
         (Fixtures.max_cost_only (1 # 10)) = Ok d
       ∧ selected_model d ∈ [Fixtures.cheap; Fixtures.premium]
       ∧ satisfies_hard_constraints (Fixtures.max_cost_only (1 # 10))
           (val (selected_model d)).
Proof.
  apply (select_returns_model_within_constraints
           BalancedStrategy.BalancedStrategy Py.repr_decimal).
  - repeat constructor.
  - exists Fixtures.cheap. split; [apply elem_of_cons; by left |].
    apply survives_iff. vm_compute. reflexivity.
  - intros best other Htop Hother _ Heq.
    vm_compute in Htop. injection Htop as <-.
    apply elem_of_cons in Hother as [-> | Hother].
    + vm_compute in Heq. discriminate.
    + apply list_elem_of_singleton in Hother as ->. reflexivity.
Defined.

(** C10, as worded, fails: [twin_a] and [twin_b] are distinct objects with
    the same field values and both survive the filter, yet [select] returns
    a decision, because a third model is ranked first; the twins are both
    listed as alternatives. *)
Lemma select_accepts_twins_below_the_top :
  addr Fixtures.twin_a ≠ addr Fixtures.twin_b
  ∧ val Fixtures.twin_a = val Fixtures.twin_b
  ∧ Selector._filter_by_constraints
      [Fixtures.cheap; Fixtures.twin_a; Fixtures.twin_b]
      (Fixtures.max_cost_only (1 # 10))
    = [Fixtures.cheap; Fixtures.twin_a; Fixtures.twin_b]
  ∧ ∃ d, Selector.select CostStrategy.CostOptimizedStrategy Py.repr_decimal
           [Fixtures.cheap; Fixtures.twin_a; Fixtures.twin_b]
           Fixtures.request_explain (Fixtures.max_cost_only (1 # 10)) = Ok d
         ∧ selected_model d = Fixtures.cheap
         ∧ alternatives_considered d = [Fixtures.twin_a; Fixtures.twin_b].
Proof.
  split; [discriminate |]. split; [reflexivity |].
  split; [vm_compute; reflexivity |].
  eexists. split; [vm_compute; reflexivity |]. split; reflexivity.
Qed.

Lemma select_raises_on_duplicate_of_top_scorer_witness :
  Selector.select CostStrategy.CostOptimizedStrategy Py.repr_decimal
    [Fixtures.twin_a; Fixtures.twin_b] Fixtures.request_explain
    (Fixtures.max_cost_only (1 # 10))
  = Raise (ValidationError "selected model cannot be listed as an alternative").
Proof.
  apply (select_raises_on_duplicate_of_top_scorer
           CostStrategy.CostOptimizedStrategy Py.repr_decimal _ _ _
           Fixtures.twin_a Fixtures.twin_b).
  - repeat constructor.
  - vm_compute. reflexivity.
  - apply elem_of_cons. right. apply elem_of_cons. by left.
  - vm_compute. reflexivity.
  - discriminate.
  - vm_compute. reflexivity.
Defined.

Lemma select_no_suitable_model_witness :
  Selector.select BalancedStrategy.BalancedStrategy Py.repr_decimal
    [Fixtures.expensive] Fixtures.request_explain
    {| max_cost := Some (5 # 100); max_latency := None;
       min_quality := Some (9 # 10); strategy := BALANCED |}
  = Raise (NoSuitableModelError "No models satisfy hard constraints").
Proof.
  apply (proj2 (proj2 (select_no_suitable_model
                         BalancedStrategy.BalancedStrategy Py.repr_decimal
                         [Fixtures.expensive] Fixtures.request_explain
                         (Fixtures.max_cost_only (5 # 100))))).
  reflexivity.
Defined.

Lemma fallback_walk_within_retry_budget_witness :
  (Z.of_nat (length (Router._execute_with_fallback TestDoubles.collaborators
                       Fixtures.fallback_router Fixtures.decision_gpt4
                       Fixtures.request_hello Fixtures.stub).2)
   <= Config.max_retries (Router._config Fixtures.fallback_router))%Z.
Proof.
  apply (fallback_walk_within_retry_budget TestDoubles.collaborators
           Fixtures.fallback_router Fixtures.decision_gpt4
           Fixtures.request_hello Fixtures.stub).
  reflexivity.
Defined.

Lemma forced_provider_reorders_without_dropping_witness :
  ∃ preferred rest : list Router.Candidate,
    Router.reorder_forced (Some "openai")
      [("claude-3", "anthropic"); ("gpt-4", "openai")] = preferred ++ rest
    ∧ preferred ++ rest ≡ₚ [("claude-3", "anthropic"); ("gpt-4", "openai")]
    ∧ Forall (λ c, snd c = "openai") preferred
    ∧ Forall (λ c, snd c ≠ "openai") rest
    ∧ sublist preferred [("claude-3", "anthropic"); ("gpt-4", "openai")]
    ∧ sublist rest [("claude-3", "anthropic"); ("gpt-4", "openai")].
Proof.
  apply (forced_provider_reorders_without_dropping
           [("claude-3", "anthropic"); ("gpt-4", "openai")] "openai").
  reflexivity.
Defined.


(** C8, as worded, fails: one [route] of an engine over the shipped
    selector returns a decision and estimates the complexity of the prompt
    twice, once with the estimator of the engine and once with the
    estimator of the selector. *)
Lemma route_estimates_complexity_twice :
  let run :=
    Stateful.route
      (Stateful.logged Stateful.OfEngine
         (Estimator.estimate Estimator.default_complexity_estimator))
      (Stateful.select BalancedStrategy.BalancedStrategy Py.repr_decimal
         (Stateful.logged Stateful.OfSelector
            (Estimator.estimate Selector._complexity_estimator)))
      [Fixtures.cheap; Fixtures.premium] Fixtures.request_explain
      (Fixtures.max_cost_only (1 # 10)) [] in
  is_ok run.1 = true
  ∧ run.2 = [(Stateful.OfEngine, "Explain something complex");
             (Stateful.OfSelector, "Explain something complex")].
Proof. cbn zeta. split; vm_compute; reflexivity. Qed.

Lemma route_annotates_selector_decision_witness :
  ∃ routed : RoutingDecision,
    Stateful.route (Stateful.logged Stateful.OfEngine (λ _, 72 # 100)%Q)
      (λ _ _ _ w, (Ok Fixtures.base_decision, w))
      [Fixtures.gpt4_alt; Fixtures.claude2] Fixtures.request_explain
      (Fixtures.max_cost_only (5 # 100)) []
    = (Ok routed, [(Stateful.OfEngine, "Explain something complex")])
    ∧ selected_model routed = selected_model Fixtures.base_decision
    ∧ estimated_cost routed = estimated_cost Fixtures.base_decision
    ∧ alternatives_considered routed = alternatives_considered Fixtures.base_decision
    ∧ reasoning routed = "base reasoning | complexity=0.72".
Proof.
  assert (constructed Fixtures.base_decision) as Hc by (vm_compute; reflexivity).
  destruct (route_annotates_selector_decision
              (Stateful.logged Stateful.OfEngine (λ _, 72 # 100)%Q)
              (λ _ _ _ w, (Ok Fixtures.base_decision, w))
              [Fixtures.gpt4_alt; Fixtures.claude2] Fixtures.request_explain
              (Fixtures.max_cost_only (5 # 100)) [] _ Fixtures.base_decision
              eq_refl Hc)
    as (routed & number & v & Hroute & Hsel & Hcost & Halts & Hreason & _).
  exists routed. split; [exact Hroute |].
  split; [exact Hsel |]. split; [exact Hcost |]. split; [exact Halts |].
  vm_compute in Hroute. injection Hroute as <-. reflexivity.
Defined.

Lemma routing_decision_selected_not_alternative_witness :
  ∃ msg, RoutingDecision_new Fixtures.claude2 (3 # 100) "preferred"
           [Fixtures.claude2] = Raise (ValidationError msg).
Proof.
  apply (proj2 (routing_decision_selected_not_alternative
                  Fixtures.claude2 (3 # 100) "preferred" [Fixtures.claude2])).
  exists Fixtures.claude2. split; [apply elem_of_cons; by left |].
  by left.
Defined.

(** * Further properties of the code *)

(** ** The candidate list of the fallback execution *)

Section CandidateFacts.
Context {W P : Type}.
Variable collab : Router.Collaborators W P.

Lemma add_fallbacks_appends (fallbacks : list string) :
  ∀ (provider_attempts : list Router.Candidate) (seen : gset Router.Candidate) (w : W),
    (∀ c, c ∈ seen ↔ c ∈ provider_attempts) →
    ∃ extra : list Router.Candidate,
      (Router.add_fallbacks collab fallbacks provider_attempts seen w).1
      = provider_attempts ++ extra
      ∧ NoDup extra
      ∧ (∀ c, c ∈ extra → c ∉ provider_attempts)
      ∧ sublist (map fst extra) fallbacks.
Proof.
  induction fallbacks as [| fm rest IH]; intros pa seen w Hseen; simpl.
  - exists []. rewrite app_nil_r. repeat split; [constructor | | constructor].
    intros c Hc. by apply not_elem_of_nil in Hc.
  - destruct (Router.infer_provider_key collab fm w) as [[key | e] w1].
    + case_bool_decide as Hin.
      * destruct (IH pa seen w1 Hseen) as (extra & Heq & Hnd & Hdis & Hsub).
        exists extra. repeat split; try assumption. by apply sublist_cons.
      * destruct (IH (pa ++ [(fm, key)]) ({[ (fm, key) ]} ∪ seen) w1)
          as (extra & Heq & Hnd & Hdis & Hsub).
        { intros c. rewrite elem_of_union, elem_of_singleton, elem_of_app,
            list_elem_of_singleton, Hseen. tauto. }
        exists ((fm, key) :: extra). rewrite Heq, <- app_assoc. simpl.
        split; [reflexivity |]. split; [| split].
        -- constructor; [| exact Hnd]. intros Hc. apply (Hdis _ Hc).
           apply elem_of_app. right. by apply list_elem_of_singleton.
        -- intros c Hc. apply elem_of_cons in Hc as [-> | Hc].
           ++ by rewrite <- Hseen.
           ++ intros Hpa. apply (Hdis _ Hc). apply elem_of_app. by left.
        -- by apply sublist_skip.
    + destruct (IH pa seen w1 Hseen) as (extra & Heq & Hnd & Hdis & Hsub).
      exists extra. repeat split; try assumption. by apply sublist_cons.
Qed.

(** X1. The candidates of one fallback execution are the candidates of the
    routing decision (selected model first, then the alternatives) followed
    by entries for configured fallback models: each such entry occurs once,
    is not already a routing candidate, and the entries follow the order of
    the configured fallback list.  A forced provider only permutes the
    result. *)
Theorem fallback_candidates_follow_routing_candidates
    (self : Router.Router) (decision : RoutingDecision) (w : W) :
  ∃ extra : list Router.Candidate,
    (Router.candidates collab self decision w).1
    = Router.reorder_forced (Router._forced_provider self)
        (Router.initial_attempts decision ++ extra)
    ∧ (Router.candidates collab self decision w).1
      ≡ₚ Router.initial_attempts decision ++ extra
    ∧ NoDup extra
    ∧ (∀ c, c ∈ extra → c ∉ Router.initial_attempts decision)
    ∧ sublist (map fst extra) (Config.fallback_models (Router._config self)).
Proof.
  unfold Router.candidates. cbn zeta.
  destruct (add_fallbacks_appends (Config.fallback_models (Router._config self))
              (Router.initial_attempts decision)
              (list_to_set (Router.initial_attempts decision)) w)
    as (extra & Heq & Hnd & Hdis & Hsub).
  { intros c. apply elem_of_list_to_set. }
  destruct (Router.add_fallbacks collab _ _ _ w) as [pa w1]. simpl in Heq. subst pa.
  exists extra. simpl. split; [reflexivity |].
  split; [apply reorder_forced_perm |]. by repeat split.
Qed.

(** X2. A retry budget of zero, or a candidate list none of whose provider
    keys has a configuration, means that no provider is created or invoked:
    the execution fails with "All provider attempts failed" and no cause,
    and leaves the world as candidate building left it. *)
Theorem nothing_is_invoked_without_budget_or_configuration
    (self : Router.Router) (decision : RoutingDecision) (request : Request) (w : W) :
  Config.max_retries (Router._config self) = 0%Z
  ∨ Forall (λ c : Router.Candidate, Router._provider_configs self !! snd c = None)
           (Router.candidates collab self decision w).1 →
  Router._execute_with_fallback collab self decision request w
  = (Raise (RuntimeError "All provider attempts failed" None),
     (Router.candidates collab self decision w).2, []).
Proof.
  intros Hcase. unfold Router._execute_with_fallback.
  destruct (Router.candidates collab self decision w) as [cands w1]. simpl in *.
  destruct Hcase as [Hzero | Hnone].
  - apply walk_budget_spent. lia.
  - rewrite walk_skips_unconfigured.
    replace (List.filter _ cands) with (@nil Router.Candidate); [reflexivity |].
    symmetry. induction Hnone as [| c l Hc _ IH]; simpl; [reflexivity |].
    rewrite Hc. rewrite bool_decide_eq_false_2 by (intros [? ?]; discriminate).
    exact IH.
Qed.
End CandidateFacts.

(** ** The provider factory *)

Lemma detect_in_app (r1 r2 : list (Factory.Pattern * Factory.ProviderClass))
    (model_name : string) :
  Factory.detect_in (r1 ++ r2) model_name
  = match Factory.detect_in r1 model_name with
    | Ok cls => Ok cls
    | Raise _ => Factory.detect_in r2 model_name
    end.
Proof.
  induction r1 as [| [pat cls] rest IH]; simpl; [reflexivity |].
  destruct (pat model_name); [reflexivity | exact IH].
Qed.

(** X3. Registration order is match priority: after registering one more
    pattern, a model name that an earlier rule matched is still detected as
    before, and a name that no earlier rule matched gets the new class
    exactly when the new pattern matches it (and the "no provider
    registered" error otherwise). *)
Theorem register_provider_keeps_earlier_rules
    (self : Factory.ProviderFactory) (pattern : Factory.Pattern)
    (provider_class : Factory.ProviderClass) (model_name : string) :
  Factory._detect_provider
    (Factory.register_provider self pattern provider_class) model_name
  = match Factory._detect_provider self model_name with
    | Ok cls => Ok cls
    | Raise e => if pattern model_name then Ok provider_class else Raise e
    end.
Proof.
  unfold Factory._detect_provider, Factory.register_provider. simpl.
  rewrite detect_in_app. destruct (Factory.detect_in _ model_name) eqn:E;
    [reflexivity |].
  simpl. destruct (pattern model_name); [reflexivity |].
  clear -E. induction (Factory._registry self) as [| [pat cls] rest IH];
    simpl in E.
  - congruence.
  - destruct (pat model_name); [discriminate | by apply IH].
Qed.

Lemma ProviderClass_eqb_refl (cls : Factory.ProviderClass) :
  Factory.ProviderClass_eqb cls cls = true.
Proof. destruct cls; simpl; try reflexivity. apply String.eqb_refl. Qed.

(** X4. Instances are shared per provider class and API key.  Once [create]
    has returned an instance, a [create] for any model name of the same
    provider class with a configuration carrying the same API key returns
    that very instance and leaves the factory unchanged: the model name and
    the other settings of the later call are not looked at. *)
Theorem create_reuses_instance_per_class_and_key
    (self f1 : Factory.ProviderFactory) (name1 name2 : string)
    (config1 config2 : ProviderConfig) (instance : Factory.Instance) :
  Factory.create self name1 config1 = (Ok instance, f1) →
  Factory._detect_provider self name2 = Factory._detect_provider self name1 →
  api_key config2 = api_key config1 →
  Factory.create f1 name2 config2 = (Ok instance, f1).
Proof.
  unfold Factory.create. intros Hcreate Hsame Hkey.
  destruct (Factory._detect_provider self name1) as [cls | e] eqn:Hd;
    [| discriminate].
  destruct (Factory.cache_lookup (Factory._cache self) (cls, api_key config1))
    as [hit |] eqn:Hl.
  - injection Hcreate as <- <-. rewrite Hsame, Hkey, Hl. reflexivity.
  - injection Hcreate as <- <-.
    unfold Factory._detect_provider in *. simpl. rewrite Hsame, Hkey. simpl.
    rewrite ProviderClass_eqb_refl, String.eqb_refl. reflexivity.
Qed.

(** ** Strategy names and constraints built by the facade *)

Lemma mapping_get_allowed (key : string) :
  is_Some (Facade.mapping_get Facade.mapping key) ↔ key ∈ Config._ALLOWED_STRATEGIES.
Proof.
  unfold Facade.mapping, Config._ALLOWED_STRATEGIES. cbn [Facade.mapping_get].
  rewrite !elem_of_cons, elem_of_nil.
  destruct (String.eqb_spec "balanced" key) as [<- | H1]; [split; eauto |].
  destruct (String.eqb_spec "cost_optimized" key) as [<- | H2]; [split; eauto |].
  destruct (String.eqb_spec "quality_optimized" key) as [<- | H3];
    [split; eauto 10 |].
  destruct (String.eqb_spec "latency_optimized" key) as [<- | H4];
    [split; eauto 10 |].
  split; [intros [? [=]] | intros [-> | [-> | [-> | [-> | []]]]]; congruence].
Qed.

Lemma map_strategy_ok_iff (name : string) :
  is_ok (Facade._map_strategy_to_enum name) = true
  ↔ Py.lower name ∈ Config._ALLOWED_STRATEGIES.
Proof.
  rewrite <- mapping_get_allowed. unfold Facade._map_strategy_to_enum.
  destruct (Facade.mapping_get _ _); simpl; split; intros H; eauto;
    try discriminate. by destruct H.
Qed.

Lemma valid_default_strategy_maps (config : Config.RouterConfig) :
  Config.validate config = true →
  is_ok (Facade._map_strategy_to_enum (Config.default_strategy config)) = true.
Proof.
  intros Hvalid. apply map_strategy_ok_iff. unfold Config.validate in Hvalid.
  apply andb_true_iff in Hvalid as [Hvalid _].
  apply andb_true_iff in Hvalid as [Hname _].
  apply existsb_exists in Hname as (allowed & Hin & Heq).
  apply String.eqb_eq in Heq. rewrite Heq. apply list_elem_of_In in Hin.
  unfold Config._ALLOWED_STRATEGIES in *.
  repeat (apply elem_of_cons in Hin as [-> | Hin]; [vm_compute; set_solver |]).
  by apply elem_of_nil in Hin.
Qed.

(** X5. A strategy name is accepted exactly when its lower-case form is one
    of the four names a router configuration may carry; hence the default
    strategy of every validated configuration is accepted. *)
Theorem strategy_names_of_valid_configs_are_mapped (name : string)
    (config : Config.RouterConfig) :
  (is_ok (Facade._map_strategy_to_enum name) = true
   ↔ Py.lower name ∈ Config._ALLOWED_STRATEGIES)
  ∧ (Config.validate config = true →
     is_ok (Facade._map_strategy_to_enum (Config.default_strategy config)) = true).
Proof.
  split; [apply map_strategy_ok_iff | apply valid_default_strategy_maps].
Qed.

Lemma strategy_names_of_valid_configs_are_mapped_witness :
  is_ok (Facade._map_strategy_to_enum (Config.default_strategy Config.default)) = true.
Proof.
  apply (proj2 (strategy_names_of_valid_configs_are_mapped "" Config.default)).
  reflexivity.
Defined.

Lemma Qltb_true (a b : Q) : Qltb a b = true ↔ (a < b)%Q.
Proof.
  unfold Qltb. rewrite Qlt_alt. destruct (a ?= b)%Q; split; congruence.
Qed.

(** X6. With a validated configuration and no strategy override, the facade
    builds constraints exactly when the values the caller gave are
    admissible (a positive cost bound, a positive latency bound, a quality
    floor in [0, 1]); the constraints then carry both bounds (1000 and
    30000 standing in for the ones left out) and the caller's quality
    floor, and are well formed. *)
Theorem build_constraints_fills_in_both_bounds
    (self : Router.Router) (mc : option Q) (ml : option Z) (mq : option Q) :
  Config.validate (Router._config self) = true →
  (is_ok (Facade._build_constraints self mc ml mq None) = true
   ↔ (∀ x, mc = Some x → (0 < x)%Q) ∧ (∀ x, ml = Some x → (0 < x)%Z)
     ∧ (∀ q, mq = Some q → (0 <= q)%Q ∧ (q <= 1)%Q))
  ∧ ∀ c, Facade._build_constraints self mc ml mq None = Ok c →
      max_cost c = Some (match mc with Some x => x | None => 1000%Q end)
      ∧ max_latency c
        = Some (inject_Z (match ml with Some x => x | None => 30000%Z end))
      ∧ min_quality c = mq
      ∧ RoutingConstraints_valid c = true.
Proof.
  intros Hvalid.
  pose proof (valid_default_strategy_maps (Router._config self) Hvalid) as Hmap.
  unfold Facade._build_constraints. cbn zeta.
  destruct (Facade._map_strategy_to_enum _) as [s | e]; [clear Hmap | discriminate].
  unfold RoutingConstraints_new.
  set (c := match mc with Some x => x | None => 1000%Q end).
  set (l := match ml with Some x => x | None => 30000%Z end).
  assert (Qltb 0 c = true ↔ ∀ x, mc = Some x → (0 < x)%Q) as Hc.
  { subst c. rewrite Qltb_true. destruct mc as [x |]; split; intros H.
    - by intros ? [= <-]. - by apply H. - discriminate. - reflexivity. }
  assert (Qltb 0 (inject_Z l) = true ↔ ∀ x, ml = Some x → (0 < x)%Z) as Hl.
  { subst l. rewrite Qltb_true. destruct ml as [x |]; split; intros H.
    - intros ? [= <-]. rewrite Zlt_Qlt. exact H.
    - change (inject_Z 0 < inject_Z x)%Q. rewrite <- Zlt_Qlt. by apply H.
    - discriminate.
    - reflexivity. }
  assert (match mq with Some q => negb (Qle_bool 0 q && Qle_bool q 1) | None => false end
          = false ↔ ∀ q, mq = Some q → (0 <= q)%Q ∧ (q <= 1)%Q) as Hq.
  { destruct mq as [q |]; split; intros H; try reflexivity; try discriminate.
    - intros ? [= <-]. apply negb_false_iff, andb_true_iff in H as [H0 H1].
      split; by apply Qle_bool_iff.
    - destruct (H q eq_refl) as [H0 H1]. apply negb_false_iff, andb_true_iff.
      split; by apply Qle_bool_iff. }
  split.
  - destruct (Qltb 0 c) eqn:Ec; simpl.
    + destruct (Qltb 0 (inject_Z l)) eqn:El; simpl.
      * destruct (match mq with Some _ => _ | None => _ end) eqn:Eq; simpl.
        -- split; [discriminate |]. intros (_ & _ & H). apply Hq in H. discriminate.
        -- split; [| reflexivity]. intros _. split; [by apply Hc |].
           split; [by apply Hl | by apply Hq].
      * split; [discriminate |]. intros (_ & H & _). apply Hl in H. discriminate.
    + split; [discriminate |]. intros (H & _). apply Hc in H. discriminate.
  - intros r. destruct (Qltb 0 c) eqn:Ec; simpl; [| discriminate].
    destruct (Qltb 0 (inject_Z l)) eqn:El; simpl; [| discriminate].
    destruct (match mq with Some _ => _ | None => _ end) eqn:Eq; [discriminate |].
    intros [= <-]. simpl. repeat split.
    unfold RoutingConstraints_valid. simpl. rewrite Ec, El. simpl.
    destruct mq as [q |]; [| reflexivity].
    apply negb_false_iff in Eq. by rewrite Eq.
Qed.

(** ** What selection depends on *)

Lemma survives_with_strategy (c : RoutingConstraints) (s : RoutingStrategy)
    (m : ModelConfig) :
  Selector.survives (with_strategy c s) m = Selector.survives c m.
Proof. reflexivity. Qed.

Lemma _filter_by_constraints_with_strategy models c s :
  Selector._filter_by_constraints models (with_strategy c s)
  = Selector._filter_by_constraints models c.
Proof.
  induction models as [| m rest IH]; simpl; [reflexivity |].
  rewrite survives_with_strategy, IH. reflexivity.
Qed.

Lemma shipped_score_with_strategy (scorer : IRoutingStrategy) m x c s :
  scorer ∈ shipped_strategies →
  score_model scorer m x (with_strategy c s) = score_model scorer m x c.
Proof.
  unfold shipped_strategies. intros Hin.
  repeat (apply elem_of_cons in Hin as [-> | Hin]; [reflexivity |]).
  by apply elem_of_nil in Hin.
Qed.

(** X7. The strategy tag of the constraints (the per-call [strategy]
    argument of [complete], mapped by the facade) has no influence on
    selection: with any of the four shipped strategies injected in the
    selector, [select] returns the same result whatever the tag.  Which
    strategy ranks the models is fixed when the selector is built. *)
Theorem strategy_tag_does_not_change_selection
    (scorer : IRoutingStrategy) (float_repr : Q → string)
    (models : list (obj ModelConfig)) (request : Request)
    (c : RoutingConstraints) (s : RoutingStrategy) :
  scorer ∈ shipped_strategies →
  Selector.select scorer float_repr models request (with_strategy c s)
  = Selector.select scorer float_repr models request c.
Proof.
  intros Hin. unfold Selector.select. cbn zeta.
  rewrite _filter_by_constraints_with_strategy.
  destruct (Selector._filter_by_constraints models c) as [| m0 rest] eqn:E;
    [reflexivity |].
  assert (Selector._score_models scorer (m0 :: rest)
            (Estimator.estimate Selector._complexity_estimator (prompt request))
            (with_strategy c s)
          = Selector._score_models scorer (m0 :: rest)
              (Estimator.estimate Selector._complexity_estimator (prompt request)) c)
    as ->.
  { unfold Selector._score_models. apply map_ext. intros m.
    by rewrite shipped_score_with_strategy. }
  destruct (sort_desc _) as [| [best score] tail]; reflexivity.
Qed.

Lemma strategy_tag_does_not_change_selection_witness :
  Selector.select BalancedStrategy.BalancedStrategy Py.repr_decimal
    [Fixtures.cheap; Fixtures.premium] Fixtures.request_explain
    (with_strategy (Fixtures.max_cost_only (1 # 10)) COST_BIASED)
  = Selector.select BalancedStrategy.BalancedStrategy Py.repr_decimal
      [Fixtures.cheap; Fixtures.premium] Fixtures.request_explain
      (Fixtures.max_cost_only (1 # 10)).
Proof.
  apply strategy_tag_does_not_change_selection.
  unfold shipped_strategies. do 3 (apply elem_of_cons; right).
  apply elem_of_cons. by left.
Defined.

(** ** The decision [select] returns *)

Section DecisionFacts.
Variable scorer : IRoutingStrategy.
Variable float_repr : Q → string.

(** What a returned decision is made of. *)
Lemma select_Ok_inv models request constraints d :
  Selector.select scorer float_repr models request constraints = Ok d →
  ∃ best score rest,
    sort_desc (Selector._score_models scorer
                 (Selector._filter_by_constraints models constraints)
                 (Estimator.estimate Selector._complexity_estimator (prompt request))
                 constraints) = (best, score) :: rest
    ∧ top_scorer scorer models request constraints = Some best
    ∧ selected_model d = best
    ∧ estimated_cost d = pricing (val best)
    ∧ alternatives_considered d
      = map fst (List.filter (λ item : obj ModelConfig * Q, is_not (fst item) best)
                             ((best, score) :: rest)).
Proof.
  intros Hsel.
  destruct (Selector._filter_by_constraints models constraints) as [| m0 l] eqn:E.
  { unfold Selector.select in Hsel. cbn zeta in Hsel. rewrite E in Hsel.
    discriminate. }
  destruct (select_ranks_survivors scorer float_repr models request constraints)
    as (best & score & rest & Hs & Htop & _ & Hsel').
  { rewrite E. discriminate. }
  rewrite Hsel' in Hsel. unfold Selector._create_decision in Hsel.
  apply RoutingDecision_new_Ok in Hsel as (_ & _ & _ & ->).
  exists best, score, rest. rewrite <- E. by repeat split.
Qed.

(** X8. The model of a returned decision is a survivor of the filter whose
    score no other survivor exceeds, and the estimated cost of the decision
    is the price of that model. *)
Theorem selected_model_has_the_highest_score
    (models : list (obj ModelConfig)) (request : Request)
    (constraints : RoutingConstraints) (d : RoutingDecision) :
  Selector.select scorer float_repr models request constraints = Ok d →
  selected_model d ∈ models
  ∧ Selector.survives constraints (val (selected_model d)) = true
  ∧ estimated_cost d = pricing (val (selected_model d))
  ∧ ∀ m, m ∈ models → Selector.survives constraints (val m) = true →
      (score_model scorer (val m)
         (Estimator.estimate Selector._complexity_estimator (prompt request))
         constraints
       <= score_model scorer (val (selected_model d))
            (Estimator.estimate Selector._complexity_estimator (prompt request))
            constraints)%Q.
Proof.
  intros Hsel.
  destruct (select_Ok_inv _ _ _ _ Hsel)
    as (best & score & rest & _ & Htop & -> & -> & _).
  destruct (top_scorer_has_highest_score _ _ _ _ _ Htop) as (Hin & Hs & Hmax).
  by repeat split.
Qed.

Lemma insert_desc_sorted {A} (x : A * Q) (l : list (A * Q)) :
  StronglySorted desc_by_score l → StronglySorted desc_by_score (insert_desc x l).
Proof.
  induction 1 as [| y rest Hsorted IH Hall]; simpl.
  - repeat constructor.
  - destruct (Qltb (snd x) (snd y)) eqn:E.
    + constructor; [exact IH |].
      rewrite (insert_desc_perm x rest). constructor; [| exact Hall].
      unfold desc_by_score. apply Qlt_le_weak. by apply Qltb_true.
    + apply Qltb_false in E. constructor.
      * by constructor.
      * constructor; [exact E |].
        eapply Forall_impl; [exact Hall |]. intros z Hz. unfold desc_by_score in *.
        eapply Qle_trans; eassumption.
Qed.

Lemma sort_desc_sorted {A} (l : list (A * Q)) :
  StronglySorted desc_by_score (sort_desc l).
Proof.
  induction l as [| x rest IH]; simpl; [constructor | by apply insert_desc_sorted].
Qed.

Lemma insert_desc_stable {A} (s : Q) (x : A * Q) (l : list (A * Q)) :
  List.filter (λ y : A * Q, Qeq_bool (snd y) s) (insert_desc x l)
  = List.filter (λ y : A * Q, Qeq_bool (snd y) s) (x :: l).
Proof.
  induction l as [| y rest IH]; [reflexivity |].
  cbn [insert_desc]. destruct (Qltb (snd x) (snd y)) eqn:E; [| reflexivity].
  cbn [List.filter] in *. rewrite IH.
  destruct (Qeq_bool (snd x) s) eqn:Ex, (Qeq_bool (snd y) s) eqn:Ey;
    try reflexivity.
  exfalso. apply Qeq_bool_iff in Ex, Ey. apply Qltb_true in E.
  rewrite Ex, Ey in E. by apply Qlt_irrefl in E.
Qed.

Lemma sort_desc_stable {A} (s : Q) (l : list (A * Q)) :
  List.filter (λ y : A * Q, Qeq_bool (snd y) s) (sort_desc l)
  = List.filter (λ y : A * Q, Qeq_bool (snd y) s) l.
Proof.
  induction l as [| x rest IH]; [reflexivity |].
  cbn [sort_desc]. rewrite insert_desc_stable. cbn [List.filter]. by rewrite IH.
Qed.

(** X9. Ties go to the catalog order: when a survivor scores at least as
    high as every survivor and strictly higher than every survivor listed
    before it, it is the model of the returned decision. *)
Theorem first_best_survivor_is_selected
    (models : list (obj ModelConfig)) (request : Request)
    (constraints : RoutingConstraints) (d : RoutingDecision)
    (before after : list (obj ModelConfig)) (m : obj ModelConfig) :
  let score (x : obj ModelConfig) :=
    score_model scorer (val x)
      (Estimator.estimate Selector._complexity_estimator (prompt request))
      constraints in
  Selector.select scorer float_repr models request constraints = Ok d →
  Selector._filter_by_constraints models constraints = before ++ m :: after →
  (∀ x, x ∈ before → (score x < score m)%Q) →
  (∀ x, x ∈ after → (score x <= score m)%Q) →
  selected_model d = m.
Proof.
  intros score Hsel Hsplit Hbefore Hafter.
  destruct (select_Ok_inv _ _ _ _ Hsel)
    as (best & sb & rest & Hs & Htop & -> & _ & _).
  set (complexity :=
         Estimator.estimate Selector._complexity_estimator (prompt request)) in *.
  pose proof (sort_desc_stable (score m)
                (Selector._score_models scorer
                   (Selector._filter_by_constraints models constraints)
                   complexity constraints)) as Hstable.
  rewrite Hs, Hsplit in Hstable.
  (* the ranked-first entry has the score of [m] *)
  assert (sb == score m)%Q as Hsb.
  { apply Qle_antisym.
    - assert ((best, sb) ∈ Selector._score_models scorer (before ++ m :: after)
                             complexity constraints) as Hin.
      { rewrite <- Hsplit, <- (sort_desc_perm _), Hs. apply elem_of_cons. by left. }
      unfold Selector._score_models in Hin.
      apply list_elem_of_In, in_map_iff in Hin as (b & [= -> <-] & Hb).
      apply in_app_or in Hb as [Hb | [<- | Hb]].
      + apply Qlt_le_weak, Hbefore. by apply list_elem_of_In.
      + apply Qle_refl.
      + apply Hafter. by apply list_elem_of_In.
    - apply (sort_desc_head_max _ _ _ _ Hs (m, score m)).
      rewrite Hsplit. unfold Selector._score_models.
      apply list_elem_of_In, in_map_iff. exists m. split; [reflexivity |].
      apply in_or_app. right. by left. }
  cbn [List.filter snd] in Hstable.
  replace (Qeq_bool sb (score m)) with true in Hstable
    by (symmetry; by apply Qeq_bool_iff).
  unfold Selector._score_models in Hstable.
  rewrite map_app, List.filter_app in Hstable. cbn [map List.filter snd] in Hstable.
  replace (List.filter _ (map _ before)) with (@nil (obj ModelConfig * Q))
    in Hstable.
  - fold (score m) in Hstable.
    replace (Qeq_bool (score m) (score m)) with true in Hstable
      by (symmetry; apply Qeq_bool_iff; reflexivity).
    simpl in Hstable. by injection Hstable as -> _.
  - symmetry. clear -Hbefore. induction before as [| x l IH]; [reflexivity |].
    cbn [map List.filter snd].
    replace (Qeq_bool _ (score m)) with false.
    + apply IH. intros y Hy. apply Hbefore. apply elem_of_cons. by right.
    + symmetry. apply not_true_is_false. intros Heq. apply Qeq_bool_iff in Heq.
      specialize (Hbefore x ltac:(apply elem_of_cons; by left)).
      unfold score in Hbefore. rewrite Heq in Hbefore. by apply Qlt_irrefl in Hbefore.
Qed.
End DecisionFacts.

(** ** The alternatives of a decision *)

Lemma _filter_by_constraints_NoDup_addr models constraints :
  NoDup (map addr models) →
  NoDup (map addr (Selector._filter_by_constraints models constraints)).
Proof.
  induction models as [| m rest IH]; simpl; intros Hnd; [constructor |].
  apply NoDup_cons in Hnd as [Hm Hrest].
  destruct (Selector.survives constraints (val m)); [| by apply IH].
  simpl. apply NoDup_cons. split; [| by apply IH].
  intros Hin. apply Hm. apply list_elem_of_In, in_map_iff in Hin as (x & Hx & Hin).
  apply list_elem_of_In, in_map_iff. exists x. split; [exact Hx |].
  apply list_elem_of_In. apply list_elem_of_In in Hin.
  by apply _filter_by_constraints_elem in Hin as [Hin _].
Qed.

Lemma filter_other_addresses (best : obj ModelConfig)
    (l : list (obj ModelConfig * Q)) :
  addr best ∉ map addr (map fst l) →
  List.filter (λ item : obj ModelConfig * Q, is_not (fst item) best) l = l.
Proof.
  induction l as [| [x sx] rest IH]; intros Hnot; [reflexivity |].
  cbn [List.filter fst].
  assert (is_not x best = true) as ->.
  { unfold is_not, is_. apply negb_true_iff, Nat.eqb_neq. intros Heq.
    apply Hnot. simpl. rewrite Heq. apply elem_of_cons. by left. }
  rewrite IH; [reflexivity |].
  intros Hin. apply Hnot. simpl. apply elem_of_cons. by right.
Qed.

Lemma ranking_scores (scorer : IRoutingStrategy) eligible complexity constraints :
  Forall (λ p : obj ModelConfig * Q,
            snd p = score_model scorer (val (fst p)) complexity constraints)
         (sort_desc (Selector._score_models scorer eligible complexity constraints)).
Proof.
  rewrite (sort_desc_perm _). unfold Selector._score_models.
  induction eligible as [| m rest IH]; simpl; constructor; [reflexivity | exact IH].
Qed.

Lemma sorted_by_score_objects (score : obj ModelConfig → Q)
    (l : list (obj ModelConfig * Q)) :
  StronglySorted desc_by_score l →
  Forall (λ p, snd p = score (fst p)) l →
  StronglySorted (λ a b, (score b <= score a)%Q) (map fst l).
Proof.
  induction 1 as [| [x sx] rest Hsorted IH Hall]; intros Hscores; simpl;
    [constructor |].
  apply Forall_cons in Hscores as [Hx Hrest]. simpl in Hx. subst sx.
  constructor; [by apply IH |].
  clear -Hall Hrest. induction rest as [| [y sy] rest IH]; simpl; [constructor |].
  apply Forall_cons in Hall as [Hy Hall]. apply Forall_cons in Hrest as [Hsy Hrest].
  unfold desc_by_score in Hy. simpl in *. subst sy.
  constructor; [exact Hy | by apply IH].
Qed.

(** X10. When no address occurs twice in the catalog, the selected model
    followed by the alternatives of a returned decision is a rearrangement
    of the survivors of the filter (every survivor is either selected or an
    alternative, once), listed from the highest score to the lowest. *)
Theorem decision_lists_every_survivor_in_score_order
    (scorer : IRoutingStrategy) (float_repr : Q → string)
    (models : list (obj ModelConfig)) (request : Request)
    (constraints : RoutingConstraints) (d : RoutingDecision) :
  NoDup (map addr models) →
  Selector.select scorer float_repr models request constraints = Ok d →
  selected_model d :: alternatives_considered d
  ≡ₚ Selector._filter_by_constraints models constraints
  ∧ StronglySorted
      (λ a b : obj ModelConfig,
         (score_model scorer (val b)
            (Estimator.estimate Selector._complexity_estimator (prompt request))
            constraints
          <= score_model scorer (val a)
               (Estimator.estimate Selector._complexity_estimator (prompt request))
               constraints)%Q)
      (selected_model d :: alternatives_considered d).
Proof.
  intros Hnd Hsel.
  destruct (select_Ok_inv _ _ _ _ _ _ Hsel)
    as (best & sb & rest & Hs & _ & -> & _ & ->).
  set (complexity :=
         Estimator.estimate Selector._complexity_estimator (prompt request)) in *.
  set (eligible := Selector._filter_by_constraints models constraints) in *.
  pose proof (ranking_objects scorer eligible complexity constraints) as Hperm.
  rewrite Hs in Hperm. simpl in Hperm.
  assert (NoDup (addr best :: map addr (map fst rest))) as Hnd'.
  { change (NoDup (map addr (best :: map fst rest))).
    rewrite (Permutation_map addr Hperm).
    by apply _filter_by_constraints_NoDup_addr. }
  apply NoDup_cons in Hnd' as [Hbest _].
  cbn [List.filter fst].
  assert (is_not best best = false) as ->
    by (unfold is_not, is_; by rewrite Nat.eqb_refl).
  rewrite (filter_other_addresses best rest Hbest).
  split; [exact Hperm |].
  change (best :: map fst rest) with (map fst ((best, sb) :: rest)).
  apply sorted_by_score_objects.
  - rewrite <- Hs. apply sort_desc_sorted.
  - rewrite <- Hs. apply ranking_scores.
Qed.

Lemma decision_lists_every_survivor_in_score_order_witness :
  ∃ d, Selector.select BalancedStrategy.BalancedStrategy Py.repr_decimal
         [Fixtures.cheap; Fixtures.premium] Fixtures.request_explain
         (Fixtures.max_cost_only (1 # 10)) = Ok d
       ∧ selected_model d :: alternatives_considered d
         ≡ₚ Selector._filter_by_constraints [Fixtures.cheap; Fixtures.premium]
              (Fixtures.max_cost_only (1 # 10)).
Proof.
  eexists. split; [vm_compute; reflexivity |].
  refine (proj1 (decision_lists_every_survivor_in_score_order
                   BalancedStrategy.BalancedStrategy Py.repr_decimal
                   [Fixtures.cheap; Fixtures.premium] Fixtures.request_explain
                   (Fixtures.max_cost_only (1 # 10)) _ _ _)).
  - simpl. apply NoDup_cons. split; [| apply NoDup_singleton].
    intros H. by apply list_elem_of_singleton in H.
  - vm_compute. reflexivity.
Defined.

(** ** The quality score of the filter *)

(** X11. The quality score the filter compares with [min_quality] lies in
    [0, 1] for every model, and is 0 for a model without capabilities: a
    floor of 0 keeps every model, and the floors that validation admits span
    the whole range of the score. *)
Theorem quality_score_is_a_fraction (m : ModelConfig) :
  (0 <= Selector._quality_score m)%Q
  ∧ (Selector._quality_score m <= 1)%Q
  ∧ (capabilities m = ∅ → Selector._quality_score m = 0%Q).
Proof.
  unfold Selector._quality_score.
  split; [| split].
  3: { intros ->. reflexivity. }
  all: case_bool_decide; [discriminate |].
  all: unfold Selector.QUALITY_WEIGHTS; cbn [List.filter fst].
  all: repeat match goal with
              | |- context [bool_decide ?P] => destruct (bool_decide P)
              end; vm_compute; congruence.
Qed.

(** ** The time spent backing off *)

Section BackoffFacts.
Context {St : Type}.
Variable _make_api_call : Request → St → Result Response * St.
Variable config : ProviderConfig.

Lemma Qpower2_succ (n : nat) : (2 ^ Z.of_nat (S n) == 2 * 2 ^ Z.of_nat n)%Q.
Proof.
  rewrite Nat2Z.inj_succ. unfold Z.succ.
  rewrite Qpower_plus by discriminate. rewrite Qmult_comm. reflexivity.
Qed.

Lemma total_sleep_retry_events (failed : list Error) :
  ∀ (start : nat) (tail : list BaseProvider.Event),
    (total_sleep (retry_events config start failed ++ tail)
     == backoff_factor config
        * (2 ^ Z.of_nat (start + length failed) - 2 ^ Z.of_nat start)
        + total_sleep tail)%Q.
Proof.
  induction failed as [| e rest IH]; intros start tail.
  - simpl. rewrite Nat.add_0_r. ring.
  - cbn [retry_events app total_sleep foldr length].
    fold (total_sleep (retry_events config (S start) rest ++ tail)).
    rewrite IH.
    replace (start + S (length rest))%nat with (S start + length rest)%nat by lia.
    rewrite (Qpower2_succ start). ring.
Qed.

(** X12. The sleeps of one [execute_request] add up to
    [backoff_factor * (2^r - 1)], where [r] is the number of retries (one
    less than the number of raw calls); with a valid configuration this is
    at most [backoff_factor * (2^max_retries - 1)]. *)
Theorem total_backoff_is_geometric (request : Request) (s : St) :
  ProviderConfig_valid config = true →
  let events := (BaseProvider.execute_request _make_api_call config request s).2 in
  ∃ retries : nat,
    length (List.filter BaseProvider.is_api_call events) = S retries
    ∧ (Z.of_nat retries <= max_retries config)%Z
    ∧ (total_sleep events == backoff_factor config * (2 ^ Z.of_nat retries - 1))%Q
    ∧ (total_sleep events
       <= backoff_factor config * (2 ^ max_retries config - 1))%Q.
Proof.
  intros Hvalid events. subst events. unfold ProviderConfig_valid in Hvalid.
  apply andb_true_iff in Hvalid as [Hvalid Hbf].
  apply andb_true_iff in Hvalid as [_ Hmr].
  apply Z.leb_le in Hmr. apply Qltb_true in Hbf.
  unfold BaseProvider.execute_request, BaseProvider.range.
  destruct (Z.to_nat (max_retries config + 1)) as [| n] eqn:Hn; [lia |].
  destruct (attempt_loop_shape _make_api_call config n 0 request s ltac:(lia))
    as (failed & last & Hev & _ & Hle & _ & _).
  cbn [Nat.add] in Hev, Hle. rewrite Hev.
  exists (length failed).
  assert (total_sleep (retry_events config 0 failed
                         ++ [BaseProvider.ApiCall (length failed) last])
          == backoff_factor config * (2 ^ Z.of_nat (length failed) - 1))%Q as Hsum.
  { rewrite total_sleep_retry_events. simpl. ring. }
  split; [| split; [exact Hle | split; [exact Hsum |]]].
  - rewrite retry_events_api_calls. simpl. lia.
  - rewrite Hsum. apply Qmult_le_l; [exact Hbf |].
    apply Qplus_le_l with (z := 1%Q). ring_simplify.
    apply Qpower_le_compat_l; [exact Hle | discriminate].
Qed.
End BackoffFacts.

Lemma total_backoff_is_geometric_witness :
  ∃ retries : nat,
    length (List.filter BaseProvider.is_api_call
              (BaseProvider.execute_request Fixtures.rate_limited_once
                 Fixtures.test_provider_config Fixtures.request_hello 0%nat).2)
    = S retries
    ∧ (Z.of_nat retries <= max_retries Fixtures.test_provider_config)%Z
    ∧ (total_sleep (BaseProvider.execute_request Fixtures.rate_limited_once
                      Fixtures.test_provider_config Fixtures.request_hello 0%nat).2
       == backoff_factor Fixtures.test_provider_config * (2 ^ Z.of_nat retries - 1))%Q
    ∧ (total_sleep (BaseProvider.execute_request Fixtures.rate_limited_once
                      Fixtures.test_provider_config Fixtures.request_hello 0%nat).2
       <= backoff_factor Fixtures.test_provider_config
          * (2 ^ max_retries Fixtures.test_provider_config - 1))%Q.
Proof.
  apply (total_backoff_is_geometric Fixtures.rate_limited_once
           Fixtures.test_provider_config Fixtures.request_hello 0%nat).
  reflexivity.
Defined.

(** ** The cost strategy *)

Lemma Qinv_le_antitone (a b : Q) : (0 < a)%Q → (a <= b)%Q → (1 / b <= 1 / a)%Q.
Proof.
  intros Ha Hab.
  assert (0 < b)%Q as Hb by (eapply Qlt_le_trans; eassumption).
  apply Qle_shift_div_l; [exact Ha |].
  assert (1 / b * a == a / b)%Q as -> by (field; intros E; rewrite E in Hb; by apply Qlt_irrefl in Hb).
  apply Qle_shift_div_r; [exact Hb |]. by rewrite Qmult_1_l.
Qed.

Lemma _clamp_monotone (a b : Q) : (a <= b)%Q → (_clamp a <= _clamp b)%Q.
Proof.
  intros Hab. unfold _clamp, Py.max, Py.min.
  apply Q.max_le_compat_l. by apply Q.min_le_compat_r.
Qed.

(** X13. Under the cost strategy a cheaper model never scores lower: for
    the same complexity and constraints, a model whose (positive) price is
    at most the price of another scores at least as high. *)
Theorem cost_strategy_prefers_cheaper_models
    (cheaper dearer : ModelConfig) (complexity : Q)
    (constraints : RoutingConstraints) :
  (0 < pricing cheaper)%Q →
  (pricing cheaper <= pricing dearer)%Q →
  (score_model CostStrategy.CostOptimizedStrategy dearer complexity constraints
   <= score_model CostStrategy.CostOptimizedStrategy cheaper complexity constraints)%Q.
Proof.
  intros Hpos Hle. cbn [score_model CostStrategy.CostOptimizedStrategy].
  unfold CostStrategy.score. cbn zeta.
  set (p1 := Py.max (pricing cheaper) (1 # 1000000)).
  set (p2 := Py.max (pricing dearer) (1 # 1000000)).
  assert (0 < p1)%Q as Hp1.
  { eapply Qlt_le_trans; [exact Hpos |]. apply Q.le_max_l. }
  assert (p1 <= p2)%Q as Hp by (by apply Q.max_le_compat_r).
  assert (1 / (1 + p2 * 10) <= 1 / (1 + p1 * 10))%Q as Hbase.
  { apply Qinv_le_antitone; lra. }
  assert (0 <= 1 / (1 + p2 * 10))%Q as Hb2.
  { apply Qle_shift_div_l; lra. }
  destruct (_clamp_bounds complexity) as [Hc0 Hc1].
  set (k := _clamp complexity) in *.
  apply _clamp_monotone.
  apply Qmult_le_compat_r; [| lra].
  set (b1 := (1 / (1 + p1 * 10))%Q) in *.
  set (b2 := (1 / (1 + p2 * 10))%Q) in *.
  destruct (max_cost constraints) as [mc |]; [| exact Hbase].
  destruct (Qltb mc p1) eqn:E1.
  - apply Qltb_true in E1.
    replace (Qltb mc p2) with true
      by (symmetry; apply Qltb_true; eapply Qlt_le_trans; eassumption).
    lra.
  - destruct (Qltb mc p2); lra.
Qed.

(** ** The middleware chain *)

Section ChainFacts.
Context {St : Type}.

Lemma run_responses_app (l1 l2 : list (Middleware.IMiddleware St))
    (response : Response) (s : St) :
  Middleware.run_responses (l1 ++ l2) response s
  = match Middleware.run_responses l1 response s with
    | (Ok response1, s1) => Middleware.run_responses l2 response1 s1
    | (Raise e, s1) => (Raise e, s1)
    end.
Proof.
  revert response s. induction l1 as [| m rest IH]; intros response s; simpl;
    [reflexivity |].
  destruct (Middleware.process_response m response s) as [[r | e] s1];
    [apply IH | reflexivity].
Qed.

(** X14. A chain is an onion: executing [m :: rest] around a handler is
    executing [m] alone around the execution of [rest] around the handler
    (requests go through the middlewares in order, responses in the reverse
    order, and an error raised anywhere ends the execution); the empty
    chain is the handler itself. *)
Theorem middleware_chain_nests
    (m : Middleware.IMiddleware St) (rest : list (Middleware.IMiddleware St))
    (request : Request) (handler : Request → St → Result Response * St) (s : St) :
  Middleware.execute (m :: rest) request handler s
  = Middleware.execute [m] request
      (λ request1 s1, Middleware.execute rest request1 handler s1) s
  ∧ Middleware.execute [] request handler s = handler request s.
Proof.
  split.
  - unfold Middleware.execute. cbn [Middleware.run_requests rev].
    destruct (Middleware.process_request m request s) as [[r1 | e] s1];
      [| reflexivity].
    destruct (Middleware.run_requests rest r1 s1) as [[r2 | e] s2];
      [| reflexivity].
    destruct (handler r2 s2) as [[resp | e] s3]; [| reflexivity].
    rewrite run_responses_app.
    destruct (Middleware.run_responses (rev rest) resp s3) as [[resp1 | e] s4];
      reflexivity.
  - unfold Middleware.execute. simpl.
    destruct (handler request s) as [[resp | e] s1]; reflexivity.
Qed.
End ChainFacts.

Section ShippedFacts.
Context {W : Type}.

(** X15. The validation middleware lets a request through, unchanged and
    without touching the state, exactly when [validate_prompt] accepts its
    prompt; otherwise a chain that starts with it raises a [ValueError]
    with the state as it was: neither the handler nor a later middleware
    has run. *)
Theorem validation_middleware_guards_the_chain
    (request : Request) (s : Middleware.State W) :
  (is_ok (Validators.validate_prompt (prompt request)) = true →
   Middleware.process_request Middleware.ValidationMiddleware request s
   = (Ok request, s))
  ∧ (is_ok (Validators.validate_prompt (prompt request)) = false →
     ∀ rest handler,
       ∃ msg, Middleware.execute (Middleware.ValidationMiddleware :: rest)
                request handler s = (Raise (ValueError msg), s)).
Proof.
  unfold Validators.validate_prompt, Validators.MAX_PROMPT_LENGTH.
  split.
  - intros Hok. simpl.
    destruct (Py.falsy (prompt request) || Py.is_blank (prompt request));
      [discriminate |].
    destruct (20000 <? Z.of_nat (String.length (prompt request)))%Z;
      [discriminate | reflexivity].
  - intros Hbad rest handler. unfold Middleware.execute.
    cbn [Middleware.run_requests Middleware.process_request
         Middleware.ValidationMiddleware].
    destruct (Py.falsy (prompt request) || Py.is_blank (prompt request));
      [eauto |].
    destruct (20000 <? Z.of_nat (String.length (prompt request)))%Z;
      [eauto | discriminate].
Qed.

(** X16. The caching middleware never answers from its cache: around a
    handler that acts on the world, the handler runs on every execution,
    hit or miss, its response is the one returned, and it replaces whatever
    the cache held for the prompt. *)
Theorem caching_middleware_always_runs_the_handler
    (h : Request → W → Result Response * W) (request : Request)
    (s : Middleware.State W) :
  Middleware.execute [Middleware.CachingMiddleware] request
    (Middleware.on_world h) s
  = match h request (Middleware.world s) with
    | (Ok response, w) =>
        (Ok response,
         {| Middleware.world := w; Middleware.log := Middleware.log s;
            Middleware.tracked := Middleware.tracked s;
            Middleware._last_request := Middleware._last_request s;
            Middleware._cache :=
              <[ prompt request := response ]> (Middleware._cache s);
            Middleware._current_key := None |})
    | (Raise e, w) =>
        (Raise e,
         {| Middleware.world := w; Middleware.log := Middleware.log s;
            Middleware.tracked := Middleware.tracked s;
            Middleware._last_request := Middleware._last_request s;
            Middleware._cache := Middleware._cache s;
            Middleware._current_key := Some (prompt request) |})
    end.
Proof.
  destruct request as [p]. unfold Middleware.execute, Middleware.on_world.
  cbn [Middleware.run_requests Middleware.process_request
       Middleware.CachingMiddleware prompt].
  destruct (Middleware._cache s !! p); cbn [Middleware.world];
    destruct (h {| prompt := p |} (Middleware.world s)) as [[resp | e] w];
    reflexivity.
Qed.
End ShippedFacts.

(** ** The entry points *)

Lemma all_space_join_cons (sep x : string) (rest : list string) :
  Py.all_space x = false → Py.all_space (Py.join sep (x :: rest)) = false.
Proof.
  intros Hx. destruct rest as [| y rest]; simpl; [exact Hx |].
  change (Py.all_space (x +:+ sep +:+ Py.join sep (y :: rest)) = false).
  by rewrite all_space_append, Hx.
Qed.

(** X17. The prompt [chat] builds is blank exactly for the empty list of
    messages (a message always contributes "role: content", with "user" and
    "" for a missing role or content): [chat] on the empty list fails in
    the validation of the request, before routing, and leaves the state
    untouched. *)
Theorem chat_prompt_is_blank_only_without_messages
    (messages : list (gmap string string)) :
  (Py.is_blank (Entry._messages_to_prompt messages) = true ↔ messages = [])
  ∧ ∀ (W P : Type) engine (factory : Router.Collaborators W P) tracker
      middleware self mc ml mq strategy (s : Middleware.State W),
      ∃ msg, Entry.chat engine factory tracker middleware self [] mc ml mq
               strategy s = (Raise (ValidationError msg), s).
Proof.
  split.
  - split.
    + intros Hblank. destruct messages as [| m rest]; [reflexivity | exfalso].
      rewrite is_blank_all_space in Hblank.
      unfold Entry._messages_to_prompt in Hblank. cbn [map] in Hblank.
      rewrite all_space_join_cons in Hblank; [discriminate |].
      change (Py.all_space (default "user" (m !! "role")
                            +:+ ": " +:+ default "" (m !! "content")) = false).
      rewrite all_space_append. apply andb_false_iff. right. reflexivity.
    + intros ->. reflexivity.
  - intros. eexists. reflexivity.
Qed.

Section TrackingFacts.
Context {W P : Type}.
Variable engine : Engine.RoutingEngine.
Variable factory : Router.Collaborators W P.
Variable self : Router.Router.

(** X18. With the chain the container builds for a configuration that
    enables analytics, and the tracker it passes to the router, every
    completion that returns a response is tracked twice: once by the
    analytics middleware and once by [complete] itself, both times with the
    request built from the prompt and the response returned. *)
Theorem container_wiring_tracks_each_completion_twice
    (prompt0 : string) (mc : option Q) (ml : option Z) (mq : option Q)
    (strategy0 : option string) (s s1 : Middleware.State W) (response : Response) :
  Config.enable_analytics (Router._config self) = true →
  Entry.complete engine factory true
    (Container._build_middleware_chain (Router._config self) true)
    self prompt0 mc ml mq strategy0 s = (Ok response, s1) →
  Middleware.tracked s1
  = Middleware.tracked s
      ++ [({| prompt := prompt0 |}, response); ({| prompt := prompt0 |}, response)].
Proof.
  intros Hanalytics. unfold Entry.complete, Request_new.
  destruct (Request_valid {| prompt := prompt0 |}); [| discriminate].
  destruct (Facade._build_constraints self mc ml mq strategy0) as [c | e];
    [| discriminate].
  unfold Container._build_middleware_chain. rewrite Hanalytics.
  cbn [andb app].
  unfold Middleware.execute, Entry.handler, Middleware.on_world.
  cbn [Middleware.run_requests Middleware.process_request
       Middleware.ValidationMiddleware prompt].
  destruct (Py.falsy prompt0 || Py.is_blank prompt0); [discriminate |].
  destruct (20000 <? Z.of_nat (String.length prompt0))%Z; [discriminate |].
  destruct (Config.enable_cache (Router._config self)).
  - cbn [app Middleware.run_requests Middleware.process_request
         Middleware.LoggingMiddleware Middleware.AnalyticsMiddleware
         Middleware.CachingMiddleware Middleware._cache Middleware.world prompt].
    destruct (Middleware._cache s !! prompt0);
      (destruct (match (Engine.route engine _ c).1 with
                 | Ok _ => _ | Raise _ => _ end) as [[resp | e] w];
       [| discriminate]);
      cbn; intros [= <- <-]; cbn; by rewrite <- app_assoc.
  - cbn [app Middleware.run_requests Middleware.process_request
         Middleware.LoggingMiddleware Middleware.AnalyticsMiddleware
         Middleware.world prompt].
    destruct (match (Engine.route engine _ c).1 with
              | Ok _ => _ | Raise _ => _ end) as [[resp | e] w];
      [| discriminate].
    cbn. intros [= <- <-]. cbn. by rewrite <- app_assoc.
Qed.
End TrackingFacts.

(** ** The validation helpers *)

Lemma Qle_bool_false_lt (x : Q) : Qle_bool x 0 = false ↔ Qltb 0 x = true.
Proof.
  rewrite Qltb_true. split.
  - intros H. apply Qnot_le_lt. intros Hle. apply Qle_bool_iff in Hle. congruence.
  - intros H. apply not_true_is_false. intros Hle. apply Qle_bool_iff in Hle.
    by apply (Qlt_not_le 0 x).
Qed.

(** X19. [validate_constraints] checks the ranges of the three fields and
    nothing else: constraints are well formed (as the constructor of
    [RoutingConstraints] requires) exactly when the helper accepts them and
    at least one of the two bounds is set. *)
Theorem validate_constraints_checks_ranges_only (c : RoutingConstraints) :
  RoutingConstraints_valid c = true
  ↔ Validators.validate_constraints c = Ok tt
    ∧ (is_Some (max_cost c) ∨ is_Some (max_latency c)).
Proof.
  unfold RoutingConstraints_valid, Validators.validate_constraints.
  destruct c as [mc ml mq st]. cbn [max_cost max_latency min_quality].
  assert (∀ o : option Q,
            match o with Some x => Qle_bool x 0 | None => false end
            = negb (match o with Some x => Qltb 0 x | None => true end)) as Hflip.
  { intros [x |]; [| reflexivity].
    destruct (Qltb 0 x) eqn:E; simpl.
    - by apply Qle_bool_false_lt.
    - destruct (Qle_bool x 0) eqn:E'; [reflexivity |].
      apply Qle_bool_false_lt in E'. congruence. }
  rewrite !Hflip.
  destruct (match mc with Some x => Qltb 0 x | None => true end); simpl;
    [| split; [discriminate | intros [[=] _]]].
  destruct (match ml with Some x => Qltb 0 x | None => true end); simpl;
    [| split; [discriminate | intros [[=] _]]].
  destruct (match mq with Some q => Qle_bool 0 q && Qle_bool q 1 | None => true end)
    eqn:Eq.
  - replace (match mq with Some q => negb (Qle_bool 0 q && Qle_bool q 1)
                         | None => false end) with false
      by (destruct mq; [by rewrite Eq | reflexivity]).
    simpl. destruct mc, ml; simpl; split; intros H; eauto;
      try discriminate; try (by destruct H as [_ [[? [=]] | [? [=]]]]).
  - replace (match mq with Some q => negb (Qle_bool 0 q && Qle_bool q 1)
                         | None => false end) with true
      by (destruct mq; [by rewrite Eq | discriminate]).
    simpl. split; [discriminate | intros [[=] _]].
Qed.

(** ** The complexity estimate *)

#[local] Instance _clamp_proper : Proper (Qeq ==> Qeq) _clamp.
Proof.
  intros x y Hxy. unfold _clamp, Py.max, Py.min. rewrite Hxy. reflexivity.
Qed.

Lemma default_features_in_range (prompt0 : string) :
  Forall (λ feature : Estimator.IFeatureExtractor,
            (0 <= feature prompt0)%Q ∧ (feature prompt0 <= 1)%Q)
         (Estimator._features Estimator.default_complexity_estimator).
Proof.
  simpl. repeat constructor; try apply _clamp_bounds.
  all: unfold Estimator.CodeBlockFeatureExtractor;
    destruct (Estimator.FENCE_PATTERN_search prompt0);
    try discriminate; apply _clamp_bounds.
Qed.

(** X20. On a prompt of ASCII text, the estimate of an estimator (built,
    as the constructor demands, from at least one feature) lies in [0, 1]
    and is exactly 0 when the prompt is empty or blank; on any other such
    prompt the default estimator
    returns the plain average of its four features (length, code, reasoning
    words, technical terms): each feature is already in [0, 1], so no clamp
    changes anything. *)
Theorem estimate_is_the_average_of_the_features
    (self : Estimator.ComplexityEstimator) (prompt0 : string) :
  Estimator._features self ≠ [] →
  is_ascii prompt0 = true →
  ((0 <= Estimator.estimate self prompt0)%Q
   ∧ (Estimator.estimate self prompt0 <= 1)%Q)
  ∧ (Py.is_blank prompt0 = true → Estimator.estimate self prompt0 = 0%Q)
  ∧ (Py.is_blank prompt0 = false →
     (Estimator.estimate Estimator.default_complexity_estimator prompt0
      == (Estimator.LengthFeatureExtractor 300 prompt0
          + Estimator.CodeBlockFeatureExtractor prompt0
          + Estimator.ReasoningKeywordExtractor prompt0
          + Estimator.TechnicalTermExtractor prompt0) / 4)%Q).
Proof.
  intros _ _. split; [| split].
  - unfold Estimator.estimate.
    destruct (Py.falsy prompt0 || Py.is_blank prompt0);
      [split; discriminate | apply _clamp_bounds].
  - intros Hblank. unfold Estimator.estimate. rewrite Hblank, orb_true_r.
    reflexivity.
  - intros Hblank. unfold Estimator.estimate.
    assert (Py.falsy prompt0 = false) as ->
      by (destruct prompt0; [discriminate | reflexivity]).
    rewrite Hblank. cbn [orb].
    pose proof (default_features_in_range prompt0) as Hrange.
    cbn [Estimator._features Estimator.default_complexity_estimator map] in *.
    apply Forall_cons in Hrange as [[? ?] Hrange].
    apply Forall_cons in Hrange as [[? ?] Hrange].
    apply Forall_cons in Hrange as [[? ?] Hrange].
    apply Forall_cons in Hrange as [[? ?] _].
    set (f1 := Estimator.LengthFeatureExtractor 300 prompt0) in *.
    set (f2 := Estimator.CodeBlockFeatureExtractor prompt0) in *.
    set (f3 := Estimator.ReasoningKeywordExtractor prompt0) in *.
    set (f4 := Estimator.TechnicalTermExtractor prompt0) in *.
    clearbody f1 f2 f3 f4.
    unfold Estimator.fmean, Py.sum. cbn [foldl length].
    rewrite (_clamp_id f1), (_clamp_id f2), (_clamp_id f3), (_clamp_id f4)
      by assumption.
    change (Qnat 4) with 4%Q.
    rewrite _clamp_id.
    + field.
    + apply Qle_shift_div_l; lra.
    + apply Qle_shift_div_r; lra.
Qed.

Lemma estimate_is_the_average_of_the_features_witness :
  (Estimator.estimate Estimator.default_complexity_estimator
     "Explain something complex"
   == (Estimator.LengthFeatureExtractor 300 "Explain something complex"
       + Estimator.CodeBlockFeatureExtractor "Explain something complex"
       + Estimator.ReasoningKeywordExtractor "Explain something complex"
       + Estimator.TechnicalTermExtractor "Explain something complex") / 4)%Q.
Proof.
  apply (proj2 (proj2 (estimate_is_the_average_of_the_features
                         Estimator.default_complexity_estimator
                         "Explain something complex" ltac:(discriminate)
                         eq_refl))).
  reflexivity.
Defined.

(** ** The retry decorator *)

Section RetryFacts.
Context {St A : Type}.
Variable attempts : Z.
Variable delay backoff : Q.
Variable exceptions : Error → bool.
Variable func : St → Result A * St.

Lemma Qpower_succ_r (cd : Q) (j : nat) :
  (cd * backoff * backoff ^ Z.of_nat j == cd * backoff ^ Z.of_nat (S j))%Q.
Proof.
  rewrite Nat2Z.inj_succ. unfold Z.succ.
  destruct (Qeq_dec backoff 0) as [Hz | Hnz].
  - rewrite Hz. rewrite (Qpower_0 (Z.of_nat j + 1)) by lia. ring.
  - rewrite Qpower_plus by exact Hnz. simpl. ring.
Qed.

(** The events of the loop from attempt [start] on, with non-negative
    delays: calls at the even places, sleeps at the odd ones. *)
Lemma retry_loop_shape (n : nat) :
  ∀ (start : nat) (current_delay : Q) (last_error : option Error) (s : St),
    (Z.of_nat start + Z.of_nat (S n) = attempts)%Z →
    (0 <= current_delay)%Q → (0 <= backoff)%Q →
    let run := Retry.loop attempts backoff exceptions func (seq start (S n))
                          current_delay last_error s in
    ∃ k : nat,
      (k <= n)%nat
      ∧ length run.2 = (2 * k + 1)%nat
      ∧ (∀ i : nat, (i <= k)%nat →
           run.2 !! (2 * i)%nat = Some (Retry.Call (start + i)))
      ∧ (∀ i : nat, (i < k)%nat →
           ∃ d, run.2 !! (2 * i + 1)%nat = Some (Retry.Sleep d)
                ∧ (d == current_delay * backoff ^ Z.of_nat i)%Q)
      ∧ ∃ s' : St, func s' = (run.1.1, run.1.2).
Proof.
  assert (Hone : ∀ (start : nat) (r : Result A) (s s1 : St),
            func s = (r, s1) →
            ∃ k : nat,
              (k <= 0)%nat
              ∧ length [Retry.Call start] = (2 * k + 1)%nat
              ∧ (∀ i : nat, (i <= k)%nat →
                   [Retry.Call start] !! (2 * i)%nat
                   = Some (Retry.Call (start + i)))
              ∧ (∀ i : nat, (i < k)%nat →
                   ∃ d, [Retry.Call start] !! (2 * i + 1)%nat
                        = Some (Retry.Sleep d)
                        ∧ (d == 0)%Q)
              ∧ ∃ s' : St, func s' = (r, s1)).
  { intros start r s s1 Hcall. exists O. split; [lia |]. split; [reflexivity |].
    split; [| split; [intros i Hi; lia | by exists s]].
    intros i Hi. replace i with O by lia. by rewrite Nat.add_0_r. }
  assert (Hsingle : ∀ (m start : nat) (cd : Q) (r : Result A) (s s1 : St),
            func s = (r, s1) →
            ∃ k : nat,
              (k <= m)%nat
              ∧ length [Retry.Call start] = (2 * k + 1)%nat
              ∧ (∀ i : nat, (i <= k)%nat →
                   [Retry.Call start] !! (2 * i)%nat
                   = Some (Retry.Call (start + i)))
              ∧ (∀ i : nat, (i < k)%nat →
                   ∃ d, [Retry.Call start] !! (2 * i + 1)%nat
                        = Some (Retry.Sleep d)
                        ∧ (d == cd * backoff ^ Z.of_nat i)%Q)
              ∧ ∃ s' : St, func s' = (r, s1)).
  { intros m start cd r s s1 Hcall.
    destruct (Hone start r s s1 Hcall) as (k & Hk & Hlen & Hcalls & _ & Hout).
    exists k. split; [lia |]. split; [exact Hlen |]. split; [exact Hcalls |].
    split; [intros i Hi; lia | exact Hout]. }
  clear Hone.
  induction n as [| n IH]; intros start cd le s Hlen Hcd Hb; cbn zeta.
  - cbn [seq Retry.loop].
    destruct (func s) as [[a | exc] s1] eqn:Hcall;
      [exact (Hsingle _ _ _ _ _ _ Hcall) |].
    destruct (exceptions exc); [| exact (Hsingle _ _ _ _ _ _ Hcall)].
    assert ((Z.of_nat start =? attempts - 1)%Z = true) as ->
      by (apply Z.eqb_eq; lia).
    exact (Hsingle _ _ _ _ _ _ Hcall).
  - change (seq start (S (S n))) with (start :: seq (S start) (S n)).
    cbn [Retry.loop].
    destruct (func s) as [[a | exc] s1] eqn:Hcall;
      [exact (Hsingle _ _ _ _ _ _ Hcall) |].
    destruct (exceptions exc); [| exact (Hsingle _ _ _ _ _ _ Hcall)].
    assert ((Z.of_nat start =? attempts - 1)%Z = false) as ->
      by (apply Z.eqb_neq; lia).
    assert (Qltb cd 0 = false) as -> by (by apply Qltb_false).
    assert (0 <= cd * backoff)%Q as Hnext by (by apply Qmult_le_0_compat).
    specialize (IH (S start) (cd * backoff)%Q (Some exc) s1 ltac:(lia) Hnext Hb).
    cbn zeta in IH.
    destruct (Retry.loop attempts backoff exceptions func
                (seq (S start) (S n)) (cd * backoff)%Q (Some exc) s1)
      as [[res s2] events].
    cbn [fst snd] in *.
    destruct IH as (k & Hk & Hlength & Hcalls & Hsleeps & Hout).
    exists (S k). split; [lia |]. split; [cbn [length]; lia |].
    split; [| split; [| exact Hout]].
    + intros [| j] Hj.
      * by rewrite Nat.add_0_r.
      * replace (2 * S j)%nat with (S (S (2 * j))) by lia.
        replace (start + S j)%nat with (S start + j)%nat by lia.
        apply (Hcalls j). lia.
    + intros [| j] Hj.
      * exists cd. split; [reflexivity |]. simpl. ring.
      * replace (2 * S j + 1)%nat with (S (S (2 * j + 1))) by lia.
        destruct (Hsleeps j ltac:(lia)) as (d & Hd & Hval).
        exists d. split; [exact Hd |]. rewrite Hval. apply Qpower_succ_r.
Qed.

(** X21. A function decorated with [retry(attempts, delay, backoff,
    exceptions)].  With [attempts <= 0] it is not called at all and the
    wrapper raises RuntimeError("retry failed"), leaving the state alone.
    With [attempts >= 1] and a delay and a backoff that are not negative,
    the wrapper makes [k + 1] calls for some [k < attempts] and sleeps
    after each call but the last, and nowhere else: call [i] is event
    [2 i], the sleep that follows it is event [2 i + 1] and lasts
    [delay * backoff^i]; what the wrapper returns or raises is the outcome
    of a call of the function, so the final [raise] is never reached.
    With a negative delay the first retry ends in the ValueError of
    [time.sleep], after a single call. *)
Theorem retry_calls_sleeps_and_outcome (s : St) :
  let run := Retry.wrapper attempts delay backoff exceptions func s in
  ((attempts <= 0)%Z →
   run = (Raise (RuntimeError "retry failed" None), s, []))
  ∧ ((0 < attempts)%Z → (0 <= delay)%Q → (0 <= backoff)%Q →
     ∃ k : nat,
       (Z.of_nat k < attempts)%Z
       ∧ length run.2 = (2 * k + 1)%nat
       ∧ (∀ i : nat, (i <= k)%nat → run.2 !! (2 * i)%nat = Some (Retry.Call i))
       ∧ (∀ i : nat, (i < k)%nat →
            ∃ d, run.2 !! (2 * i + 1)%nat = Some (Retry.Sleep d)
                 ∧ (d == delay * backoff ^ Z.of_nat i)%Q)
       ∧ ∃ s' : St, func s' = (run.1.1, run.1.2))
  ∧ ((1 < attempts)%Z → (delay < 0)%Q →
     ∀ (exc : Error) (s1 : St),
       func s = (Raise exc, s1) → exceptions exc = true →
       run = (Raise (ValueError "sleep length must be non-negative"), s1,
              [Retry.Call 0])).
Proof.
  cbn zeta. unfold Retry.wrapper, BaseProvider.range. split; [| split].
  - intros Hle. replace (Z.to_nat attempts) with O by lia. reflexivity.
  - intros Hpos Hdelay Hbackoff.
    destruct (Z.to_nat attempts) as [| n] eqn:Hn; [lia |].
    destruct (retry_loop_shape n O delay None s ltac:(lia) Hdelay Hbackoff)
      as (k & Hk & Hlength & Hcalls & Hsleeps & Hout).
    exists k. split; [lia |]. split; [exact Hlength |].
    split; [exact Hcalls |]. split; [exact Hsleeps | exact Hout].
  - intros Hmany Hneg exc s1 Hcall Hexc.
    destruct (Z.to_nat attempts) as [| [| n]] eqn:Hn; [lia | lia |].
    change (seq 0 (S (S n))) with (O :: seq 1 (S n)). cbn [Retry.loop].
    rewrite Hcall, Hexc.
    assert ((Z.of_nat 0 =? attempts - 1)%Z = false) as ->
      by (apply Z.eqb_neq; lia).
    assert (Qltb delay 0 = true) as -> by (by apply Qltb_true).
    reflexivity.
Qed.
End RetryFacts.

(** Three attempts on a function that fails twice with a retried error and
    then succeeds. *)
Lemma retry_calls_sleeps_and_outcome_witness :
  let func := λ s : nat,
    (if (s <? 2)%nat then Raise (ProviderUnavailableError "down") else Ok s,
     S s) in
  let run := Retry.wrapper 3 (1 # 10) 2 (λ _, true) func O in
  run.1.1 = Ok 2%nat
  ∧ ∃ k : nat,
      (Z.of_nat k < 3)%Z
      ∧ length run.2 = (2 * k + 1)%nat
      ∧ (∀ i : nat, (i <= k)%nat → run.2 !! (2 * i)%nat = Some (Retry.Call i))
      ∧ (∀ i : nat, (i < k)%nat →
           ∃ d, run.2 !! (2 * i + 1)%nat = Some (Retry.Sleep d)
                ∧ (d == (1 # 10) * 2 ^ Z.of_nat i)%Q)
      ∧ ∃ s' : nat, func s' = (run.1.1, run.1.2).
Proof.
  cbn zeta. split; [reflexivity |].
  apply (proj1 (proj2 (retry_calls_sleeps_and_outcome 3 (1 # 10) 2 (λ _, true)
    (λ s : nat,
       (if (s <? 2)%nat then Raise (ProviderUnavailableError "down") else Ok s,
        S s))
    O))); [lia | discriminate | discriminate].
Defined.

(** ** Analytics aggregation *)

Lemma group_by_model_from (records : list Analytics.RequestRecord) :
  ∀ (grouped : gmap string (list Analytics.RequestRecord)) (name0 : string),
    foldl (λ grouped record,
             <[ Analytics.model record :=
                  default [] (grouped !! Analytics.model record) ++ [record] ]>
               grouped)
          grouped records !! name0
    = match List.filter (λ r, String.eqb (Analytics.model r) name0) records with
      | [] => grouped !! name0
      | group => Some (default [] (grouped !! name0) ++ group)
      end.
Proof.
  induction records as [| r rest IH]; intros grouped name0; [reflexivity |].
  cbn [foldl List.filter]. rewrite IH.
  destruct (String.eqb (Analytics.model r) name0) eqn:E.
  - apply String.eqb_eq in E. subst name0. rewrite lookup_insert_eq.
    destruct (List.filter _ rest); [reflexivity |].
    unfold default. cbn [from_option id]. by rewrite <- app_assoc.
  - apply String.eqb_neq in E. rewrite lookup_insert_ne by exact E.
    reflexivity.
Qed.

(** X22. [group_by_model] files every record under its own model name and
    nowhere else: the group of a name is the sub-list of the records of
    that model, in their original order, and a name no record carries has
    no group (no empty group is ever created). *)
Theorem group_by_model_partitions_the_records
    (records : list Analytics.RequestRecord) (name0 : string) :
  Analytics.group_by_model records !! name0
  = match List.filter (λ r, String.eqb (Analytics.model r) name0) records with
    | [] => None
    | group => Some group
    end.
Proof.
  unfold Analytics.group_by_model. rewrite group_by_model_from.
  rewrite lookup_empty. reflexivity.
Qed.

(** ** API keys given to the container *)

Lemma provided_keys (keys : list (option string)) (k : string) :
  k ∈ omap (λ key : option string,
              match key with
              | Some k => if Py.falsy k then None else Some k
              | None => None
              end) keys
  ↔ Some k ∈ keys ∧ Py.falsy k = false.
Proof.
  rewrite list_elem_of_omap. split.
  - intros ([k' |] & Hin & Hk); [| discriminate].
    destruct (Py.falsy k') eqn:E; [discriminate |].
    injection Hk as ->. by split.
  - intros [Hin Hk]. exists (Some k). split; [exact Hin |]. by rewrite Hk.
Qed.

Lemma normalize_api_key_cases
    (provider_name : string) (keys : list (option string)) :
  match Container._normalize_api_key provider_name keys with
  | Ok None => ∀ k, Some k ∈ keys → Py.falsy k = true
  | Ok (Some key) =>
      Some key ∈ keys ∧ Py.falsy key = false
      ∧ ∀ k, Some k ∈ keys → Py.falsy k = true ∨ k = key
  | Raise e =>
      (∃ msg, e = ValueError msg)
      ∧ ∃ k1 k2, Some k1 ∈ keys ∧ Some k2 ∈ keys
                 ∧ Py.falsy k1 = false ∧ Py.falsy k2 = false ∧ k1 ≠ k2
  end.
Proof.
  unfold Container._normalize_api_key.
  pose proof (provided_keys keys) as Hprov.
  destruct (omap _ keys) as [| first rest] eqn:Hp.
  - intros k Hin. destruct (Py.falsy k) eqn:E; [reflexivity |].
    exfalso. eapply not_elem_of_nil. apply Hprov. by split.
  - set (provided := first :: rest) in *.
    assert (Hfirst : first ∈ provided) by (subst provided; left).
    case_bool_decide as Hsize.
    + split; [by eexists |].
      destruct (decide (Forall (λ k, k = first) provided)) as [Hall | Hnot].
      * exfalso.
        assert (list_to_set provided ⊆ ({[ first ]} : gset string)) as Hsub.
        { intros k Hk. apply elem_of_list_to_set in Hk.
          rewrite Forall_forall in Hall. apply Hall in Hk.
          by apply elem_of_singleton. }
        apply subseteq_size in Hsub. rewrite size_singleton in Hsub. lia.
      * apply not_Forall_Exists in Hnot; [| intros k; apply _].
        apply Exists_exists in Hnot as (k & Hk & Hne).
        apply Hprov in Hk as [Hk Hkf]. apply Hprov in Hfirst as [Hf Hff].
        exists k, first. repeat split; assumption.
    + pose proof (proj1 (Hprov first) Hfirst) as [Hf Hff].
      split; [exact Hf |]. split; [exact Hff |].
      intros k Hin. destruct (Py.falsy k) eqn:E; [by left | right].
      assert (Hk : k ∈ provided) by (apply Hprov; by split).
      assert (size (list_to_set provided : gset string) = 1%nat) as Hone.
      { assert (size (list_to_set provided : gset string) ≠ 0%nat).
        { intros Hz. apply size_empty_inv in Hz.
          assert (first ∈ (list_to_set provided : gset string)) as Hmem
            by (by apply elem_of_list_to_set).
          rewrite Hz in Hmem. by apply elem_of_empty in Hmem. }
        lia. }
      eapply (size_singleton_inv _ _ _ Hone); by apply elem_of_list_to_set.
Qed.

(** X23. [_normalize_api_key] over the keys given for one provider, absent
    and empty keys counting as not given: it returns None exactly when no
    key is given, returns the key when all given keys are the same string,
    and raises ValueError exactly when two given keys differ. *)
Theorem normalize_api_key_accepts_one_value
    (provider_name : string) (keys : list (option string)) :
  match Container._normalize_api_key provider_name keys with
  | Ok None => ∀ k, Some k ∈ keys → Py.falsy k = true
  | Ok (Some key) =>
      Some key ∈ keys ∧ Py.falsy key = false
      ∧ ∀ k, Some k ∈ keys → Py.falsy k = true ∨ k = key
  | Raise e =>
      (∃ msg, e = ValueError msg)
      ∧ ∃ k1 k2, Some k1 ∈ keys ∧ Some k2 ∈ keys
                 ∧ Py.falsy k1 = false ∧ Py.falsy k2 = false ∧ k1 ≠ k2
  end.
Proof.
  apply normalize_api_key_cases.
Qed.

(** ** The strategy and the provider configurations of the container *)

Lemma select_strategy_cases (strategy_name : string) :
  match Container._select_strategy strategy_name with
  | Ok s =>
      Py.lower strategy_name ∈ Config._ALLOWED_STRATEGIES
      ∧ s ∈ shipped_strategies
      ∧ name s = Py.lower strategy_name
  | Raise e =>
      (Py.lower strategy_name ∉ Config._ALLOWED_STRATEGIES)
      ∧ ∃ msg, e = ValueError msg
  end.
Proof.
  unfold Container._select_strategy, Container.strategies.
  cbn [Container.strategies_get].
  repeat match goal with
  | |- context [String.eqb ?k ?n] =>
      let E := fresh "E" in
      destruct (String.eqb k n) eqn:E;
        [apply String.eqb_eq in E; rewrite <- E;
         unfold Config._ALLOWED_STRATEGIES, shipped_strategies;
         split; [| split; [| reflexivity]];
         repeat (apply elem_of_cons; first [by left | right])
        | apply String.eqb_neq in E]
  end.
  split; [| by eexists].
  unfold Config._ALLOWED_STRATEGIES. intros Hin.
  repeat (apply elem_of_cons in Hin as [Hin | Hin]; [congruence |]).
  by apply elem_of_nil in Hin.
Qed.

(** X24. [_select_strategy] succeeds exactly on the names whose lower-case
    form is one of the four a configuration may carry, and raises
    ValueError on every other name; the strategy it hands out is one of the
    four shipped strategies, the one whose own [name] is the lower-case
    form of the name asked for.  So for every validated configuration the
    container finds a shipped strategy, and that strategy reports the
    configured name. *)
Theorem container_strategy_carries_the_configured_name
    (strategy_name : string) (config : Config.RouterConfig) :
  match Container._select_strategy strategy_name with
  | Ok s =>
      Py.lower strategy_name ∈ Config._ALLOWED_STRATEGIES
      ∧ s ∈ shipped_strategies
      ∧ name s = Py.lower strategy_name
  | Raise e =>
      (Py.lower strategy_name ∉ Config._ALLOWED_STRATEGIES)
      ∧ ∃ msg, e = ValueError msg
  end
  ∧ (Config.validate config = true →
     ∃ s, Container._select_strategy (Config.default_strategy config) = Ok s
          ∧ s ∈ shipped_strategies
          ∧ name s = Config.default_strategy config).
Proof.
  split; [apply select_strategy_cases |].
  intros Hvalid. unfold Config.validate in Hvalid.
  apply andb_true_iff in Hvalid as [Hvalid _].
  apply andb_true_iff in Hvalid as [Hname _].
  apply existsb_exists in Hname as (allowed & Hin & Heq).
  apply String.eqb_eq in Heq. rewrite Heq. apply list_elem_of_In in Hin.
  unfold Config._ALLOWED_STRATEGIES in Hin.
  repeat (apply elem_of_cons in Hin as [-> | Hin];
          [eexists; split; [reflexivity |]; split; [| reflexivity];
           unfold shipped_strategies;
           repeat (apply elem_of_cons; first [by left | right]) |]).
  by apply elem_of_nil in Hin.
Qed.

Lemma container_strategy_carries_the_configured_name_witness :
  ∃ s, Container._select_strategy (Config.default_strategy Config.default) = Ok s
       ∧ s ∈ shipped_strategies
       ∧ name s = Config.default_strategy Config.default.
Proof.
  apply (proj2 (container_strategy_carries_the_configured_name
                  "" Config.default)).
  reflexivity.
Defined.

Lemma add_config_cases (provider_name url : string) (key : option string)
    (configs : gmap string ProviderConfig) :
  Py.falsy url = false →
  (Container.add_config provider_name url key configs = Ok configs
   ∧ ∀ k, key = Some k → Py.falsy k = true)
  ∨ ∃ k c, key = Some k ∧ Py.falsy k = false
           ∧ api_key c = k ∧ ProviderConfig_valid c = true
           ∧ Container.add_config provider_name url key configs
             = Ok (<[ provider_name := c ]> configs).
Proof.
  intros Hurl. unfold Container.add_config.
  destruct key as [k |]; [| left; split; [reflexivity | discriminate]].
  destruct (Py.falsy k) eqn:Hk.
  - left. split; [reflexivity |]. by intros ? [= <-].
  - right. unfold ProviderConfig_new. rewrite Hk, Hurl.
    eexists k, _. split; [reflexivity |]. split; [exact Hk |].
    refine (conj _ (conj _ eq_refl)); [reflexivity |].
    unfold ProviderConfig_valid. cbn [api_key base_url timeout max_retries
                                      backoff_factor].
    rewrite Hk, Hurl. reflexivity.
Qed.

(** X25. The provider configurations [create_router] builds from the six
    key arguments: if it gets that far, at least one provider is
    configured, the only names used are openai, anthropic and google (the
    keys the router looks providers up by), every configuration passes the
    checks of ProviderConfig, and its API key is a non-empty key the caller
    gave for that very provider.  Everything else ends in a ValueError. *)
Theorem container_configures_only_providers_with_a_key
    (openai_key anthropic_key google_key : option string)
    (openai_api_key anthropic_api_key google_api_key : option string) :
  match Container.create_router_provider_configs
          openai_key anthropic_key google_key
          openai_api_key anthropic_api_key google_api_key with
  | Ok configs =>
      configs ≠ ∅
      ∧ ∀ provider_name c, configs !! provider_name = Some c →
          ProviderConfig_valid c = true
          ∧ Py.falsy (api_key c) = false
          ∧ (provider_name = Provider_value OPENAI
               ∧ Some (api_key c) ∈ [openai_key; openai_api_key]
             ∨ provider_name = Provider_value ANTHROPIC
               ∧ Some (api_key c) ∈ [anthropic_key; anthropic_api_key]
             ∨ provider_name = Provider_value GOOGLE
               ∧ Some (api_key c) ∈ [google_key; google_api_key])
  | Raise e => ∃ msg, e = ValueError msg
  end.
Proof.
  unfold Container.create_router_provider_configs.
  pose proof (normalize_api_key_cases "openai" [openai_key; openai_api_key])
    as H1.
  pose proof (normalize_api_key_cases "anthropic"
                [anthropic_key; anthropic_api_key]) as H2.
  pose proof (normalize_api_key_cases "google" [google_key; google_api_key])
    as H3.
  destruct (Container._normalize_api_key "openai" _) as [r1 | e1];
    [| exact (proj1 H1)].
  destruct (Container._normalize_api_key "anthropic" _) as [r2 | e2];
    [| exact (proj1 H2)].
  destruct (Container._normalize_api_key "google" _) as [r3 | e3];
    [| exact (proj1 H3)].
  unfold Container._build_provider_configs.
  destruct (add_config_cases "openai" "https://api.openai.com" r1 ∅ eq_refl)
    as [[-> F1] | (k1 & c1 & -> & Hk1 & Hc1 & Hv1 & ->)];
  [set (m1 := (∅ : gmap string ProviderConfig))
  | set (m1 := <[ "openai" := c1 ]> (∅ : gmap string ProviderConfig))];
  (destruct (add_config_cases "anthropic" "https://api.anthropic.com" r2 m1
               eq_refl)
     as [[-> F2] | (k2 & c2 & -> & Hk2 & Hc2 & Hv2 & ->)];
   [set (m2 := m1) | set (m2 := <[ "anthropic" := c2 ]> m1)]);
  (destruct (add_config_cases "google"
               "https://generativelanguage.googleapis.com" r3 m2 eq_refl)
     as [[-> F3] | (k3 & c3 & -> & Hk3 & Hc3 & Hv3 & ->)]);
  case_bool_decide as Hempty; try (by eexists);
  (split; [exact Hempty |]);
  intros provider_name c Hlook; subst m2 m1;
  repeat match type of Hlook with
  | <[ ?k := _ ]> _ !! _ = Some _ =>
      apply lookup_insert_Some in Hlook as [[<- <-] | [_ Hlook]]
  | ∅ !! _ = Some _ => by rewrite lookup_empty in Hlook
  end;
  (split; [assumption |]); subst;
  (split; [assumption |]);
  first
    [ left; split; [reflexivity | exact (proj1 H1)]
    | right; left; split; [reflexivity | exact (proj1 H2)]
    | right; right; split; [reflexivity | exact (proj1 H3)] ].
Qed.

(** ** The further properties on the data of the test suite *)

(** The router of the fallback test with its retry budget set to zero. *)
Lemma nothing_is_invoked_without_budget_or_configuration_witness :
  let router :=
    {| Router._config :=
         {| Config.default_strategy := "balanced";
            Config.enable_analytics := true; Config.enable_cache := false;
            Config.fallback_models := ["gpt-3.5"]; Config.max_retries := 0;
            Config.timeout_seconds := 30 |};
       Router._provider_configs := {[ "openai" := Fixtures.openai_config ]};
       Router._forced_provider := None |} in
  (Router._execute_with_fallback TestDoubles.collaborators router
     Fixtures.decision_gpt4 Fixtures.request_hello Fixtures.stub).1.1
  = Raise (RuntimeError "All provider attempts failed" None).
Proof.
  cbn zeta.
  rewrite (nothing_is_invoked_without_budget_or_configuration
             TestDoubles.collaborators _ Fixtures.decision_gpt4
             Fixtures.request_hello Fixtures.stub).
  - reflexivity.
  - left. reflexivity.
Defined.

(** Two OpenAI models created with the same key share one instance. *)
Lemma create_reuses_instance_per_class_and_key_witness :
  ∃ instance f1,
    Factory.create Factory.ProviderFactory_new "gpt-4" Fixtures.openai_config
    = (Ok instance, f1)
    ∧ Factory.create f1 "gpt-4o" Fixtures.openai_config = (Ok instance, f1).
Proof.
  destruct (Factory.create Factory.ProviderFactory_new "gpt-4"
              Fixtures.openai_config) as [[instance | e] f1] eqn:Hcreate.
  - exists instance, f1. split; [reflexivity |].
    apply (create_reuses_instance_per_class_and_key
             Factory.ProviderFactory_new f1 "gpt-4" "gpt-4o"
             Fixtures.openai_config Fixtures.openai_config instance Hcreate).
    + vm_compute. reflexivity.
    + reflexivity.
  - exfalso. vm_compute in Hcreate. discriminate Hcreate.
Defined.

Lemma build_constraints_fills_in_both_bounds_witness :
  is_ok (Facade._build_constraints Fixtures.fallback_router (Some (5 # 100))
           None None None) = true.
Proof.
  apply (proj1 (build_constraints_fills_in_both_bounds Fixtures.fallback_router
                  (Some (5 # 100)) None None eq_refl)).
  split; [| split].
  - intros x [= <-]. reflexivity.
  - intros x [=].
  - intros q [=].
Defined.

Lemma selected_model_has_the_highest_score_witness :
  ∃ d, Selector.select BalancedStrategy.BalancedStrategy Py.repr_decimal
         [Fixtures.cheap; Fixtures.premium] Fixtures.request_explain
         (Fixtures.max_cost_only (1 # 10)) = Ok d
       ∧ selected_model d ∈ [Fixtures.cheap; Fixtures.premium]
       ∧ estimated_cost d = pricing (val (selected_model d)).
Proof.
  eexists. split; [vm_compute; reflexivity |].
  match goal with
  | |- selected_model ?d ∈ _ ∧ _ =>
      destruct (selected_model_has_the_highest_score
                  BalancedStrategy.BalancedStrategy Py.repr_decimal
                  [Fixtures.cheap; Fixtures.premium] Fixtures.request_explain
                  (Fixtures.max_cost_only (1 # 10)) d)
        as (Hin & _ & Hcost & _)
  end.
  - vm_compute. reflexivity.
  - split; [exact Hin | exact Hcost].
Defined.

(** The premium model comes second in the list and scores higher than the
    cheap one. *)
Lemma first_best_survivor_is_selected_witness :
  ∃ d, Selector.select BalancedStrategy.BalancedStrategy Py.repr_decimal
         [Fixtures.cheap; Fixtures.premium] Fixtures.request_explain
         (Fixtures.max_cost_only (1 # 10)) = Ok d
       ∧ selected_model d = Fixtures.premium.
Proof.
  eexists. split; [vm_compute; reflexivity |].
  apply (first_best_survivor_is_selected
           BalancedStrategy.BalancedStrategy Py.repr_decimal
           [Fixtures.cheap; Fixtures.premium] Fixtures.request_explain
           (Fixtures.max_cost_only (1 # 10)) _ [Fixtures.cheap] []
           Fixtures.premium).
  - reflexivity.
  - vm_compute. reflexivity.
  - intros x Hx. apply list_elem_of_singleton in Hx as ->.
    vm_compute. reflexivity.
  - intros x Hx. by apply elem_of_nil in Hx.
Defined.

Lemma quality_score_is_a_fraction_witness :
  Selector._quality_score
    {| provider := OPENAI; model_name := "bare"; pricing := 1 # 100;
       capabilities := ∅ |} = 0%Q.
Proof.
  apply (proj2 (proj2 (quality_score_is_a_fraction _))). reflexivity.
Defined.

Lemma cost_strategy_prefers_cheaper_models_witness :
  (score_model CostStrategy.CostOptimizedStrategy (val Fixtures.premium)
     (1 # 2) (Fixtures.max_cost_only (1 # 10))
   <= score_model CostStrategy.CostOptimizedStrategy (val Fixtures.cheap)
        (1 # 2) (Fixtures.max_cost_only (1 # 10)))%Q.
Proof.
  apply cost_strategy_prefers_cheaper_models.
  - reflexivity.
  - simpl. lra.
Defined.

(** A blank prompt in front of a chain with a second middleware. *)
Lemma validation_middleware_guards_the_chain_witness :
  let s := {| Middleware.world := tt; Middleware.log := [];
              Middleware.tracked := []; Middleware._last_request := None;
              Middleware._cache := ∅; Middleware._current_key := None |} in
  ∃ msg,
    Middleware.execute
      [Middleware.ValidationMiddleware; Middleware.LoggingMiddleware]
      {| prompt := " " |}
      (λ _ s1, (Ok Fixtures.primary_response, s1)) s
    = (Raise (ValueError msg), s).
Proof.
  cbn zeta.
  apply (proj2 (validation_middleware_guards_the_chain {| prompt := " " |} _)).
  reflexivity.
Defined.

(** The fallback test run through [complete] with the middleware chain of
    the container. *)
Lemma container_wiring_tracks_each_completion_twice_witness :
  let s := {| Middleware.world := Fixtures.stub; Middleware.log := [];
              Middleware.tracked := []; Middleware._last_request := None;
              Middleware._cache := ∅; Middleware._current_key := None |} in
  ∃ response s1,
    Entry.complete Fixtures.engine TestDoubles.collaborators true
      (Container._build_middleware_chain
         (Router._config Fixtures.fallback_router) true)
      Fixtures.fallback_router "hello" None None None None s
    = (Ok response, s1)
    ∧ Middleware.tracked s1
      = [({| prompt := "hello" |}, response); ({| prompt := "hello" |}, response)].
Proof.
  cbn zeta. eexists _, _. split; [vm_compute; reflexivity |].
  apply (container_wiring_tracks_each_completion_twice Fixtures.engine
           TestDoubles.collaborators Fixtures.fallback_router
           "hello" None None None None
           {| Middleware.world := Fixtures.stub; Middleware.log := [];
              Middleware.tracked := []; Middleware._last_request := None;
              Middleware._cache := ∅; Middleware._current_key := None |}).
  - reflexivity.
  - vm_compute. reflexivity.
Defined.
